(** * check_node_performance/single_run.py: a shallow embedding

    The script reserves the nodes of a cluster, deploys them, installs
    sysbench and runs a fixed list of benchmarks, logging one result per
    host.  The embedding below follows the script function by function.
    Calls into execo / execo_g5k are answered by an environment record
    and every externally visible action is recorded in a trace. *)

From Stdlib Require Import ZArith List String Ascii Bool Lia.
From Stdlib Require Import Permutation Sorted DecimalString OrdersEx.
From Stdlib Require Import RelationClasses.
Import ListNotations.
Open Scope string_scope.

(** ** Python values used by the script *)

Module Py.

(** Exceptions the script can raise by itself. *)
Inductive Exn :=
| IndexError
| KeyError (key : string)
| ValueError (literal : string)
| TypeError (what : string)
| NameError (name : string)
| AttributeError (attr : string).

(** The result of evaluating an expression: a value or an exception. *)
Definition Result (A : Type) : Type := (Exn + A)%type.

Definition ok {A} (a : A) : Result A := inr a.
Definition throw {A} (e : Exn) : Result A := inl e.

Definition rbind {A B} (r : Result A) (k : A -> Result B) : Result B :=
  match r with
  | inl e => inl e
  | inr a => k a
  end.

(** Evaluates [f] on the elements from left to right and stops at the
    first exception, as a list comprehension or a key function does. *)
Fixpoint rmap {A B} (f : A -> Result B) (l : list A) : Result (list B) :=
  match l with
  | [] => ok []
  | x :: xs =>
      rbind (f x) (fun y => rbind (rmap f xs) (fun ys => ok (y :: ys)))
  end.

(** [l[i]] *)
Definition index {A} (l : list A) (i : nat) : Result A :=
  match nth_error l i with
  | Some x => ok x
  | None => throw IndexError
  end.

(** [d[k]] on a dict with string keys. *)
Fixpoint getitem {A} (d : list (string * A)) (k : string) : Result A :=
  match d with
  | [] => throw (KeyError k)
  | (k', v) :: d' => if String.eqb k' k then ok v else getitem d' k
  end.

(** [str.isspace] for one byte: space, \t, \n, \v, \f, \r. *)
Definition isspace (c : ascii) : bool :=
  Ascii.eqb c " " || Ascii.eqb c "009" || Ascii.eqb c "010"
  || Ascii.eqb c "011" || Ascii.eqb c "012" || Ascii.eqb c "013".

Definition isdigit (c : ascii) : bool :=
  let n := nat_of_ascii c in (48 <=? n)%nat && (n <=? 57)%nat.

Fixpoint lstrip (s : string) : string :=
  match s with
  | String c s' => if isspace c then lstrip s' else s
  | EmptyString => EmptyString
  end.

Fixpoint rstrip (s : string) : string :=
  match s with
  | EmptyString => EmptyString
  | String c s' =>
      match rstrip s' with
      | EmptyString => if isspace c then EmptyString else String c EmptyString
      | r => String c r
      end
  end.

(** [s.strip()] *)
Definition strip (s : string) : string := rstrip (lstrip s).

Fixpoint repeat_char (c : ascii) (n : nat) : string :=
  match n with
  | O => EmptyString
  | S n' => String c (repeat_char c n')
  end.

(** [s.ljust(width)] *)
Definition ljust (s : string) (width : nat) : string :=
  s ++ repeat_char " " (width - String.length s).

(** [sep.join(l)] *)
Definition join (sep : string) (l : list string) : string :=
  String.concat sep l.

(** [pat in s] *)
Fixpoint contains (pat s : string) : bool :=
  String.prefix pat s
  || match s with
     | EmptyString => false
     | String _ s' => contains pat s'
     end.

(** [s.split(sep, maxsplit)] for a one-character separator;
    [maxsplit = None] stands for the call without a limit.  The result
    always has at least one piece. *)
Fixpoint split (sep : ascii) (maxsplit : option nat) (s : string)
  : list string :=
  match s with
  | EmptyString => [EmptyString]
  | String c s' =>
      match maxsplit with
      | Some O => [s]
      | _ =>
          if Ascii.eqb c sep
          then EmptyString :: split sep (option_map Nat.pred maxsplit) s'
          else
            match split sep maxsplit s' with
            | p :: ps => String c p :: ps
            | [] => [String c EmptyString]
            end
      end
  end.

(** Value of a run of decimal digits, most significant first. *)
Fixpoint digits_value (acc : Z) (s : string) : option Z :=
  match s with
  | EmptyString => Some acc
  | String c s' =>
      if isdigit c
      then digits_value (10 * acc + Z.of_nat (nat_of_ascii c - 48)) s'
      else None
  end.

Definition unsigned_value (s : string) : option Z :=
  match s with
  | EmptyString => None
  | _ => digits_value 0 s
  end.

(** [int(s)] on a byte string, base 10 (Python 2): surrounding white
    space is ignored, one sign is allowed, at least one digit is
    required and nothing else may follow. *)
Definition int (s : string) : Result Z :=
  let body := strip s in
  let parsed :=
    match body with
    | String "-" ds => option_map Z.opp (unsigned_value ds)
    | String "+" ds => unsigned_value ds
    | _ => unsigned_value body
    end in
  match parsed with
  | Some z => ok z
  | None => throw (ValueError s)
  end.

(** [str(n)] for an integer. *)
Definition str (n : Z) : string := NilZero.string_of_int (Z.to_int n).

(** [str(x)] for a value that may be [None]. *)
Definition str_opt {A} (f : A -> string) (x : option A) : string :=
  match x with
  | Some a => f a
  | None => "None"
  end.

(** [a + b] where [a] is a string and [b] a string or [None]. *)
Definition add_str (a : string) (b : option string) : Result string :=
  match b with
  | Some s => ok (a ++ s)
  | None => throw (TypeError "cannot concatenate 'str' and 'NoneType'")
  end.

(** [not x] for an integer that may be [None]. *)
Definition falsy (x : option Z) : bool :=
  match x with
  | None => true
  | Some z => (z =? 0)%Z
  end.

(** [fmt % args] restricted to the conversions [%s] and [%%]; the
    arguments are already converted with [str]. *)
Fixpoint percent (fmt : string) (args : list string) : Result string :=
  match fmt with
  | EmptyString =>
      match args with
      | [] => ok EmptyString
      | _ => throw (TypeError "not all arguments converted")
      end
  | String "%" (String "s" rest) =>
      match args with
      | a :: args' => rbind (percent rest args') (fun r => ok (a ++ r))
      | [] => throw (TypeError "not enough arguments")
      end
  | String "%" (String "%" rest) =>
      rbind (percent rest args) (fun r => ok (String "%" r))
  | String "%" _ => throw (ValueError "unsupported format character")
  | String c rest => rbind (percent rest args) (fun r => ok (String c r))
  end.

End Py.

(** ** [string.Template] *)

Module Template.
Import Py.

Definition is_alpha (c : ascii) : bool :=
  let n := nat_of_ascii c in
  ((65 <=? n)%nat && (n <=? 90)%nat) || ((97 <=? n)%nat && (n <=? 122)%nat).

(** First character of an identifier: [[_a-zA-Z]]. *)
Definition ident_start (c : ascii) : bool := Ascii.eqb c "_" || is_alpha c.

(** Following characters of an identifier: [[_a-zA-Z0-9]]. *)
Definition ident_char (c : ascii) : bool := ident_start c || isdigit c.

(** Where the scanner is: in plain text, just after a [$], inside a
    [$name] or inside a [${name}]. *)
Inductive State :=
| Text
| Dollar
| Named (name : string)
| Braced (name : string).

Definition snoc (s : string) (c : ascii) : string :=
  s ++ String c EmptyString.

Definition invalid {A} : Result A :=
  throw (ValueError "Invalid placeholder in string").

(** [Template(t).substitute(...)] with keyword arguments [kw]: [$$] is a dollar, [$name] and
    [${name}] are looked up in [kw] ([KeyError] when absent), any other
    use of [$] is a [ValueError].  Placeholders are replaced from left
    to right. *)
Fixpoint scan (kw : list (string * string)) (st : State) (t : string)
  : Result string :=
  match t with
  | EmptyString =>
      match st with
      | Text => ok EmptyString
      | Named n => getitem kw n
      | Dollar | Braced _ => invalid
      end
  | String c t' =>
      match st with
      | Text =>
          if Ascii.eqb c "$" then scan kw Dollar t'
          else rbind (scan kw Text t') (fun r => ok (String c r))
      | Dollar =>
          if Ascii.eqb c "$"
          then rbind (scan kw Text t') (fun r => ok (String "$" r))
          else if ident_start c then scan kw (Named (String c EmptyString)) t'
          else if Ascii.eqb c "{" then scan kw (Braced EmptyString) t'
          else invalid
      | Named n =>
          if ident_char c then scan kw (Named (snoc n c)) t'
          else
            rbind (getitem kw n) (fun v =>
            rbind (if Ascii.eqb c "$" then scan kw Dollar t'
                   else rbind (scan kw Text t') (fun r => ok (String c r)))
                  (fun r => ok (v ++ r)))
      | Braced n =>
          if Ascii.eqb c "}" then
            match n with
            | EmptyString => invalid
            | _ => rbind (getitem kw n) (fun v =>
                   rbind (scan kw Text t') (fun r => ok (v ++ r)))
            end
          else if match n with
                  | EmptyString => ident_start c
                  | _ => ident_char c
                  end
          then scan kw (Braced (snoc n c)) t'
          else invalid
      end
  end.

Definition substitute (t : string) (kw : list (string * string))
  : Result string :=
  scan kw Text t.

End Template.

(** ** The shell pipeline appended to the sysbench commands *)

Module Sh.

Definition dquote : string := String "034" EmptyString.
Definition nl : string := String "010" EmptyString.

(** The three filters the script chains after sysbench. *)
Inductive Stage :=
| Grep (pat : string)             (* grep "pat" *)
| AwkPrint (field : nat)          (* awk '{print $field}' *)
| Cut (delim : ascii) (field : nat). (* cut -d delim -f field *)

Definition nat_str (n : nat) : string :=
  NilZero.string_of_uint (Nat.to_uint n).

(** The command line text of a stage. *)
Definition render_stage (st : Stage) : string :=
  match st with
  | Grep pat => "grep " ++ dquote ++ pat ++ dquote
  | AwkPrint n => "awk '{print $" ++ nat_str n ++ "}'"
  | Cut d n => "cut -d " ++ String d EmptyString ++ " -f " ++ nat_str n
  end.

(** The text of a pipeline continuing another command. *)
Definition render (p : list Stage) : string :=
  Py.join " " (map (fun st => "| " ++ render_stage st) p).

(** awk's default field separator: blanks and newlines. *)
Definition awk_blank (c : ascii) : bool :=
  Ascii.eqb c " " || Ascii.eqb c "009" || Ascii.eqb c "010".

(** awk's field splitting with the default separator: leading and
    trailing blanks are skipped, a run of blanks separates two fields.
    [cur] holds the characters of the field being read. *)
Fixpoint awk_scan (cur : string) (line : string) : list string :=
  match line with
  | EmptyString =>
      match cur with
      | EmptyString => []
      | _ => [cur]
      end
  | String c rest =>
      if awk_blank c then
        match cur with
        | EmptyString => awk_scan EmptyString rest
        | _ => cur :: awk_scan EmptyString rest
        end
      else awk_scan (cur ++ String c EmptyString) rest
  end.

Definition awk_fields (line : string) : list string :=
  awk_scan EmptyString line.

(** [print $n]: [$0] is the record, a field past the last one is
    empty. *)
Definition awk_print (n : nat) (line : string) : string :=
  match n with
  | O => line
  | S k => nth k (awk_fields line) EmptyString
  end.

(** [cut -d delim -f n] (fields are numbered from 1): a line without
    the delimiter is printed whole, a field past the last one is
    empty. *)
Definition cut_field (delim : ascii) (n : nat) (line : string) : string :=
  match Py.split delim None line with
  | [_] => line
  | fields => nth (Nat.pred n) fields EmptyString
  end.

(** What a stage prints for the lines it reads. *)
Definition run_stage (st : Stage) (lines : list string) : list string :=
  match st with
  | Grep pat => filter (Py.contains pat) lines
  | AwkPrint n => map (awk_print n) lines
  | Cut d n => map (cut_field d n) lines
  end.

Definition run (p : list Stage) (lines : list string) : list string :=
  fold_left (fun ls st => run_stage st ls) p lines.

End Sh.

(** [_sys_grep] (line 18), as text and as the pipeline it denotes. *)
Definition _sys_grep : string :=
  "| grep " ++ Sh.dquote ++ "execution time" ++ Sh.dquote
  ++ " | awk '{print $4}' | cut -d / -f 1".

Definition sys_grep_pipeline : list Sh.Stage :=
  [Sh.Grep "execution time"; Sh.AwkPrint 4; Sh.Cut "/" 1].

(** ** Effects: a trace of external actions and three ways to stop *)

Inductive Level := DEBUG | INFO | WARNING | ERROR.

(** Arguments handed to the logger; formatting is the logger's work.
    [AStyled st s] is [style.st(s)] and [AHostsList l] is
    [hosts_list(l)], both rendered outside the script. *)
Inductive LogArg :=
| AStr (s : string)
| AStyled (style : string) (s : string)
| AHostsList (hosts : list string).

(** [OarSubmission(resources=..., job_type=..., walltime=...,
    reservation_date=..., name=...)] *)
Record OarSubmission := {
  oar_resources : string;
  oar_job_type : string;
  oar_walltime : string;
  oar_reservation_date : Z;
  oar_name : string
}.

(** [Deployment(hosts=..., env_name=...)] *)
Record Deployment := {
  dep_hosts : list string;
  env_name : string
}.

Inductive Event :=
| Log (lvl : Level) (fmt : string) (args : list LogArg)
| SetLevel (lvl : string)
| Mkdir (path : string)
| CopyOutputs (out err : string)
| OarSub (specs : list (OarSubmission * string))
| WaitOarJobStart (job_id : option Z) (site : option string)
| Deploy (d : Deployment) (num_tries : Z) (check_deployed_command : bool)
| Run (taktuk_options : list string) (procs : list (string * string)).

(** How a call ends: it returns, [exit(code)] raises [SystemExit], or an
    exception is left uncaught. *)
Inductive Outcome (A : Type) :=
| Returned (a : A)
| SystemExit (code : option Z)
| Uncaught (e : Py.Exn).
Arguments Returned {A} a.
Arguments SystemExit {A} code.
Arguments Uncaught {A} e.

Definition M (A : Type) : Type := (list Event * Outcome A)%type.

Definition ret {A} (a : A) : M A := ([], Returned a).

Definition bind {A B} (m : M A) (k : A -> M B) : M B :=
  match m with
  | (t, Returned a) => let (t', o) := k a in ((t ++ t')%list, o)
  | (t, SystemExit c) => (t, SystemExit c)
  | (t, Uncaught e) => (t, Uncaught e)
  end.

Notation "x <- m ;; k" := (bind m (fun x => k))
  (at level 61, m at next level, right associativity).
Notation "m ;; k" := (bind m (fun _ => k))
  (at level 61, right associativity).

Definition emit (e : Event) : M unit := ([e], Returned tt).

Definition lift {A} (r : Py.Result A) : M A :=
  match r with
  | inl e => ([], Uncaught e)
  | inr a => ([], Returned a)
  end.

(** [exit()]: the site builtin raises [SystemExit] with no code. *)
Definition exit {A} : M A := ([], SystemExit None).

(** The status the interpreter hands to the operating system. *)
Definition exit_status {A} (o : Outcome A) : Z :=
  match o with
  | Returned _ => 0
  | SystemExit None => 0
  | SystemExit (Some n) => n
  | Uncaught _ => 1
  end.

Definition trace {A} (m : M A) : list Event := fst m.
Definition outcome {A} (m : M A) : Outcome A := snd m.

(** [for x in l: body] *)
Fixpoint for_each {A} (l : list A) (body : A -> M unit) : M unit :=
  match l with
  | [] => ret tt
  | x :: xs => body x ;; for_each xs body
  end.

(** [for x in l: body], the body updating a loop state. *)
Fixpoint for_fold {A S} (l : list A) (body : S -> A -> M S) (s : S) : M S :=
  match l with
  | [] => ret s
  | x :: xs => s' <- body s x ;; for_fold xs body s'
  end.

Definition logger (lvl : Level) (fmt : string) (args : list LogArg) : M unit :=
  emit (Log lvl fmt args).

(** ** The libraries the script calls *)

(** The part of [get_host_attributes(h)] the script reads:
    [['architecture']['smt_size']] and [['main_memory']['ram_size']]. *)
Record HostAttributes := {
  smt_size : Z;
  ram_size : Z
}.

(** A finished remote process: [p.host.address], [p.stdout], [p.ok]. *)
Record Process := {
  address : string;
  stdout : string;
  ok : bool
}.

(** [getattr(p, attr)] for the textual attributes of a process. execo's
    process class has [stdout] (and [stderr]); any other name is an
    [AttributeError]. *)
Definition process_getattr (p : Process) (attr : string) : Py.Result string :=
  if String.eqb attr "stdout" then Py.ok (stdout p)
  else Py.throw (Py.AttributeError attr).

(** A finished action and its aggregate status: every process is ok. *)
Record Action := { processes : list Process }.

Definition action_ok (a : Action) : bool := forallb ok (processes a).

(** Answers of the scheduler, the deployment service, the reference API
    and the remote hosts.
    - [get_job_by_name name] is the pair (job id, site), both [None]
      when no job has that name;
    - [oarsub specs] is the list of (job id, site) of the submissions;
    - [assigned_nodes path] is
      [get_resource_attributes(path)['assigned_nodes']];
    - [deploy d num_tries check] is the pair of the sets of deployed and
      undeployed hosts, each in the order [list(...)] enumerates it;
    - [remote host cmd] is the standard output and the status of [cmd]
      run on [host]. *)
Record Env := {
  Planning : Type;
  Slots : Type;
  path_exists : string -> bool;
  get_job_by_name : string -> option Z * option string;
  get_planning : list string -> Planning;
  compute_slots : Planning -> string -> Slots;
  find_first_slot :
    Slots -> list (string * Z) -> Z * Z * list (string * Z);
  get_cluster_site : string -> string;
  oarsub : list (OarSubmission * string) -> list (option Z * option string);
  assigned_nodes : string -> list string;
  deploy : Deployment -> Z -> bool -> list string * list string;
  remote : string -> string -> string * bool;
  get_host_attributes : string -> HostAttributes;
  get_host_network_equipments : string -> list string;
  get_host_site : string -> string;
  get_host_shortname : string -> string
}.

(** Running the given command on each host, in the order given. *)
Definition taktuk (E : Env) (options : list string)
  (procs : list (string * string)) : M Action :=
  emit (Run options procs) ;;
  ret {| processes :=
           map (fun hc =>
                  let r := remote E (fst hc) (snd hc) in
                  {| address := fst hc; stdout := fst r; ok := snd r |})
               procs |}.

(** [TaktukRemote(cmd, hosts, connection_params=...).run()] *)
Definition TaktukRemote (E : Env) (options : list string)
  (cmd : string) (hosts : list string) : M Action :=
  taktuk E options (map (fun h => (h, cmd)) hosts).

(** [TaktukRemote('{{cmds}}', hosts).run()]: execo replaces [{{cmds}}]
    by the element of [cmds] at the index of the host. *)
Definition TaktukRemote_indexed (E : Env) (cmds : list string)
  (hosts : list string) : M Action :=
  taktuk E [] (combine hosts cmds).

(** ** The script *)

(** The key of the two [hosts.sort] calls (lines 139 and 173):
    [(h.split('.', 1)[0].split('-')[0],
      int(h.split('.', 1)[0].split('-')[1]))]. *)
Definition host_key (h : string) : Py.Result (string * Z) :=
  Py.rbind (Py.index (Py.split "." (Some 1%nat) h) 0) (fun first =>
  Py.rbind (Py.index (Py.split "-" None first) 0) (fun prefix =>
  Py.rbind (Py.index (Py.split "." (Some 1%nat) h) 0) (fun first' =>
  Py.rbind (Py.index (Py.split "-" None first') 1) (fun suffix =>
  Py.rbind (Py.int suffix) (fun n =>
  Py.ok (prefix, n)))))).

(** [a < b] on [(str, int)] tuples: the first components decide unless
    they are equal; byte strings compare byte by byte. *)
Definition key_lt (a b : string * Z) : bool :=
  match String_as_OT.compare (fst a) (fst b) with
  | Lt => true
  | Eq => (snd a <? snd b)%Z
  | Gt => false
  end.

(** [list.sort] is stable: an element is placed before the first element
    whose key is not smaller than its own, and elements with equal keys
    keep their order. *)
Fixpoint insert_keyed {A} (x : (string * Z) * A) (l : list ((string * Z) * A))
  : list ((string * Z) * A) :=
  match l with
  | [] => [x]
  | y :: ys =>
      if key_lt (fst y) (fst x) then y :: insert_keyed x ys
      else x :: y :: ys
  end.

Fixpoint sort_keyed {A} (l : list ((string * Z) * A))
  : list ((string * Z) * A) :=
  match l with
  | [] => []
  | x :: xs => insert_keyed x (sort_keyed xs)
  end.

(** [hosts.sort(key=...)]: the keys of all elements are computed first
    (an exception in one of them aborts the sort), then the list is
    sorted on them. *)
Definition sort_hosts (hosts : list string) : Py.Result (list string) :=
  Py.rbind (Py.rmap host_key hosts) (fun keys =>
  Py.ok (map snd (sort_keyed (combine keys hosts)))).

(** [_print_bench_result] (line 180) *)
Definition _print_bench_result (E : Env) (act : Action) (name : string)
  : M unit :=
  for_each (processes act) (fun p =>
    out <- lift (process_getattr p "stdout") ;;
    logger INFO "%s %s %s"
      [AStr name;
       AStyled "host" (Py.ljust (get_host_shortname E (address p)) 15);
       AStr (Py.strip out)]).

(** [cpu] (line 53); [max_prime] defaults to 100000. *)
Definition cpu (E : Env) (hosts : list string) (max_prime : Z) : M bool :=
  h0 <- lift (Py.index hosts 0) ;;
  let n_core := smt_size (get_host_attributes E h0) in
  cmd <- lift (Py.percent
                 "sysbench --num-threads=%s --test=cpu run --cpu-max-prime=%s %s"
                 [Py.str n_core; Py.str max_prime; _sys_grep]) ;;
  logger INFO ("Launching CPU benchmark with " ++ Sh.nl ++ "%s")
    [AStyled "command" cmd] ;;
  cpu_test <- TaktukRemote E [] cmd hosts ;;
  _print_bench_result E cpu_test "CPU" ;;
  ret true.

(** [memory] (line 64) *)
Definition memory (E : Env) (hosts : list string) : M bool :=
  h0 <- lift (Py.index hosts 0) ;;
  let mem_size := ram_size (get_host_attributes E h0) in
  let cmd := "sysbench --test=memory --memory-block-size=1M "
             ++ "--memory-total-size=" ++ Py.str mem_size ++ " run"
             ++ _sys_grep in
  logger INFO ("Launching MEM benchmark with " ++ Sh.nl ++ "%s")
    [AStyled "command" cmd] ;;
  mem_test <- TaktukRemote E [] cmd hosts ;;
  _print_bench_result E mem_test "MEM" ;;
  ret true.

(** The format string of the fio command (lines 78-80). *)
Definition fio_format : string :=
  "cd /tmp && sysbench --num-threads=%s --test=fileio "
  ++ "--file-total-size=10G --file-test-mode=seqwr "
  ++ "$action $grep".

(** [fio_format % (n_core, )], the text given to [Template]. *)
Definition fio_template (n_core : Z) : Py.Result string :=
  Py.percent fio_format [Py.str n_core].

(** The message built for a failed fio phase (lines 85-86, 96-97):
    ['\n'.join([p.host.address + ': ' + p.stout.strip() for p in ...])]. *)
Definition fio_failure_report (procs : list Process) : Py.Result string :=
  Py.rbind
    (Py.rmap (fun p =>
                Py.rbind (process_getattr p "stout") (fun out =>
                Py.ok (address p ++ ": " ++ Py.strip out)))
             procs)
    (fun lines => Py.ok (Py.join Sh.nl lines)).

(** [fio] (line 75) *)
Definition fio (E : Env) (hosts : list string) : M bool :=
  h0 <- lift (Py.index hosts 0) ;;
  let n_core := smt_size (get_host_attributes E h0) in
  cmd <- lift (fio_template n_core) ;;
  logger INFO "Preparing FIO benchmark" [] ;;
  prepare_cmd <- lift (Template.substitute cmd
                         [("action", "prepare"); ("grep", "")]) ;;
  prepare <- TaktukRemote E [] prepare_cmd hosts ;;
  (if negb (action_ok prepare) then
     report <- lift (fio_failure_report (processes prepare)) ;;
     logger ERROR
       ("Unable to prepare the data for FIO benchmark" ++ Sh.nl ++ "%s")
       [AStr report] ;;
     exit
   else ret tt) ;;
  shown <- lift (Template.substitute cmd
                   [("action", "run"); ("grep", _sys_grep)]) ;;
  logger INFO ("Launching FIO benchmark with " ++ Sh.nl ++ "%s")
    [AStyled "command" shown] ;;
  run_cmd <- lift (Template.substitute cmd
                     [("action", "run"); ("grep", _sys_grep)]) ;;
  run <- TaktukRemote E [] run_cmd hosts ;;
  _print_bench_result E run "FIO" ;;
  logger INFO "Cleaning FIO benchmark" [] ;;
  clean_cmd <- lift (Template.substitute cmd
                       [("action", "cleanup"); ("grep", "")]) ;;
  clean <- TaktukRemote E [] clean_cmd hosts ;;
  (if negb (action_ok clean) then
     report <- lift (fio_failure_report (processes clean)) ;;
     logger ERROR
       ("Unable to cleant the data for FIO benchmark" ++ Sh.nl ++ "%s")
       [AStr report] ;;
     exit
   else ret tt) ;;
  ret true.

(** The format string of the ping command (lines 110-111). *)
Definition ping_format : string :=
  "ping -c %s %s | tail -1| awk '{print $4}' | "
  ++ "cut -d '/' -f 2".

(** The inner loop of [latency] (lines 108-111).  Its state is the list
    [cmds] and the loop variable [d], which Python keeps bound after the
    loop. *)
Definition latency_commands (n_ping : Z) (c : string) (dests : list string)
  (d : option string) : M (list string * option string) :=
  for_fold dests
    (fun st d' =>
       if negb (String.eqb d' c) then
         cmd <- lift (Py.percent ping_format [Py.str n_ping; d']) ;;
         ret ((fst st ++ [cmd])%list, Some d')
       else ret (fst st, Some d'))
    ([], d).

(** Reading a local variable that may not be bound yet. *)
Definition local (name : string) (v : option string) : Py.Result string :=
  match v with
  | Some x => Py.ok x
  | None => Py.throw (Py.NameError name)
  end.

(** [latency] (line 102); [n_ping] defaults to 10.  The assignment
    [log = c], which nothing reads, is left out. *)
Definition latency (E : Env) (hosts : list string) (n_ping : Z) : M unit :=
  h0 <- lift (Py.index hosts 0) ;;
  equipment <- lift (Py.index (get_host_network_equipments E h0) 0) ;;
  h0' <- lift (Py.index hosts 0) ;;
  let dests := (hosts ++ [equipment; get_host_site E h0'])%list in
  for_fold hosts
    (fun d c =>
       st <- latency_commands n_ping c dests d ;;
       let cmds := fst st in
       let d := snd st in
       mes <- TaktukRemote_indexed E cmds (repeat c (List.length cmds)) ;;
       for_each (processes mes) (fun p =>
         dest <- lift (local "d" d) ;;
         out <- lift (process_getattr p "stdout") ;;
         logger INFO "LAT %s->%s %s"
           [AStr (get_host_shortname E c);
            AStr (get_host_shortname E dest);
            AStr (Py.strip out)]) ;;
       ret d)
    None ;;
  ret tt.

(** [bandwidth] (line 120): an empty body. *)
Definition bandwidth (E : Env) (hosts : list string) : M unit := ret tt.

(** The constants of [setup_hosts]: [taktuk_conf] (lines 142-144), the
    command of [conf_ssh] (lines 145-146) and [cmd] (line 153). *)
Definition taktuk_conf : list string :=
  ["-s"; "-S";
   "$HOME/.ssh/id_rsa:$HOME/.ssh/id_rsa,"
   ++ "$HOME/.ssh/id_rsa.pub:$HOME/.ssh"].

Definition conf_ssh_cmd : string :=
  "echo " ++ Sh.dquote ++ "Host *" ++ Sh.dquote
  ++ " >> /root/.ssh/config ;"
  ++ "echo " ++ Sh.dquote ++ " StrictHostKeyChecking no"
  ++ Sh.dquote ++ " >> /root/.ssh/config; ".

Definition install_cmd : string :=
  "apt-get update && apt-get install -y sysbench".

(** [setup_hosts] (line 126).  [deploy] returns two sets; the lists of
    the environment give them in the order [list(...)] enumerates
    them. *)
Definition setup_hosts (E : Env) (hosts : list string)
  (force_deploy no_deploy : bool) : M (list string) :=
  logger INFO "Deploying hosts" [] ;;
  let check := negb force_deploy in
  let num_tries := (if negb no_deploy then 1 else 0)%Z in
  let d := {| dep_hosts := hosts; env_name := "wheezy-x64-prod" |} in
  emit (Deploy d num_tries check) ;;
  let (deployed, undeployed) := deploy E d num_tries check in
  (if (0 <? List.length undeployed)%nat then
     logger WARNING "%s have not been deployed" [AHostsList undeployed]
   else ret tt) ;;
  hosts <- lift (sort_hosts deployed) ;;
  conf_ssh <- TaktukRemote E taktuk_conf conf_ssh_cmd hosts ;;
  (if negb (action_ok conf_ssh) then
     logger ERROR "Unable to configure SSH" [] ;;
     exit
   else ret tt) ;;
  logger INFO "Installing sysbench" [] ;;
  install_sysbench <- TaktukRemote E [] install_cmd hosts ;;
  (if negb (action_ok install_sysbench) then
     logger ERROR "Unable to install sysbench" [] ;;
     exit
   else ret tt) ;;
  ret hosts.

(** [_default_job] (line 189) *)
Definition _default_job (E : Env) (job_name cluster walltime : string)
  : M (option Z * option string) :=
  logger INFO "No job running, making a reservation" [] ;;
  let wanted := [(cluster, 0%Z)] in
  let planning := get_planning E (map fst wanted) in
  let slots := compute_slots E planning walltime in
  let '(start_date, _, resources) := find_first_slot E slots wanted in
  nodes <- lift (Py.getitem resources cluster) ;;
  res <- lift (Py.percent "{cluster='%s'}/nodes=%s" [cluster; Py.str nodes]) ;;
  let jobs_specs :=
    [({| oar_resources := res;
         oar_job_type := "deploy";
         oar_walltime := walltime;
         oar_reservation_date := start_date;
         oar_name := job_name |},
      get_cluster_site E cluster)] in
  emit (OarSub jobs_specs) ;;
  lift (Py.index (oarsub E jobs_specs) 0).

(** [get_hosts] (line 162) *)
Definition get_hosts (E : Env) (job_name cluster walltime : string)
  : M (list string) :=
  let found := get_job_by_name E job_name in
  job <- (if Py.falsy (fst found) then
            made <- _default_job E job_name cluster walltime ;;
            logger INFO "Reservation done %s:%s"
              [AStr (Py.str_opt id (snd made));
               AStr (Py.str_opt Py.str (fst made))] ;;
            ret made
          else ret found) ;;
  let job_id := fst job in
  let site := snd job in
  logger INFO "Waiting for job start" [] ;;
  emit (WaitOarJobStart job_id site) ;;
  path <- lift (Py.add_str "/sites/" site) ;;
  let job_info := assigned_nodes E (path ++ "/jobs/" ++ Py.str_opt Py.str job_id) in
  hosts <- lift (sort_hosts job_info) ;;
  logger INFO "Hosts: %s" [AHostsList hosts] ;;
  ret hosts.

(** The parsed command line ([g5k_args_parser(...).parse_args()]) and
    the program name of the parser. *)
Record Args := {
  verbose : bool;
  quiet : bool;
  outdir : string;
  job : string;
  cluster : string;
  walltime : string;
  forcedeploy : bool;
  nodeploy : bool;
  prog : string
}.

(** [getattr(__main__, test)]: the functions of the script by name. *)
Definition getattr_main (E : Env) (test : string)
  : Py.Result (list string -> M unit) :=
  if String.eqb test "cpu" then Py.ok (fun hosts => cpu E hosts 100000 ;; ret tt)
  else if String.eqb test "memory" then Py.ok (fun hosts => memory E hosts ;; ret tt)
  else if String.eqb test "fio" then Py.ok (fun hosts => fio E hosts ;; ret tt)
  else if String.eqb test "latency" then Py.ok (fun hosts => latency E hosts 10)
  else if String.eqb test "bandwidth" then Py.ok (bandwidth E)
  else Py.throw (Py.AttributeError test).

Definition tests : list string := ["cpu"; "memory"; "fio"; "latency"; "bandwidth"].

(** The loop of [main] (lines 47-50). *)
Definition run_tests (E : Env) (hosts : list string) : M unit :=
  for_each tests (fun test =>
    logger INFO "STARTING %s BENCHMARK" [AStyled "user3" test] ;;
    f <- lift (getattr_main E test) ;;
    f hosts ;;
    logger INFO "%s BENCHMARK DONE" [AStyled "user3" test]).

(** [main] (line 21), after the arguments are parsed. *)
Definition main (E : Env) (args : Args) : M unit :=
  (if verbose args then emit (SetLevel "DEBUG")
   else if quiet args then emit (SetLevel "WARN")
   else emit (SetLevel "INFO")) ;;
  (if negb (path_exists E (outdir args)) then emit (Mkdir (outdir args))
   else ret tt) ;;
  emit (CopyOutputs (outdir args ++ "/" ++ prog args ++ ".log")
                    (outdir args ++ "/" ++ prog args ++ ".log")) ;;
  acquired <- get_hosts E (job args) (cluster args) (walltime args) ;;
  hosts <- setup_hosts E acquired (forcedeploy args) (nodeploy args) ;;
  run_tests E hosts.

(** ** The vocabulary of the specification *)

Module Spec.

(** Every character of [s] satisfies [P]. *)
Fixpoint all_chars (P : ascii -> bool) (s : string) : bool :=
  match s with
  | EmptyString => true
  | String c s' => P c && all_chars P s'
  end.

Definition no_char (c : ascii) (s : string) : bool :=
  all_chars (fun a => negb (Ascii.eqb a c)) s.

(** The pieces of [s] between separator characters, empty ones
    included. *)
Fixpoint pieces (sep : ascii -> bool) (s : string) : list string :=
  match s with
  | EmptyString => [EmptyString]
  | String c s' =>
      if sep c then EmptyString :: pieces sep s'
      else
        match pieces sep s' with
        | p :: ps => String c p :: ps
        | [] => [String c EmptyString]
        end
  end.

Definition nonempty (s : string) : bool := negb (String.eqb s EmptyString).

(** The whitespace-delimited fields of a line. *)
Definition whitespace_fields (line : string) : list string :=
  filter nonempty (pieces Sh.awk_blank line).

(** The [n]-th whitespace-delimited field of a line, counted from 1;
    empty when the line has fewer fields. *)
Definition field (n : nat) (line : string) : string :=
  nth (Nat.pred n) (whitespace_fields line) EmptyString.

(** [s] up to, and without, the first [c]; all of [s] if there is
    none. *)
Fixpoint truncate_at (c : ascii) (s : string) : string :=
  match s with
  | EmptyString => EmptyString
  | String a s' =>
      if Ascii.eqb a c then EmptyString else String a (truncate_at c s')
  end.

(** What follows the first [c] of [s], if [s] has one. *)
Fixpoint after_first (c : ascii) (s : string) : option string :=
  match s with
  | EmptyString => None
  | String a s' => if Ascii.eqb a c then Some s' else after_first c s'
  end.

(** The first dot-separated component of a host identifier. *)
Definition first_component (h : string) : string := truncate_at "." h.

(** [h] has the form name-N.rest: its first component is [name], a
    hyphen, and the decimal digits of [n], possibly followed by a
    dot and more. *)
Definition name_number (h name : string) (n : Z) : Prop :=
  exists digits rest,
    h = name ++ "-" ++ digits ++ rest
    /\ no_char "-" name = true /\ no_char "." name = true
    /\ digits <> EmptyString
    /\ Py.digits_value 0 digits = Some n
    /\ (rest = EmptyString \/ exists r, rest = String "." r).

(** The first component of [h] has a hyphen, and what stands between
    that hyphen and the next one (or the end) reads as an integer. *)
Definition hyphen_integer (h : string) : Prop :=
  exists suffix n,
    after_first "-" (first_component h) = Some suffix
    /\ Py.int (truncate_at "-" suffix) = inr n.

(** Ascending order on (name, number) pairs. *)
Definition pair_le (a b : string * Z) : Prop :=
  String_as_OT.lt (fst a) (fst b) \/ (fst a = fst b /\ (snd a <= snd b)%Z).

(** Ascending order by (name, number) on hosts of the form
    name-N.rest. *)
Definition name_number_le (h1 h2 : string) : Prop :=
  exists name1 n1 name2 n2,
    name_number h1 name1 n1 /\ name_number h2 name2 n2
    /\ pair_le (name1, n1) (name2, n2).

(** [s] ends with [suffix]. *)
Definition ends_with (suffix s : string) : Prop :=
  exists pre, s = pre ++ suffix.

(** [h1] comes no later than [h2]: both have a key and the keys are in
    ascending order. *)
Definition host_le (h1 h2 : string) : Prop :=
  exists k1 k2,
    host_key h1 = inr k1 /\ host_key h2 = inr k2 /\ pair_le k1 k2.

End Spec.

(** ** Reading traces *)

(** The commands sent to remote hosts, in order. *)
Definition commands_issued (t : list Event) : list string :=
  flat_map (fun e =>
              match e with
              | Run _ procs => map snd procs
              | _ => []
              end) t.

Definition is_submission (e : Event) : bool :=
  match e with
  | OarSub _ => true
  | _ => false
  end.

(** The text of the ping command for one destination. *)
Definition ping_cmd (n_ping : Z) (d : string) : string :=
  "ping -c " ++ Py.str n_ping ++ " " ++ d
  ++ " | tail -1| awk '{print $4}' | cut -d '/' -f 2".

(** The aggregate status of a command on a list of hosts. *)
Definition all_ok (E : Env) (cmd : string) (hosts : list string) : bool :=
  forallb (fun h => snd (remote E h cmd)) hosts.

(** The two fixed parts of the fio command around the thread count. *)
Definition fio_head : string := "cd /tmp && sysbench --num-threads=".
Definition fio_tail : string :=
  " --test=fileio --file-total-size=10G --file-test-mode=seqwr ".

(** The command of one fio phase. *)
Definition fio_phase (n_core : Z) (action grep : string) : string :=
  fio_head ++ Py.str n_core ++ fio_tail ++ action ++ " " ++ grep.

(** The characters [str] can produce for an integer. *)
Definition str_char (c : ascii) : bool :=
  Py.isdigit c || Ascii.eqb c "-".

(** The commands of [cpu] and [memory] as texts. *)
Definition cpu_cmd (n_core max_prime : Z) : string :=
  "sysbench --num-threads=" ++ Py.str n_core
  ++ " --test=cpu run --cpu-max-prime=" ++ Py.str max_prime
  ++ " " ++ _sys_grep.

Definition memory_cmd (mem_size : Z) : string :=
  "sysbench --test=memory --memory-block-size=1M --memory-total-size="
  ++ Py.str mem_size ++ " run" ++ _sys_grep.

(** The processes of a command run on a list of hosts. *)
Definition finished (E : Env) (procs : list (string * string)) : Action :=
  {| processes :=
       map (fun hc =>
              let r := remote E (fst hc) (snd hc) in
              {| address := fst hc; stdout := fst r; ok := snd r |})
           procs |}.

(** The line [_print_bench_result] logs for a process. *)
Definition result_line (E : Env) (name : string) (p : Process) : Event :=
  Log INFO "%s %s %s"
    [AStr name;
     AStyled "host" (Py.ljust (get_host_shortname E (address p)) 15);
     AStr (Py.strip (stdout p))].

(** The [Run] event of one command on a list of hosts. *)
Definition run_on (options : list string) (cmd : string)
  (hosts : list string) : Event :=
  Run options (map (fun h => (h, cmd)) hosts).


(** The destinations a source host pings: all but itself. *)
Definition latency_pinged (c : string) (dests : list string) : list string :=
  filter (fun d => negb (String.eqb d c)) dests.

(** The value of a loop variable after [for d in dests], [d] being its
    value before the loop. *)
Definition after_loop (d : option string) (dests : list string)
  : option string :=
  fold_left (fun _ x => Some x) dests d.

(** The log line of [latency] for source [c], destination label
    [label] and the output of the command [cmd]. *)
Definition latency_line (E : Env) (c label cmd : string) : Event :=
  Log INFO "LAT %s->%s %s"
    [AStr (get_host_shortname E c);
     AStr (get_host_shortname E label);
     AStr (Py.strip (fst (remote E c cmd)))].

(** The events of [latency] for one source host [c]: the pings of all
    other destinations, then one line per ping, each naming [label]. *)
Definition latency_events (E : Env) (n_ping : Z) (dests : list string)
  (label : string) (c : string) : list Event :=
  let cmds := map (ping_cmd n_ping) (latency_pinged c dests) in
  Run [] (map (fun cmd => (c, cmd)) cmds)
  :: map (latency_line E c label) cmds.


(** The order of the keys, on pairs decorated with their element. *)
Definition keyed_le {A} (x y : (string * Z) * A) : Prop :=
  Spec.pair_le (fst x) (fst y).


(** The events of [setup_hosts] up to the sort: the deployment and the
    warning about the hosts that were not deployed. *)
Definition deploy_events (hosts undeployed : list string)
  (force_deploy no_deploy : bool) : list Event :=
  [Log INFO "Deploying hosts" [];
   Deploy {| dep_hosts := hosts; env_name := "wheezy-x64-prod" |}
          (if negb no_deploy then 1 else 0)%Z (negb force_deploy)]
  ++ (if (0 <? List.length undeployed)%nat then
        [Log WARNING "%s have not been deployed" [AHostsList undeployed]]
      else [])%list.

(** The sets returned by [deploy] in [setup_hosts]. *)
Definition deployment (E : Env) (hosts : list string)
  (force_deploy no_deploy : bool) : list string * list string :=
  deploy E {| dep_hosts := hosts; env_name := "wheezy-x64-prod" |}
    (if negb no_deploy then 1 else 0)%Z (negb force_deploy).

(** The submission made by [_default_job]. *)
Definition reservation (E : Env) (job_name cluster walltime : string)
  (start_date nodes : Z) : list (OarSubmission * string) :=
  [({| oar_resources := "{cluster='" ++ cluster ++ "'}/nodes=" ++ Py.str nodes;
       oar_job_type := "deploy";
       oar_walltime := walltime;
       oar_reservation_date := start_date;
       oar_name := job_name |},
    get_cluster_site E cluster)].

(** The slot [_default_job] asks for. *)
Definition first_slot (E : Env) (cluster walltime : string)
  : Z * Z * list (string * Z) :=
  find_first_slot E (compute_slots E (get_planning E [cluster]) walltime)
    [(cluster, 0%Z)].

(** The path [get_hosts] reads the assigned nodes from. *)
Definition job_path (site : string) (job_id : Z) : string :=
  "/sites/" ++ site ++ "/jobs/" ++ Py.str job_id.


(** What [get_hosts] does once it has a job: wait for it, read its
    nodes and sort them. *)
Definition job_hosts (E : Env) (job_id : option Z) (site : option string)
  : M (list string) :=
  let waiting := [Log INFO "Waiting for job start" [];
                  WaitOarJobStart job_id site] in
  match site with
  | None =>
      (waiting,
       Uncaught (Py.TypeError "cannot concatenate 'str' and 'NoneType'"))
  | Some s =>
      match sort_hosts
              (assigned_nodes E
                 ("/sites/" ++ s ++ "/jobs/" ++ Py.str_opt Py.str job_id)) with
      | inl e => (waiting, Uncaught e)
      | inr hs =>
          ((waiting ++ [Log INFO "Hosts: %s" [AHostsList hs]])%list,
           Returned hs)
      end
  end.



(** ** A small cluster for the examples *)

Module Example.

(** Three nodes of the default cluster; the API knows one gateway. *)
Definition nodes : list string :=
  ["stremi-10.reims.grid5000.fr";
   "stremi-2.reims.grid5000.fr";
   "stremi-3.reims.grid5000.fr"].

(** [fails host cmd] tells which remote commands fail, [found] is the
    answer of the scheduler to the query by name, [undeployed] the hosts
    whose deployment fails. *)
Definition env (fails : string -> string -> bool)
  (found : option Z * option string) (undeployed : list string) : Env :=
  {| Planning := unit;
     Slots := unit;
     path_exists := fun _ => false;
     get_job_by_name := fun _ => found;
     get_planning := fun _ => tt;
     compute_slots := fun _ _ => tt;
     find_first_slot := fun _ _ => (1000%Z, 11800%Z, [("stremi", 3%Z)]);
     get_cluster_site := fun _ => "reims";
     oarsub := fun _ => [(Some 42%Z, Some "reims")];
     assigned_nodes := fun _ => nodes;
     deploy := fun d _ _ =>
       (filter (fun h => negb (existsb (String.eqb h) undeployed))
               (dep_hosts d),
        undeployed);
     remote := fun h c =>
       ("    execution time (avg/stddev):    1.234/0.01",
        negb (fails h c));
     get_host_attributes := fun _ => {| smt_size := 8; ram_size := 1024 |};
     get_host_network_equipments := fun _ => ["gw-reims"];
     get_host_site := fun _ => "reims";
     get_host_shortname := fun h => Spec.truncate_at "." h |}.

Definition args : Args :=
  {| verbose := false;
     quiet := false;
     outdir := "out";
     job := "check_node_perf";
     cluster := "stremi";
     walltime := "3:00:00";
     forcedeploy := false;
     nodeploy := false;
     prog := "single_run" |}.

Definition never (h c : string) : bool := false.

(** The SSH configuration fails on every host. *)
Definition ssh_fails (h c : string) : bool := String.eqb c conf_ssh_cmd.

(** The package installation fails on every host. *)
Definition install_fails (h c : string) : bool := String.eqb c install_cmd.

(** The prepare phase of fio fails on one host. *)
Definition prepare_fails (h c : string) : bool :=
  String.eqb h "stremi-2.reims.grid5000.fr" && Py.contains "prepare" c.

(** The cleanup phase of fio fails on one host. *)
Definition cleanup_fails (h c : string) : bool :=
  String.eqb h "stremi-2.reims.grid5000.fr" && Py.contains "cleanup" c.

End Example.

(** The characters a text accepted by [int] can contain. *)
Definition int_char (c : ascii) : bool :=
  Py.isdigit c || Py.isspace c || Ascii.eqb c "+" || Ascii.eqb c "-".

(** The events of [main] before the hosts are acquired (lines 34-43). *)
Definition startup (E : Env) (args : Args) : list Event :=
  ([SetLevel (if verbose args then "DEBUG"
              else if quiet args then "WARN" else "INFO")]
   ++ (if negb (path_exists E (outdir args)) then [Mkdir (outdir args)]
       else [])
   ++ [CopyOutputs (outdir args ++ "/" ++ prog args ++ ".log")
                   (outdir args ++ "/" ++ prog args ++ ".log")])%list.

(** The last event of a complete run. *)
Definition last_done : Event :=
  Log INFO "%s BENCHMARK DONE" [AStyled "user3" "bandwidth"].

(** ** Further vocabulary *)

(** The line logged for host [h] after [cmd] ran on it. *)
Definition bench_line (E : Env) (name cmd h : string) : Event :=
  Log INFO "%s %s %s"
    [AStr name;
     AStyled "host" (Py.ljust (get_host_shortname E h) 15);
     AStr (Py.strip (fst (remote E h cmd)))].

(** [s] starts with [pre]. *)
Definition starts_with (pre s : string) : Prop :=
  exists rest, s = pre ++ rest.

(** The same cluster, whose API lists no network equipment. *)
Definition isolated_env : Env :=
  let E := Example.env Example.never (Some 7%Z, Some "reims") [] in
  {| Planning := Planning E;
     Slots := Slots E;
     path_exists := path_exists E;
     get_job_by_name := get_job_by_name E;
     get_planning := get_planning E;
     compute_slots := compute_slots E;
     find_first_slot := find_first_slot E;
     get_cluster_site := get_cluster_site E;
     oarsub := oarsub E;
     assigned_nodes := assigned_nodes E;
     deploy := deploy E;
     remote := remote E;
     get_host_attributes := get_host_attributes E;
     get_host_network_equipments := fun _ => [];
     get_host_site := get_host_site E;
     get_host_shortname := get_host_shortname E |}.

(** Equality of two sort keys. *)
Definition key_eqb (a b : string * Z) : bool :=
  String.eqb (fst a) (fst b) && (snd a =? snd b)%Z.

(** [h] has the sort key [k]. *)
Definition has_key (k : string * Z) (h : string) : bool :=
  match host_key h with
  | inr k' => key_eqb k' k
  | inl _ => false
  end.

(** A call that does not end through [exit]. *)
Definition never_exits {A} (m : M A) : Prop :=
  forall code, outcome m <> SystemExit code.

(** A call that, when it ends through [exit], gives no exit code. *)
Definition exits_without_code {A} (m : M A) : Prop :=
  forall code, outcome m = SystemExit code -> code = None.


(** The commands sent to the host [c], in order. *)
Definition commands_on (c : string) (t : list Event) : list string :=
  flat_map (fun e =>
              match e with
              | Run _ procs =>
                  map snd (filter (fun hc => String.eqb (fst hc) c) procs)
              | _ => []
              end) t.

(** * Proofs *)

(** ** Strings *)

Section Strings.

Lemma append_empty_r (s : string) : s ++ "" = s.
Proof. induction s; simpl; congruence. Qed.

Lemma append_assoc (a b c : string) : (a ++ b) ++ c = a ++ b ++ c.
Proof. induction a; simpl; congruence. Qed.

Lemma all_chars_app (P : ascii -> bool) (a b : string) :
  Spec.all_chars P (a ++ b) = Spec.all_chars P a && Spec.all_chars P b.
Proof.
  induction a as [|c a IH]; simpl; [reflexivity|].
  rewrite IH. now rewrite andb_assoc.
Qed.

Lemma all_chars_impl (P Q : ascii -> bool) (s : string) :
  (forall c, P c = true -> Q c = true) ->
  Spec.all_chars P s = true -> Spec.all_chars Q s = true.
Proof.
  intros HPQ. induction s as [|c s IH]; simpl; [reflexivity|].
  rewrite !andb_true_iff. intros [Hc Hs]. auto.
Qed.

Lemma contains_app_r (pat a b : string) :
  Py.contains pat b = true -> Py.contains pat (a ++ b) = true.
Proof.
  intros H. induction a as [|c a IH]; simpl; [exact H|].
  rewrite IH. apply orb_true_r.
Qed.

Lemma contains_missing_char (c : ascii) (pat s : string) :
  Spec.no_char c s = true -> Py.contains (String c pat) s = false.
Proof.
  unfold Spec.no_char.
  induction s as [|a s IH]; simpl; [reflexivity|].
  rewrite andb_true_iff, negb_true_iff. intros [Hc Hs].
  rewrite (IH Hs), orb_false_r.
  destruct (ascii_dec c a) as [->|]; [|reflexivity].
  now rewrite Ascii.eqb_refl in Hc.
Qed.

End Strings.

(** ** The extraction pipeline *)

Section Pipeline.

Lemma pieces_cons (sep : ascii -> bool) (s : string) :
  exists p ps, Spec.pieces sep s = p :: ps.
Proof.
  induction s as [|c s [p [ps IH]]]; simpl; eauto.
  destruct (sep c); eauto. rewrite IH. eauto.
Qed.

(** The scanner started inside a field [cur] sees the pieces of the
    line, the first one glued to [cur], without the empty ones. *)
Lemma awk_scan_pieces (line cur : string) :
  Sh.awk_scan cur line =
  filter Spec.nonempty
    (match Spec.pieces Sh.awk_blank line with
     | p :: ps => (cur ++ p) :: ps
     | [] => [cur]
     end).
Proof.
  revert cur. induction line as [|c line IH]; intros cur; simpl.
  - rewrite append_empty_r. destruct cur; reflexivity.
  - destruct (Sh.awk_blank c).
    + rewrite append_empty_r, (IH ""%string).
      destruct (pieces_cons Sh.awk_blank line) as [p [ps ->]].
      destruct cur; reflexivity.
    + rewrite IH.
      destruct (pieces_cons Sh.awk_blank line) as [p [ps ->]].
      now rewrite append_assoc.
Qed.

Lemma awk_fields_spec (line : string) :
  Sh.awk_fields line = Spec.whitespace_fields line.
Proof.
  unfold Sh.awk_fields, Spec.whitespace_fields.
  rewrite awk_scan_pieces.
  now destruct (pieces_cons Sh.awk_blank line) as [p [ps ->]].
Qed.

Lemma split_first (d : ascii) (s : string) :
  exists ps, Py.split d None s = Spec.truncate_at d s :: ps
             /\ (ps = [] -> s = Spec.truncate_at d s).
Proof.
  induction s as [|c s [ps [IH1 IH2]]]; simpl.
  - eauto.
  - destruct (Ascii.eqb c d).
    + exists (Py.split d None s); split; [reflexivity|].
      rewrite IH1; discriminate.
    + rewrite IH1. eexists; split; [reflexivity|].
      intros ->. now rewrite <- IH2.
Qed.

Lemma cut_first_field (d : ascii) (s : string) :
  Sh.cut_field d 1 s = Spec.truncate_at d s.
Proof.
  unfold Sh.cut_field.
  destruct (split_first d s) as [ps [-> H]].
  destruct ps; [now rewrite <- H|reflexivity].
Qed.

Lemma run_sys_grep (lines : list string) :
  Sh.run sys_grep_pipeline lines =
  map (fun l => Sh.cut_field "/" 1 (Sh.awk_print 4 l))
      (filter (Py.contains "execution time") lines).
Proof. unfold Sh.run; simpl. now rewrite map_map. Qed.

End Pipeline.

(** ** Command texts *)

Section Commands.

Lemma uint_chars (d : Decimal.uint) :
  Spec.all_chars str_char (NilEmpty.string_of_uint d) = true.
Proof. induction d; simpl; auto. Qed.

Lemma str_chars (n : Z) : Spec.all_chars str_char (Py.str n) = true.
Proof.
  unfold Py.str, NilZero.string_of_int.
  destruct (Z.to_int n) as [d|d]; simpl.
  - unfold NilZero.string_of_uint. destruct d; try reflexivity; apply uint_chars.
  - unfold NilZero.string_of_uint. destruct d; try reflexivity; apply uint_chars.
Qed.

Lemma str_no_char (c : ascii) (n : Z) :
  str_char c = false -> Spec.no_char c (Py.str n) = true.
Proof.
  intros Hc. apply (all_chars_impl str_char); [|apply str_chars].
  intros a Ha. apply negb_true_iff.
  destruct (Ascii.eqb_spec a c) as [->|]; congruence.
Qed.

(** Text without a dollar is copied by the template scanner. *)
Lemma scan_text (kw : list (string * string)) (pre rest : string) :
  Spec.no_char "$" pre = true ->
  Template.scan kw Template.Text (pre ++ rest) =
  Py.rbind (Template.scan kw Template.Text rest)
           (fun r => Py.ok (pre ++ r)).
Proof.
  unfold Spec.no_char.
  induction pre as [|c pre IH]; simpl.
  - intros _. destruct (Template.scan kw Template.Text rest); reflexivity.
  - rewrite andb_true_iff, negb_true_iff. intros [-> Hpre].
    rewrite (IH Hpre).
    destruct (Template.scan kw Template.Text rest); reflexivity.
Qed.

Lemma fio_template_eq (n : Z) :
  fio_template n
  = inr (fio_head ++ Py.str n ++ fio_tail ++ "$action $grep").
Proof. reflexivity. Qed.

Lemma fio_substitute (n : Z) (action grep : string) :
  Template.substitute
    (fio_head ++ Py.str n ++ fio_tail ++ "$action $grep")
    [("action", action); ("grep", grep)]
  = inr (fio_phase n action grep).
Proof.
  unfold Template.substitute, fio_phase.
  rewrite scan_text by reflexivity.
  rewrite scan_text by (now apply str_no_char).
  reflexivity.
Qed.

End Commands.

(** ** The effect monad *)

Section Effects.

Lemma bind_returned {A B} (t : list Event) (a : A) (k : A -> M B) :
  bind (t, Returned a) k = ((t ++ fst (k a))%list, snd (k a)).
Proof. simpl. now destruct (k a). Qed.

Lemma bind_emit {B} (e : Event) (k : unit -> M B) :
  bind (emit e) k = (e :: fst (k tt), snd (k tt)).
Proof. unfold emit. now rewrite bind_returned. Qed.

Lemma bind_lift_ok {A B} (a : A) (k : A -> M B) :
  bind (lift (inr a)) k = k a.
Proof. simpl. now destruct (k a). Qed.

Lemma bind_assoc {A B C} (m : M A) (f : A -> M B) (g : B -> M C) :
  bind (bind m f) g = bind m (fun a => bind (f a) g).
Proof.
  destruct m as [t [a| |]]; simpl; try reflexivity.
  destruct (f a) as [t' [b| |]]; simpl; try reflexivity.
  destruct (g b). now rewrite app_assoc.
Qed.

Lemma for_each_events {A} (l : list A) (body : A -> M unit)
  (f : A -> Event) :
  (forall x, In x l -> body x = ([f x], Returned tt)) ->
  for_each l body = (map f l, Returned tt).
Proof.
  induction l as [|x l IH]; intros H; simpl; [reflexivity|].
  rewrite (H x) by now left.
  rewrite IH by (intros; apply H; now right). reflexivity.
Qed.

Lemma taktuk_eq (E : Env) (options : list string)
  (procs : list (string * string)) :
  taktuk E options procs = ([Run options procs], Returned (finished E procs)).
Proof. reflexivity. Qed.

Lemma TaktukRemote_eq (E : Env) (options : list string) (cmd : string)
  (hosts : list string) :
  TaktukRemote E options cmd hosts
  = ([run_on options cmd hosts],
     Returned (finished E (map (fun h => (h, cmd)) hosts))).
Proof. reflexivity. Qed.

Lemma action_ok_finished (E : Env) (cmd : string) (hosts : list string) :
  action_ok (finished E (map (fun h => (h, cmd)) hosts)) = all_ok E cmd hosts.
Proof.
  unfold action_ok, all_ok, finished; simpl.
  induction hosts as [|h hosts IH]; simpl; [reflexivity|].
  now rewrite IH.
Qed.

Lemma print_bench_result_eq (E : Env) (act : Action) (name : string) :
  _print_bench_result E act name
  = (map (result_line E name) (processes act), Returned tt).
Proof.
  unfold _print_bench_result. apply for_each_events. reflexivity.
Qed.

End Effects.

(** ** The benchmarks *)

Section Benchmarks.

Variable E : Env.

Lemma cpu_eq (h0 : string) (rest : list string) (max_prime : Z) :
  let hosts := h0 :: rest in
  let cmd := cpu_cmd (smt_size (get_host_attributes E h0)) max_prime in
  cpu E hosts max_prime
  = (Log INFO ("Launching CPU benchmark with " ++ Sh.nl ++ "%s")
       [AStyled "command" cmd]
     :: run_on [] cmd hosts
     :: map (result_line E "CPU")
          (processes (finished E (map (fun h => (h, cmd)) hosts))),
     Returned true).
Proof.
  intros hosts cmd. unfold cpu.
  change (Py.index hosts 0) with (@inr Py.Exn _ h0).
  rewrite bind_lift_ok.
  change (Py.percent _ _) with (@inr Py.Exn _ cmd).
  rewrite bind_lift_ok.
  unfold logger. rewrite bind_emit, TaktukRemote_eq, bind_returned.
  rewrite print_bench_result_eq, bind_returned. cbn [fst snd ret].
  rewrite app_nil_r. reflexivity.
Qed.

Lemma memory_eq (h0 : string) (rest : list string) :
  let hosts := h0 :: rest in
  let cmd := memory_cmd (ram_size (get_host_attributes E h0)) in
  memory E hosts
  = (Log INFO ("Launching MEM benchmark with " ++ Sh.nl ++ "%s")
       [AStyled "command" cmd]
     :: run_on [] cmd hosts
     :: map (result_line E "MEM")
          (processes (finished E (map (fun h => (h, cmd)) hosts))),
     Returned true).
Proof.
  intros hosts cmd. unfold memory.
  change (Py.index hosts 0) with (@inr Py.Exn _ h0).
  rewrite bind_lift_ok.
  unfold logger. rewrite bind_emit, TaktukRemote_eq, bind_returned.
  rewrite print_bench_result_eq, bind_returned. cbn [fst snd ret].
  rewrite app_nil_r. reflexivity.
Qed.

(** The report of a failed phase cannot be built: the first process
    already has no attribute [stout]. *)
Lemma fio_failure_report_raises (p : Process) (ps : list Process) :
  fio_failure_report (p :: ps) = inl (Py.AttributeError "stout").
Proof. reflexivity. Qed.


(** The events of [fio] up to the end of the prepare phase. *)
Lemma fio_prepare_failure (h0 : string) (rest : list string) :
  let hosts := h0 :: rest in
  let n_core := smt_size (get_host_attributes E h0) in
  all_ok E (fio_phase n_core "prepare" "") hosts = false ->
  fio E hosts
  = ([Log INFO "Preparing FIO benchmark" [];
      run_on [] (fio_phase n_core "prepare" "") hosts],
     Uncaught (Py.AttributeError "stout")).
Proof.
  intros hosts n_core Hbad. unfold fio.
  change (Py.index hosts 0) with (@inr Py.Exn _ h0).
  rewrite bind_lift_ok. fold n_core.
  rewrite fio_template_eq, bind_lift_ok.
  unfold logger. rewrite bind_emit.
  rewrite !fio_substitute, bind_lift_ok.
  rewrite TaktukRemote_eq, bind_returned.
  rewrite action_ok_finished, Hbad.
  reflexivity.
Qed.

Lemma fio_prepared (h0 : string) (rest : list string) :
  let hosts := h0 :: rest in
  let n_core := smt_size (get_host_attributes E h0) in
  let run := fio_phase n_core "run" _sys_grep in
  let clean := fio_phase n_core "cleanup" "" in
  all_ok E (fio_phase n_core "prepare" "") hosts = true ->
  fio E hosts
  = ((Log INFO "Preparing FIO benchmark" []
      :: run_on [] (fio_phase n_core "prepare" "") hosts
      :: Log INFO ("Launching FIO benchmark with " ++ Sh.nl ++ "%s")
           [AStyled "command" run]
      :: run_on [] run hosts
      :: map (result_line E "FIO")
           (processes (finished E (map (fun h => (h, run)) hosts))))
     ++ [Log INFO "Cleaning FIO benchmark" []; run_on [] clean hosts],
     if all_ok E clean hosts then Returned true
     else Uncaught (Py.AttributeError "stout"))%list.
Proof.
  intros hosts n_core run clean Hok. unfold fio.
  change (Py.index hosts 0) with (@inr Py.Exn _ h0).
  rewrite bind_lift_ok. fold n_core.
  rewrite fio_template_eq, bind_lift_ok.
  unfold logger. rewrite bind_emit.
  rewrite !fio_substitute, bind_lift_ok.
  rewrite TaktukRemote_eq, bind_returned.
  rewrite action_ok_finished, Hok.
  cbn [negb]. unfold ret at 1. rewrite bind_returned, bind_lift_ok, bind_emit.
  rewrite bind_lift_ok, TaktukRemote_eq, bind_returned.
  rewrite print_bench_result_eq, bind_returned, bind_emit, bind_lift_ok.
  rewrite TaktukRemote_eq, bind_returned, action_ok_finished.
  fold run clean.
  destruct (all_ok E clean hosts); reflexivity.
Qed.

End Benchmarks.

(** ** The latency benchmark *)

Section Latency.

Variable E : Env.
Variable n_ping : Z.

Lemma ping_format_eq (d : string) :
  Py.percent ping_format [Py.str n_ping; d] = inr (ping_cmd n_ping d).
Proof. reflexivity. Qed.

Lemma latency_commands_from (c : string) (dests cmds : list string)
  (d : option string) :
  for_fold dests
    (fun st d' =>
       if negb (String.eqb d' c) then
         cmd <- lift (Py.percent ping_format [Py.str n_ping; d']) ;;
         ret ((fst st ++ [cmd])%list, Some d')
       else ret (fst st, Some d'))
    (cmds, d)
  = ([], Returned ((cmds ++ map (ping_cmd n_ping) (latency_pinged c dests))%list,
                   after_loop d dests)).
Proof.
  revert cmds d. induction dests as [|x dests IH]; intros cmds d.
  - simpl. now rewrite app_nil_r.
  - cbn [for_fold latency_pinged filter].
    destruct (negb (String.eqb x c)).
    + rewrite ping_format_eq, bind_lift_ok. unfold ret at 1.
      rewrite bind_returned. cbn [fst]. rewrite IH.
      cbn [fst snd map app after_loop fold_left].
      now rewrite <- app_assoc.
    + unfold ret at 1. rewrite bind_returned. cbn [fst]. rewrite IH.
      reflexivity.
Qed.

Lemma latency_commands_eq (c : string) (dests : list string)
  (d : option string) :
  latency_commands n_ping c dests d
  = ([], Returned (map (ping_cmd n_ping) (latency_pinged c dests),
                   after_loop d dests)).
Proof. unfold latency_commands. now rewrite latency_commands_from. Qed.

Lemma combine_repeat {A B} (c : A) (l : list B) :
  combine (repeat c (List.length l)) l = map (fun x => (c, x)) l.
Proof. induction l; simpl; congruence. Qed.

Lemma after_loop_last (d : option string) (dests : list string) (x : string) :
  after_loop d (dests ++ [x]) = Some x.
Proof. unfold after_loop. now rewrite fold_left_app. Qed.

(** One turn of the outer loop. *)
Lemma latency_turn (dests : list string) (label c : string)
  (d : option string) :
  after_loop d dests = Some label ->
  (st <- latency_commands n_ping c dests d ;;
   let cmds := fst st in
   let d := snd st in
   mes <- TaktukRemote_indexed E cmds (repeat c (List.length cmds)) ;;
   for_each (processes mes) (fun p =>
     dest <- lift (local "d" d) ;;
     out <- lift (process_getattr p "stdout") ;;
     logger INFO "LAT %s->%s %s"
       [AStr (get_host_shortname E c);
        AStr (get_host_shortname E dest);
        AStr (Py.strip out)]) ;;
   ret d)
  = (latency_events E n_ping dests label c, Returned (Some label)).
Proof.
  intros Hlast. rewrite latency_commands_eq, bind_returned.
  cbn [fst snd]. rewrite Hlast.
  unfold TaktukRemote_indexed. rewrite combine_repeat, taktuk_eq, bind_returned.
  rewrite (for_each_events _ _
             (fun p => Log INFO "LAT %s->%s %s"
                         [AStr (get_host_shortname E c);
                          AStr (get_host_shortname E label);
                          AStr (Py.strip (stdout p))]))
    by reflexivity.
  rewrite bind_returned. cbn [fst snd ret app].
  unfold latency_events, finished. cbn [processes].
  rewrite !map_map, app_nil_r. reflexivity.
Qed.

Lemma latency_loop (dests : list string) (label : string)
  (sources : list string) (d : option string) :
  (forall d', after_loop d' dests = Some label) ->
  for_fold sources
    (fun d c =>
       st <- latency_commands n_ping c dests d ;;
       let cmds := fst st in
       let d := snd st in
       mes <- TaktukRemote_indexed E cmds (repeat c (List.length cmds)) ;;
       for_each (processes mes) (fun p =>
         dest <- lift (local "d" d) ;;
         out <- lift (process_getattr p "stdout") ;;
         logger INFO "LAT %s->%s %s"
           [AStr (get_host_shortname E c);
            AStr (get_host_shortname E dest);
            AStr (Py.strip out)]) ;;
       ret d)
    d
  = (flat_map (latency_events E n_ping dests label) sources,
     Returned (match sources with [] => d | _ => Some label end)).
Proof.
  intros Hlast. revert d.
  induction sources as [|c sources IH]; intros d; [reflexivity|].
  cbn [for_fold flat_map].
  match goal with
  | |- bind ?m _ = _ =>
      replace m with (latency_events E n_ping dests label c,
                      @Returned (option string) (Some label))
        by (symmetry; apply latency_turn, Hlast)
  end.
  rewrite bind_returned, IH. cbn [fst snd]. now destruct sources.
Qed.

Lemma latency_eq (h0 equipment : string) (rest more : list string) :
  let hosts := h0 :: rest in
  let site := get_host_site E h0 in
  let dests := (hosts ++ [equipment; site])%list in
  get_host_network_equipments E h0 = equipment :: more ->
  latency E hosts n_ping
  = (flat_map (latency_events E n_ping dests site) hosts, Returned tt).
Proof.
  intros hosts site dests Heq. unfold latency.
  change (Py.index hosts 0) with (@inr Py.Exn _ h0).
  rewrite !bind_lift_ok, Heq.
  change (Py.index (equipment :: more) 0) with (@inr Py.Exn _ equipment).
  rewrite !bind_lift_ok.
  cbv zeta.
  assert (Hlast : forall d', after_loop d' dests = Some site).
  { intros d'. unfold dests.
    change (hosts ++ [equipment; site])%list
      with (hosts ++ [equipment] ++ [site])%list.
    rewrite app_assoc. apply after_loop_last. }
  match goal with
  | |- bind ?m _ = _ =>
      replace m with (flat_map (latency_events E n_ping dests site) hosts,
                      @Returned (option string) (Some site))
        by (symmetry; apply (latency_loop dests site hosts None Hlast))
  end.
  rewrite bind_returned. cbn [fst snd ret]. now rewrite app_nil_r.
Qed.

End Latency.

(** ** The order of the sort keys *)

Section KeyOrder.

Lemma string_lt_irrefl (s : string) : ~ String_as_OT.lt s s.
Proof. apply (StrictOrder_Irreflexive (R := String_as_OT.lt)). Qed.

Lemma string_lt_trans (a b c : string) :
  String_as_OT.lt a b -> String_as_OT.lt b c -> String_as_OT.lt a c.
Proof. apply (StrictOrder_Transitive (R := String_as_OT.lt)). Qed.

Lemma key_lt_false_iff (a b : string * Z) :
  key_lt b a = false <-> Spec.pair_le a b.
Proof.
  unfold key_lt, Spec.pair_le.
  destruct (String_as_OT.compare_spec (fst b) (fst a)) as [Heq|Hlt|Hgt].
  - rewrite Z.ltb_ge. split.
    + intros H. right. split; [now symmetry|exact H].
    + intros [H|[_ H]]; [|exact H].
      rewrite Heq in H. now apply string_lt_irrefl in H.
  - split; [discriminate|].
    intros [H|[H _]].
    + exfalso. apply (string_lt_irrefl (fst a)). eapply string_lt_trans; eauto.
    + rewrite H in Hlt. now apply string_lt_irrefl in Hlt.
  - split; [now left|reflexivity].
Qed.

Lemma key_lt_true (a b : string * Z) :
  key_lt a b = true -> Spec.pair_le a b.
Proof.
  unfold key_lt, Spec.pair_le.
  destruct (String_as_OT.compare_spec (fst a) (fst b)) as [Heq|Hlt|Hgt].
  - rewrite Z.ltb_lt. intros H. right. split; [exact Heq|lia].
  - now left.
  - discriminate.
Qed.

Lemma pair_le_trans (a b c : string * Z) :
  Spec.pair_le a b -> Spec.pair_le b c -> Spec.pair_le a c.
Proof.
  unfold Spec.pair_le. intros [H1|[H1 H1']] [H2|[H2 H2']].
  - left. eapply string_lt_trans; eauto.
  - left. now rewrite <- H2.
  - left. now rewrite H1.
  - right. split; [congruence|lia].
Qed.

End KeyOrder.

(** ** [list.sort] *)

Section Sorting.

Context {A : Type}.

Lemma insert_keyed_perm (x : (string * Z) * A) (l : list ((string * Z) * A)) :
  Permutation (x :: l) (insert_keyed x l).
Proof.
  induction l as [|y l IH]; simpl; [reflexivity|].
  destruct (key_lt (fst y) (fst x)); [|reflexivity].
  rewrite perm_swap. now constructor.
Qed.

Lemma sort_keyed_perm (l : list ((string * Z) * A)) :
  Permutation l (sort_keyed l).
Proof.
  induction l as [|x l IH]; simpl; [reflexivity|].
  rewrite <- insert_keyed_perm. now constructor.
Qed.

Lemma insert_keyed_sorted (x : (string * Z) * A)
  (l : list ((string * Z) * A)) :
  StronglySorted keyed_le l -> StronglySorted keyed_le (insert_keyed x l).
Proof.
  induction 1 as [|y l Hl IH Hy]; simpl.
  - repeat constructor.
  - destruct (key_lt (fst y) (fst x)) eqn:Hcmp.
    + constructor; [exact IH|].
      apply (Permutation_Forall (insert_keyed_perm x l)).
      constructor; [|exact Hy]. now apply key_lt_true.
    + apply key_lt_false_iff in Hcmp.
      constructor; [now constructor|].
      constructor; [exact Hcmp|].
      eapply Forall_impl; [|exact Hy].
      intros z Hz. eapply pair_le_trans; eauto.
Qed.

Lemma sort_keyed_sorted (l : list ((string * Z) * A)) :
  StronglySorted keyed_le (sort_keyed l).
Proof.
  induction l as [|x l IH]; simpl; [constructor|].
  now apply insert_keyed_sorted.
Qed.

End Sorting.

Section ResultMap.

Context {A B : Type} (f : A -> Py.Result B).

Lemma rmap_ok (l : list A) (ys : list B) :
  Py.rmap f l = inr ys -> Forall2 (fun x y => f x = inr y) l ys.
Proof.
  revert ys. induction l as [|x l IH]; simpl; intros ys H.
  - injection H as <-. constructor.
  - destruct (f x) as [e|y] eqn:Hx; [discriminate|]. simpl in H.
    destruct (Py.rmap f l) as [e|ys'] eqn:Hl; [discriminate|].
    injection H as <-. constructor; auto.
Qed.

Lemma rmap_raises (l : list A) (x : A) (e : Py.Exn) :
  In x l -> f x = inl e -> exists e', Py.rmap f l = inl e'.
Proof.
  induction l as [|y l IH]; simpl; [contradiction|].
  intros [->|Hin] Hx.
  - rewrite Hx. simpl. eauto.
  - destruct (f y); simpl; [eauto|].
    destruct (IH Hin Hx) as [e' ->]. simpl. eauto.
Qed.

Lemma rmap_total (l : list A) :
  (forall x, In x l -> exists y, f x = inr y) ->
  exists ys, Py.rmap f l = inr ys.
Proof.
  induction l as [|x l IH]; simpl; intros H; [eauto|].
  destruct (H x) as [y ->]; [now left|]. simpl.
  destruct IH as [ys ->]; [intros; apply H; now right|]. simpl. eauto.
Qed.

End ResultMap.

Section SortHosts.

Lemma combine_keys (hosts : list string) (keys : list (string * Z)) :
  Forall2 (fun h k => host_key h = inr k) hosts keys ->
  map snd (combine keys hosts) = hosts
  /\ Forall (fun p => host_key (snd p) = inr (fst p)) (combine keys hosts).
Proof.
  induction 1 as [|h k hosts keys Hk _ [IH1 IH2]]; simpl.
  - split; constructor.
  - split; [now rewrite IH1|now constructor].
Qed.

Lemma sorted_hosts (l : list ((string * Z) * string)) :
  StronglySorted keyed_le l ->
  Forall (fun p => host_key (snd p) = inr (fst p)) l ->
  StronglySorted Spec.host_le (map snd l).
Proof.
  induction 1 as [|p l Hl IH Hp]; simpl; intros Hinv; [constructor|].
  inversion Hinv as [|? ? Hkp Hrest]; subst.
  constructor; [auto|].
  rewrite Forall_map, Forall_forall. intros q Hq.
  exists (fst p), (fst q). repeat split.
  - exact Hkp.
  - rewrite Forall_forall in Hrest. now apply Hrest.
  - rewrite Forall_forall in Hp. now apply Hp.
Qed.

(** What the sort returns: the same hosts, in ascending key order. *)
Lemma sort_hosts_ok (hosts sorted : list string) :
  sort_hosts hosts = inr sorted ->
  Permutation hosts sorted /\ StronglySorted Spec.host_le sorted.
Proof.
  unfold sort_hosts. intros H.
  destruct (Py.rmap host_key hosts) as [e|keys] eqn:Hkeys; [discriminate|].
  simpl in H. injection H as <-.
  destruct (combine_keys hosts keys (rmap_ok _ _ _ Hkeys)) as [Hmap Hinv].
  split.
  - rewrite <- Hmap at 1. apply Permutation_map, sort_keyed_perm.
  - apply sorted_hosts; [apply sort_keyed_sorted|].
    apply (Permutation_Forall (sort_keyed_perm _)), Hinv.
Qed.

Lemma sort_hosts_total (hosts : list string) :
  (forall h, In h hosts -> exists k, host_key h = inr k) ->
  exists sorted, sort_hosts hosts = inr sorted.
Proof.
  intros H. unfold sort_hosts.
  destruct (rmap_total host_key hosts H) as [keys ->]. simpl. eauto.
Qed.

Lemma sort_hosts_raises (hosts : list string) (h : string) (e : Py.Exn) :
  In h hosts -> host_key h = inl e -> exists e', sort_hosts hosts = inl e'.
Proof.
  intros Hin Hh. unfold sort_hosts.
  destruct (rmap_raises host_key hosts h e Hin Hh) as [e' ->]. simpl. eauto.
Qed.

End SortHosts.

(** ** The sort key *)

Section HostKey.

Lemma split_head (sep : ascii) (m : option nat) (s : string) :
  m <> Some O ->
  exists ps, Py.split sep m s = Spec.truncate_at sep s :: ps.
Proof.
  intros Hm. induction s as [|c s [ps IH]]; simpl; [eauto|].
  destruct m as [[|k]|]; [congruence| |].
  - destruct (Ascii.eqb c sep); [eauto|]. rewrite IH. eauto.
  - destruct (Ascii.eqb c sep); [eauto|]. rewrite IH. eauto.
Qed.

Lemma index_split_0 (sep : ascii) (m : option nat) (s : string) :
  m <> Some O ->
  Py.index (Py.split sep m s) 0 = inr (Spec.truncate_at sep s).
Proof.
  intros Hm. destruct (split_head sep m s Hm) as [ps ->]. reflexivity.
Qed.

Lemma split_unlimited (sep : ascii) (s : string) :
  Py.split sep None s
  = Spec.truncate_at sep s
    :: match Spec.after_first sep s with
       | None => []
       | Some r => Py.split sep None r
       end.
Proof.
  induction s as [|c s IH]; simpl; [reflexivity|].
  destruct (Ascii.eqb c sep); [reflexivity|].
  now rewrite IH.
Qed.

Lemma index_split_1 (sep : ascii) (s : string) :
  Py.index (Py.split sep None s) 1
  = match Spec.after_first sep s with
    | None => inl Py.IndexError
    | Some r => inr (Spec.truncate_at sep r)
    end.
Proof.
  rewrite split_unlimited.
  destruct (Spec.after_first sep s) as [r|]; [|reflexivity].
  now rewrite split_unlimited.
Qed.

(** The key in the vocabulary of the specification. *)
Lemma host_key_eq (h : string) :
  host_key h
  = match Spec.after_first "-" (Spec.first_component h) with
    | None => inl Py.IndexError
    | Some suffix =>
        Py.rbind (Py.int (Spec.truncate_at "-" suffix))
          (fun n => Py.ok (Spec.truncate_at "-" (Spec.first_component h), n))
    end.
Proof.
  unfold host_key.
  rewrite !index_split_0 by discriminate. cbn [Py.rbind].
  rewrite index_split_0 by discriminate. cbn [Py.rbind].
  rewrite index_split_1. fold (Spec.first_component h).
  now destruct (Spec.after_first "-" (Spec.first_component h)).
Qed.

Lemma host_key_defined (h : string) :
  (exists k, host_key h = inr k) <-> Spec.hyphen_integer h.
Proof.
  rewrite host_key_eq. unfold Spec.hyphen_integer.
  destruct (Spec.after_first "-" (Spec.first_component h)) as [suffix|].
  - split.
    + intros [k Hk]. exists suffix.
      destruct (Py.int (Spec.truncate_at "-" suffix)) as [e|n]; [discriminate|].
      eauto.
    + intros [s [n [Hs Hn]]]. injection Hs as <-. rewrite Hn. simpl. eauto.
  - split.
    + intros [k Hk]. discriminate.
    + intros [s [n [Hs _]]]. discriminate.
Qed.

Lemma truncate_at_app (c : ascii) (a b : string) :
  Spec.no_char c a = true ->
  Spec.truncate_at c (a ++ b) = a ++ Spec.truncate_at c b.
Proof.
  unfold Spec.no_char. induction a as [|x a IH]; simpl; [reflexivity|].
  rewrite andb_true_iff, negb_true_iff. intros [-> Ha]. now rewrite IH.
Qed.

Lemma truncate_at_absent (c : ascii) (s : string) :
  Spec.no_char c s = true -> Spec.truncate_at c s = s.
Proof.
  intros H. rewrite <- (append_empty_r s) at 1.
  rewrite truncate_at_app by exact H. apply append_empty_r.
Qed.

Lemma after_first_app (c : ascii) (a b : string) :
  Spec.no_char c a = true ->
  Spec.after_first c (a ++ String c b) = Some b.
Proof.
  unfold Spec.no_char. induction a as [|x a IH]; simpl.
  - now rewrite Ascii.eqb_refl.
  - rewrite andb_true_iff, negb_true_iff. intros [-> Ha]. now apply IH.
Qed.

Lemma digits_all (s : string) (acc n : Z) :
  Py.digits_value acc s = Some n -> Spec.all_chars Py.isdigit s = true.
Proof.
  revert acc. induction s as [|c s IH]; simpl; intros acc H; [reflexivity|].
  destruct (Py.isdigit c); [|discriminate]. simpl. eauto.
Qed.

Lemma digit_not (c d : ascii) :
  Py.isdigit d = false -> Py.isdigit c = true -> Ascii.eqb c d = false.
Proof.
  intros Hd Hc. destruct (Ascii.eqb_spec c d) as [->|]; congruence.
Qed.

Lemma digits_no_char (d : ascii) (s : string) :
  Py.isdigit d = false ->
  Spec.all_chars Py.isdigit s = true -> Spec.no_char d s = true.
Proof.
  intros Hd. apply all_chars_impl. intros c Hc.
  now rewrite (digit_not c d Hd Hc).
Qed.

Lemma digit_not_space (c : ascii) :
  Py.isdigit c = true -> Py.isspace c = false.
Proof.
  intros Hc. unfold Py.isspace.
  rewrite (digit_not c " " eq_refl Hc), (digit_not c "009" eq_refl Hc),
    (digit_not c "010" eq_refl Hc), (digit_not c "011" eq_refl Hc),
    (digit_not c "012" eq_refl Hc), (digit_not c "013" eq_refl Hc).
  reflexivity.
Qed.

Lemma rstrip_digits (s : string) :
  Spec.all_chars Py.isdigit s = true -> Py.rstrip s = s.
Proof.
  induction s as [|c s IH]; simpl; [reflexivity|].
  rewrite andb_true_iff. intros [Hc Hs]. rewrite (IH Hs).
  destruct s; [|reflexivity]. now rewrite digit_not_space.
Qed.

Lemma strip_digits (s : string) :
  Spec.all_chars Py.isdigit s = true -> Py.strip s = s.
Proof.
  intros H. unfold Py.strip.
  replace (Py.lstrip s) with s; [now apply rstrip_digits|].
  destruct s as [|c s]; [reflexivity|]. simpl in *.
  apply andb_true_iff in H as [Hc _]. now rewrite digit_not_space.
Qed.

(** [int] reads a non-empty run of digits as its decimal value. *)
Lemma int_digits (s : string) (n : Z) :
  s <> EmptyString -> Py.digits_value 0 s = Some n -> Py.int s = inr n.
Proof.
  intros Hne Hn. unfold Py.int.
  rewrite strip_digits by (eapply digits_all; eauto).
  destruct s as [|c s]; [congruence|].
  pose proof (digits_all _ _ _ Hn) as Hall. simpl in Hall.
  apply andb_true_iff in Hall as [Hc _].
  pose proof (digit_not c "-" eq_refl Hc) as Hminus.
  pose proof (digit_not c "+" eq_refl Hc) as Hplus.
  assert (Hbody : match String c s with
                  | String "-" ds => option_map Z.opp (Py.unsigned_value ds)
                  | String "+" ds => Py.unsigned_value ds
                  | _ => Py.unsigned_value (String c s)
                  end = Py.unsigned_value (String c s)).
  { destruct (Ascii.eqb_spec c "-") as [->|]; [discriminate|].
    destruct (Ascii.eqb_spec c "+") as [->|]; [discriminate|].
    destruct c as [[] [] [] [] [] [] [] []]; try reflexivity; congruence. }
  rewrite Hbody. unfold Py.unsigned_value. now rewrite Hn.
Qed.

(** A host of the form name-N.rest has the key (name, N). *)
Lemma host_key_name_number (h name : string) (n : Z) :
  Spec.name_number h name n -> host_key h = inr (name, n).
Proof.
  intros [digits [rest [-> [Hh [Hd [Hne [Hn Hrest]]]]]]].
  pose proof (digits_all _ _ _ Hn) as Hall.
  assert (Hfirst : Spec.first_component (name ++ "-" ++ digits ++ rest)
                   = name ++ "-" ++ digits).
  { unfold Spec.first_component.
    rewrite truncate_at_app by exact Hd.
    change ("-" ++ digits ++ rest) with (String "-" (digits ++ rest)).
    cbn [Spec.truncate_at Ascii.eqb Bool.eqb].
    rewrite truncate_at_app by (now apply digits_no_char).
    destruct Hrest as [->|[r ->]]; simpl; now rewrite append_empty_r. }
  rewrite host_key_eq, Hfirst.
  change ("-" ++ digits) with (String "-" digits).
  rewrite after_first_app by exact Hh.
  rewrite truncate_at_absent by (now apply digits_no_char).
  rewrite (int_digits digits n Hne Hn). cbn [Py.rbind Py.ok].
  rewrite truncate_at_app by exact Hh.
  cbn [Spec.truncate_at Ascii.eqb Bool.eqb].
  now rewrite append_empty_r.
Qed.

End HostKey.

(** ** Host preparation and acquisition *)

Section Hosts.

Variable E : Env.

Lemma setup_hosts_eq (hosts : list string) (force_deploy no_deploy : bool)
  (deployed undeployed : list string) :
  deployment E hosts force_deploy no_deploy = (deployed, undeployed) ->
  setup_hosts E hosts force_deploy no_deploy
  = let pre := deploy_events hosts undeployed force_deploy no_deploy in
    match sort_hosts deployed with
    | inl e => (pre, Uncaught e)
    | inr hs =>
        if negb (all_ok E conf_ssh_cmd hs) then
          ((pre ++ [run_on taktuk_conf conf_ssh_cmd hs;
                    Log ERROR "Unable to configure SSH" []])%list,
           SystemExit None)
        else if negb (all_ok E install_cmd hs) then
          ((pre ++ [run_on taktuk_conf conf_ssh_cmd hs;
                    Log INFO "Installing sysbench" [];
                    run_on [] install_cmd hs;
                    Log ERROR "Unable to install sysbench" []])%list,
           SystemExit None)
        else
          ((pre ++ [run_on taktuk_conf conf_ssh_cmd hs;
                    Log INFO "Installing sysbench" [];
                    run_on [] install_cmd hs])%list,
           Returned hs)
    end.
Proof.
  unfold deployment. intros Hdep.
  unfold setup_hosts, deploy_events, logger.
  rewrite !bind_emit, Hdep.
  destruct (0 <? List.length undeployed)%nat;
    destruct (sort_hosts deployed) as [e|hs]; try reflexivity.
  - rewrite bind_emit, bind_lift_ok, TaktukRemote_eq, bind_returned.
    rewrite action_ok_finished.
    destruct (all_ok E conf_ssh_cmd hs); [|reflexivity].
    cbn [negb]. unfold ret at 1.
    rewrite bind_returned, bind_emit, TaktukRemote_eq, bind_returned.
    rewrite action_ok_finished.
    destruct (all_ok E install_cmd hs); reflexivity.
  - unfold ret at 1.
    rewrite bind_returned, bind_lift_ok, TaktukRemote_eq, bind_returned.
    rewrite action_ok_finished.
    destruct (all_ok E conf_ssh_cmd hs); [|reflexivity].
    cbn [negb]. unfold ret at 1.
    rewrite bind_returned, bind_emit, TaktukRemote_eq, bind_returned.
    rewrite action_ok_finished.
    destruct (all_ok E install_cmd hs); reflexivity.
Qed.

Lemma resources_format_eq (cluster nodes : string) :
  Py.percent "{cluster='%s'}/nodes=%s" [cluster; nodes]
  = inr ("{cluster='" ++ cluster ++ "'}/nodes=" ++ nodes).
Proof.
  transitivity
    (@inr Py.Exn _ ("{cluster='" ++ cluster ++ "'}/nodes=" ++ nodes ++ ""));
    [reflexivity|].
  now rewrite append_empty_r.
Qed.

Lemma default_job_eq (job_name cluster walltime : string)
  (start_date end_date nodes : Z) (res : list (string * Z)) :
  first_slot E cluster walltime = (start_date, end_date, res) ->
  Py.getitem res cluster = inr nodes ->
  let specs := reservation E job_name cluster walltime start_date nodes in
  _default_job E job_name cluster walltime
  = ([Log INFO "No job running, making a reservation" []; OarSub specs],
     snd (lift (Py.index (oarsub E specs) 0))).
Proof.
  intros Hslot Hres specs. unfold first_slot in Hslot.
  unfold _default_job, logger. rewrite bind_emit.
  cbn [map fst]. rewrite Hslot, Hres, bind_lift_ok.
  rewrite resources_format_eq, bind_lift_ok, bind_emit.
  subst specs. unfold reservation.
  match goal with
  | |- context [Py.index ?l 0] => now destruct (Py.index l 0)
  end.
Qed.

Lemma default_job_no_nodes (job_name cluster walltime : string)
  (start_date end_date : Z) (res : list (string * Z)) (e : Py.Exn) :
  first_slot E cluster walltime = (start_date, end_date, res) ->
  Py.getitem res cluster = inl e ->
  _default_job E job_name cluster walltime
  = ([Log INFO "No job running, making a reservation" []], Uncaught e).
Proof.
  intros Hslot Hres. unfold first_slot in Hslot.
  unfold _default_job, logger. rewrite bind_emit.
  cbn [map fst]. now rewrite Hslot, Hres.
Qed.

Lemma get_hosts_known (job_id : option Z) (site : option string) :
  (logger INFO "Waiting for job start" [] ;;
   emit (WaitOarJobStart job_id site) ;;
   path <- lift (Py.add_str "/sites/" site) ;;
   let job_info :=
     assigned_nodes E (path ++ "/jobs/" ++ Py.str_opt Py.str job_id) in
   hosts <- lift (sort_hosts job_info) ;;
   logger INFO "Hosts: %s" [AHostsList hosts] ;;
   ret hosts)
  = job_hosts E job_id site.
Proof.
  unfold job_hosts, logger. rewrite !bind_emit.
  destruct site as [s|]; [|reflexivity].
  cbn [Py.add_str Py.ok]. rewrite bind_lift_ok. cbv zeta.
  rewrite append_assoc.
  destruct (sort_hosts _); reflexivity.
Qed.

Lemma get_hosts_found (job_name cluster walltime : string) :
  Py.falsy (fst (get_job_by_name E job_name)) = false ->
  get_hosts E job_name cluster walltime
  = job_hosts E (fst (get_job_by_name E job_name))
      (snd (get_job_by_name E job_name)).
Proof.
  intros Hfound. unfold get_hosts. cbv zeta. rewrite Hfound.
  unfold ret at 1. rewrite bind_returned.
  rewrite get_hosts_known. now destruct (job_hosts E _ _).
Qed.

Lemma get_hosts_missing (job_name cluster walltime : string) :
  Py.falsy (fst (get_job_by_name E job_name)) = true ->
  get_hosts E job_name cluster walltime
  = (made <- _default_job E job_name cluster walltime ;;
     logger INFO "Reservation done %s:%s"
       [AStr (Py.str_opt id (snd made));
        AStr (Py.str_opt Py.str (fst made))] ;;
     job_hosts E (fst made) (snd made)).
Proof.
  intros Hmissing. unfold get_hosts. cbv zeta. rewrite Hmissing.
  rewrite bind_assoc.
  destruct (_default_job E job_name cluster walltime) as [t [made|c|e]];
    [|reflexivity|reflexivity].
  rewrite !(bind_returned t made).
  rewrite <- get_hosts_known. reflexivity.
Qed.

End Hosts.

(** * The claims *)

(** ** Outcomes and traces of composed calls *)

Section Outcomes.

Lemma outcome_bind {A B} (m : M A) (k : A -> M B) (t : list Event) (a : A) :
  m = (t, Returned a) -> outcome (bind m k) = outcome (k a).
Proof. intros ->. now rewrite bind_returned. Qed.

Lemma trace_bind_prefix {A B} (m : M A) (k : A -> M B) (e : Event) :
  In e (trace m) -> In e (trace (bind m k)).
Proof.
  destruct m as [t [a| |]]; simpl; auto.
  intros H. destruct (k a). simpl. apply in_or_app. now left.
Qed.

Lemma outcome_bind_uncaught {A B} (m : M A) (k : A -> M B) (e : Py.Exn) :
  outcome m = Uncaught e -> outcome (bind m k) = Uncaught e.
Proof. destruct m as [t [a| |]]; simpl; congruence. Qed.

Lemma outcome_bind_inv {A B} (m : M A) (k : A -> M B) (b : B) :
  outcome (bind m k) = Returned b ->
  exists a, outcome m = Returned a /\ outcome (k a) = Returned b.
Proof.
  destruct m as [t [a| |]]; simpl; try discriminate.
  destruct (k a) eqn:Hk. simpl. intros ->. exists a. now rewrite Hk.
Qed.

Lemma commands_issued_app (t1 t2 : list Event) :
  commands_issued (t1 ++ t2) = (commands_issued t1 ++ commands_issued t2)%list.
Proof. unfold commands_issued. apply flat_map_app. Qed.

Lemma commands_issued_results (E : Env) (name : string) (ps : list Process) :
  commands_issued (map (result_line E name) ps) = [].
Proof. induction ps; simpl; auto. Qed.

Lemma commands_run_on (options : list string) (cmd : string)
  (hosts : list string) (c : string) :
  In c (map snd (map (fun h : string => (h, cmd)) hosts)) -> c = cmd.
Proof.
  rewrite map_map. simpl. rewrite in_map_iff. now intros [h [<- _]].
Qed.

End Outcomes.

(** ** C1: the extraction pipeline *)

Section Extraction.

Lemma cpu_commands (E : Env) (hosts : list string) (max_prime : Z)
  (c : string) :
  In c (commands_issued (trace (cpu E hosts max_prime))) ->
  exists n_core, c = cpu_cmd n_core max_prime.
Proof.
  destruct hosts as [|h0 rest]; [contradiction|].
  rewrite cpu_eq. unfold trace. cbn [fst commands_issued flat_map run_on app].
  fold (commands_issued
          (map (result_line E "CPU")
             (processes
                (finished E
                   (map (fun h => (h, cpu_cmd (smt_size (get_host_attributes E h0)) max_prime))
                        (h0 :: rest)))))).
  rewrite commands_issued_results, app_nil_r.
  intros H. apply commands_run_on in H; [eauto|exact []].
Qed.

Lemma memory_commands (E : Env) (hosts : list string) (c : string) :
  In c (commands_issued (trace (memory E hosts))) ->
  exists mem_size, c = memory_cmd mem_size.
Proof.
  destruct hosts as [|h0 rest]; [contradiction|].
  rewrite memory_eq. unfold trace. cbn [fst commands_issued flat_map run_on app].
  fold (commands_issued
          (map (result_line E "MEM")
             (processes
                (finished E
                   (map (fun h => (h, memory_cmd (ram_size (get_host_attributes E h0))))
                        (h0 :: rest)))))).
  rewrite commands_issued_results, app_nil_r.
  intros H. apply commands_run_on in H; [eauto|exact []].
Qed.

Lemma ends_with_app (suffix a b : string) :
  Spec.ends_with suffix b -> Spec.ends_with suffix (a ++ b).
Proof. intros [pre ->]. exists (a ++ pre). now rewrite append_assoc. Qed.

Lemma ends_with_refl (s : string) : Spec.ends_with s s.
Proof. now exists ""%string. Qed.

Lemma cpu_cmd_ends (n_core max_prime : Z) :
  Spec.ends_with _sys_grep (cpu_cmd n_core max_prime).
Proof.
  unfold cpu_cmd. do 5 apply ends_with_app. apply ends_with_refl.
Qed.

Lemma memory_cmd_ends (mem_size : Z) :
  Spec.ends_with _sys_grep (memory_cmd mem_size).
Proof.
  unfold memory_cmd. do 3 apply ends_with_app. apply ends_with_refl.
Qed.

Lemma fio_run_ends (n_core : Z) :
  Spec.ends_with _sys_grep (fio_phase n_core "run" _sys_grep).
Proof.
  unfold fio_phase. do 5 apply ends_with_app. apply ends_with_refl.
Qed.

Lemma sys_grep_line (before after : list string) (line : string) :
  Py.contains "execution time" line = true ->
  Sh.run sys_grep_pipeline (before ++ line :: after)
  = (Sh.run sys_grep_pipeline before
     ++ Spec.truncate_at "/" (Spec.field 4 line)
        :: Sh.run sys_grep_pipeline after)%list.
Proof.
  intros Hgrep. rewrite !run_sys_grep.
  rewrite filter_app, map_app. cbn [filter]. rewrite Hgrep. cbn [map].
  rewrite cut_first_field. unfold Sh.awk_print, Spec.field.
  now rewrite awk_fields_spec.
Qed.

Lemma sys_grep_other (before after : list string) (line : string) :
  Py.contains "execution time" line = false ->
  Sh.run sys_grep_pipeline (before ++ line :: after)
  = (Sh.run sys_grep_pipeline before ++ Sh.run sys_grep_pipeline after)%list.
Proof.
  intros Hgrep. rewrite !run_sys_grep.
  rewrite filter_app, map_app. cbn [filter]. now rewrite Hgrep.
Qed.

End Extraction.

(** C1.  [_sys_grep] is the text of the pipeline grep | awk | cut; the
    commands of [cpu] and [memory] and the run command of [fio] end with
    it.  Every line of a host's output that contains "execution time"
    yields its 4th whitespace-delimited field cut at its first "/" (the
    empty text when the line has fewer fields), in the order of the
    lines; a line without "execution time" yields nothing; the line
    "    execution time (avg/stddev):    1.234/0.01" yields "1.234". *)
Theorem sys_grep_extracts_execution_time :
  Sh.render sys_grep_pipeline = _sys_grep
  /\ (forall E hosts max_prime c,
        In c (commands_issued (trace (cpu E hosts max_prime))) ->
        Spec.ends_with _sys_grep c)
  /\ (forall E hosts c,
        In c (commands_issued (trace (memory E hosts))) ->
        Spec.ends_with _sys_grep c)
  /\ (forall n_core,
        exists t,
          fio_template n_core = inr t
          /\ Template.substitute t [("action", "run"); ("grep", _sys_grep)]
             = inr (fio_phase n_core "run" _sys_grep)
          /\ Spec.ends_with _sys_grep (fio_phase n_core "run" _sys_grep))
  /\ (forall before after line,
        Py.contains "execution time" line = true ->
        Sh.run sys_grep_pipeline (before ++ line :: after)
        = (Sh.run sys_grep_pipeline before
           ++ Spec.truncate_at "/" (Spec.field 4 line)
              :: Sh.run sys_grep_pipeline after)%list)
  /\ (forall before after line,
        Py.contains "execution time" line = false ->
        Sh.run sys_grep_pipeline (before ++ line :: after)
        = (Sh.run sys_grep_pipeline before
           ++ Sh.run sys_grep_pipeline after)%list)
  /\ Sh.run sys_grep_pipeline
       ["    execution time (avg/stddev):    1.234/0.01"]
     = ["1.234"].
Proof.
  split; [reflexivity|].
  split.
  { intros E hosts max_prime c H.
    destruct (cpu_commands E hosts max_prime c H) as [n ->].
    apply cpu_cmd_ends. }
  split.
  { intros E hosts c H.
    destruct (memory_commands E hosts c H) as [n ->].
    apply memory_cmd_ends. }
  split.
  { intros n. eexists. split; [apply fio_template_eq|].
    split; [apply fio_substitute|apply fio_run_ends]. }
  split; [exact sys_grep_line|].
  split; [exact sys_grep_other|reflexivity].
Qed.

Lemma sys_grep_extracts_execution_time_witness :
  Py.contains "execution time"
    "    execution time (avg/stddev):    1.234/0.01" = true
  /\ Spec.field 4 "    execution time (avg/stddev):    1.234/0.01"
     = "1.234/0.01"
  /\ Sh.run sys_grep_pipeline
       (["total time: 10s"]
        ++ "    execution time (avg/stddev):    1.234/0.01" :: [])
     = (Sh.run sys_grep_pipeline ["total time: 10s"]
        ++ Spec.truncate_at "/"
             (Spec.field 4 "    execution time (avg/stddev):    1.234/0.01")
           :: Sh.run sys_grep_pipeline [])%list.
Proof.
  split; [reflexivity|]. split; [reflexivity|].
  apply (proj1 (proj2 (proj2 (proj2 (proj2
           sys_grep_extracts_execution_time))))); reflexivity.
Defined.

(** ** C8: the fio command template *)

Section FioTemplate.

Lemma fio_prepare_no_char (c : ascii) (n_core : Z) :
  str_char c = false ->
  Spec.no_char c fio_head = true ->
  Spec.no_char c (fio_tail ++ "prepare" ++ " " ++ "") = true ->
  Spec.no_char c (fio_phase n_core "prepare" "") = true.
Proof.
  intros Hc Hhead Htail. unfold fio_phase, Spec.no_char.
  rewrite !all_chars_app.
  fold (Spec.no_char c fio_head). fold (Spec.no_char c (Py.str n_core)).
  rewrite Hhead, (str_no_char c n_core Hc). cbn [andb].
  unfold Spec.no_char in Htail. now rewrite !all_chars_app in Htail.
Qed.

Lemma fio_phase_mode (n_core : Z) (action grep : string) :
  Py.contains "--file-test-mode=seqwr" (fio_phase n_core action grep) = true.
Proof.
  unfold fio_phase. do 2 apply contains_app_r.
  unfold fio_tail.
  change (" --test=fileio --file-total-size=10G --file-test-mode=seqwr ")
    with (" --test=fileio --file-total-size=10G "
          ++ "--file-test-mode=seqwr" ++ " ").
  rewrite append_assoc. apply contains_app_r.
  rewrite append_assoc. reflexivity.
Qed.

Lemma contains_suffix (pat s : string) :
  pat <> EmptyString -> Spec.ends_with pat s -> Py.contains pat s = true.
Proof.
  intros Hne [pre ->]. apply contains_app_r.
  destruct pat as [|c pat]; [congruence|]. simpl.
  destruct (ascii_dec c c); [|congruence].
  assert (Hp : forall p, String.prefix p p = true).
  { induction p as [|a p IH]; [reflexivity|]. simpl.
    destruct (ascii_dec a a); [exact IH|congruence]. }
  now rewrite Hp.
Qed.

End FioTemplate.

(** C8.  On a non-empty host list [fio] builds its template with the
    thread count of the first host, and the commands it sends are the
    substitutions of that template.  The first command it sends, to
    every host, is the template substituted with action "prepare" and
    an empty grep: it contains "--file-test-mode=seqwr" and neither the
    extraction suffix nor any pipe or "grep".  When the prepare phase is
    ok, the command it logs and then sends to every host is the template
    substituted with action "run" and [_sys_grep]: it contains the mode
    and ends with the extraction suffix.  When the prepare phase is not
    ok, nothing follows the prepare command. *)
Theorem fio_template_substitution
  (E : Env) (h0 : string) (rest : list string) :
  let hosts := h0 :: rest in
  let n_core := smt_size (get_host_attributes E h0) in
  exists t prepare run later,
    fio_template n_core = inr t
    /\ Template.substitute t [("action", "prepare"); ("grep", "")]
       = inr prepare
    /\ Template.substitute t [("action", "run"); ("grep", _sys_grep)]
       = inr run
    /\ trace (fio E hosts)
       = Log INFO "Preparing FIO benchmark" []
         :: run_on [] prepare hosts
         :: (if all_ok E prepare hosts
             then Log INFO ("Launching FIO benchmark with " ++ Sh.nl ++ "%s")
                    [AStyled "command" run]
                  :: run_on [] run hosts
                  :: later
             else [])
    /\ Py.contains "--file-test-mode=seqwr" prepare = true
    /\ Py.contains _sys_grep prepare = false
    /\ Py.contains "|" prepare = false
    /\ Py.contains "grep" prepare = false
    /\ Py.contains "--file-test-mode=seqwr" run = true
    /\ Spec.ends_with _sys_grep run
    /\ Py.contains _sys_grep run = true.
Proof.
  intros hosts n_core.
  set (prepare := fio_phase n_core "prepare" "").
  set (run := fio_phase n_core "run" _sys_grep).
  set (clean := fio_phase n_core "cleanup" "").
  exists (fio_head ++ Py.str n_core ++ fio_tail ++ "$action $grep"),
    prepare, run,
    (map (result_line E "FIO")
       (processes (finished E (map (fun h => (h, run)) hosts)))
     ++ [Log INFO "Cleaning FIO benchmark" []; run_on [] clean hosts])%list.
  split; [apply fio_template_eq|].
  split; [apply fio_substitute|].
  split; [apply fio_substitute|].
  split.
  { destruct (all_ok E prepare hosts) eqn:Hok.
    - pose proof (fio_prepared E h0 rest Hok) as Heq. cbv zeta in Heq.
      fold hosts n_core in Heq. fold prepare run clean in Heq.
      rewrite Heq. reflexivity.
    - pose proof (fio_prepare_failure E h0 rest Hok) as Heq. cbv zeta in Heq.
      fold hosts n_core in Heq. fold prepare in Heq.
      rewrite Heq. reflexivity. }
  split; [apply fio_phase_mode|].
  split.
  { apply (contains_missing_char "|").
    now apply fio_prepare_no_char. }
  split.
  { apply (contains_missing_char "|" "").
    now apply fio_prepare_no_char. }
  split.
  { apply (contains_missing_char "g" "rep").
    now apply fio_prepare_no_char. }
  split; [apply fio_phase_mode|].
  split; [apply fio_run_ends|].
  apply contains_suffix; [discriminate|apply fio_run_ends].
Qed.

(** ** C3: a failed fio phase *)

Section FioFailure.

Variable E : Env.

Lemma run_on_commands (options : list string) (cmd : string)
  (hosts : list string) :
  commands_issued [run_on options cmd hosts] = map (fun _ => cmd) hosts.
Proof.
  unfold commands_issued, run_on. simpl.
  now rewrite app_nil_r, map_map.
Qed.

Lemma fio_phases_differ (n_core : Z) :
  fio_phase n_core "prepare" "" <> fio_phase n_core "run" _sys_grep.
Proof.
  intros H.
  assert (Hc : Py.contains "|" (fio_phase n_core "prepare" "") = true).
  { rewrite H. unfold fio_phase. do 5 apply contains_app_r. reflexivity. }
  rewrite (contains_missing_char "|" "") in Hc; [discriminate|].
  now apply fio_prepare_no_char.
Qed.

End FioFailure.

(** C3 (what the code does).  When the prepare phase of [fio] is not ok
    on some host, building the error message reads the attribute
    [stout] of the first process, which does not exist: [fio] ends with
    an uncaught [AttributeError] (exit status 1) after the two events
    "Preparing FIO benchmark" and the prepare command.  The run command
    is never issued, but no error is logged and [exit()] is not
    reached.  The same happens when the cleanup phase is not ok. *)
Theorem fio_failure_raises_attribute_error
  (E : Env) (h0 : string) (rest : list string) :
  let hosts := h0 :: rest in
  let n_core := smt_size (get_host_attributes E h0) in
  (all_ok E (fio_phase n_core "prepare" "") hosts = false ->
   fio E hosts
   = ([Log INFO "Preparing FIO benchmark" [];
       run_on [] (fio_phase n_core "prepare" "") hosts],
      Uncaught (Py.AttributeError "stout"))
   /\ ~ In (fio_phase n_core "run" _sys_grep)
           (commands_issued (trace (fio E hosts)))
   /\ (forall fmt args, ~ In (Log ERROR fmt args) (trace (fio E hosts)))
   /\ exit_status (outcome (fio E hosts)) = 1%Z)
  /\ (all_ok E (fio_phase n_core "prepare" "") hosts = true ->
      all_ok E (fio_phase n_core "cleanup" "") hosts = false ->
      outcome (fio E hosts) = Uncaught (Py.AttributeError "stout")
      /\ (forall fmt args, ~ In (Log ERROR fmt args) (trace (fio E hosts)))).
Proof.
  intros hosts n_core. split.
  - intros Hbad.
    pose proof (fio_prepare_failure E h0 rest Hbad) as Hfio.
    fold hosts n_core in Hfio. rewrite Hfio.
    split; [reflexivity|]. split; [|split; [|reflexivity]].
    + unfold trace. cbn [fst].
      change [Log INFO "Preparing FIO benchmark" [];
              run_on [] (fio_phase n_core "prepare" "") hosts]
        with ([Log INFO "Preparing FIO benchmark" []]
              ++ [run_on [] (fio_phase n_core "prepare" "") hosts])%list.
      rewrite commands_issued_app, run_on_commands. cbn [commands_issued flat_map app].
      rewrite in_map_iff. intros [h [Heq _]].
      now apply (fio_phases_differ n_core).
    + intros fmt args [H|[H|[]]]; discriminate.
  - intros Hok Hbad.
    pose proof (fio_prepared E h0 rest Hok) as Hfio.
    fold hosts n_core in Hfio. cbv zeta in Hfio. rewrite Hfio, Hbad.
    split; [reflexivity|].
    intros fmt args. unfold trace. cbn [fst].
    rewrite in_app_iff. cbn [In].
    rewrite in_map_iff.
    intros [[H|[H|[H|[H|[p [H _]]]]]]|[H|[H|[]]]]; discriminate.
Qed.

Lemma fio_failure_raises_attribute_error_witness :
  let E := Example.env Example.prepare_fails (Some 7%Z, Some "reims") [] in
  let hosts := Example.nodes in
  all_ok E (fio_phase 8 "prepare" "") hosts = false
  /\ fio E hosts
     = ([Log INFO "Preparing FIO benchmark" [];
         run_on [] (fio_phase 8 "prepare" "") hosts],
        Uncaught (Py.AttributeError "stout"))
  /\ exit_status (outcome (fio E hosts)) = 1%Z.
Proof.
  intros E hosts.
  assert (Hbad : all_ok E (fio_phase 8 "prepare" "") hosts = false)
    by (vm_compute; reflexivity).
  split; [exact Hbad|].
  destruct (proj1 (fio_failure_raises_attribute_error E
                     "stremi-10.reims.grid5000.fr"
                     ["stremi-2.reims.grid5000.fr";
                      "stremi-3.reims.grid5000.fr"]) Hbad)
    as [Hfio [_ [_ Hstatus]]].
  split; [exact Hfio|exact Hstatus].
Defined.

(** ** C5: the destination named by the latency lines *)

Section LatencyLabel.

Variable E : Env.
Variable n_ping : Z.

Lemma last_pinged (c site equipment : string) (hosts : list string) :
  site <> c ->
  last (latency_pinged c (hosts ++ [equipment; site])) "" = site.
Proof.
  intros Hne. unfold latency_pinged.
  change (hosts ++ [equipment; site])%list
    with (hosts ++ [equipment] ++ [site])%list.
  rewrite app_assoc, filter_app. cbn [filter].
  apply String.eqb_neq in Hne. rewrite Hne. cbn [negb].
  apply last_last.
Qed.

End LatencyLabel.

(** C5.  With a non-empty host list whose first host has a network
    equipment, [latency] issues for every source host [c] one ping per
    destination other than [c] and then logs one line per ping.  The
    destination named in every such line is the value the loop variable
    [d] has after the loop over the destinations, the last element of
    the destination list (the site of the first host), whatever
    destination the reported command pinged; when the site is not the
    source itself, that is the last destination distinct from the
    source. *)
Theorem latency_logs_final_loop_variable
  (E : Env) (n_ping : Z) (h0 equipment : string) (rest more : list string) :
  let hosts := h0 :: rest in
  let site := get_host_site E h0 in
  let dests := (hosts ++ [equipment; site])%list in
  get_host_network_equipments E h0 = equipment :: more ->
  latency E hosts n_ping
  = (flat_map (latency_events E n_ping dests site) hosts, Returned tt)
  /\ (forall d, after_loop d dests = Some site)
  /\ (forall c d,
        In c hosts -> In d (latency_pinged c dests) ->
        In (c, ping_cmd n_ping d)
           (map (fun cmd => (c, cmd))
              (map (ping_cmd n_ping) (latency_pinged c dests)))
        /\ In (Run [] (map (fun cmd => (c, cmd))
                         (map (ping_cmd n_ping) (latency_pinged c dests))))
              (trace (latency E hosts n_ping))
        /\ In (latency_line E c site (ping_cmd n_ping d))
              (trace (latency E hosts n_ping)))
  /\ (forall c, In c hosts -> site <> c ->
        last (latency_pinged c dests) "" = site).
Proof.
  intros hosts site dests Heq.
  pose proof (latency_eq E n_ping h0 equipment rest more Heq) as Hlat.
  cbv zeta in Hlat. fold hosts site dests in Hlat.
  split; [exact Hlat|]. split; [|split].
  - intros d. unfold dests.
    change (hosts ++ [equipment; site])%list
      with (hosts ++ [equipment] ++ [site])%list.
    rewrite app_assoc. apply after_loop_last.
  - intros c d Hc Hd. rewrite Hlat. unfold trace. cbn [fst].
    split; [|split].
    + apply in_map, in_map, Hd.
    + apply in_flat_map. exists c. split; [exact Hc|]. now left.
    + apply in_flat_map. exists c. split; [exact Hc|]. right.
      apply in_map, in_map, Hd.
  - intros c _ Hne. now apply last_pinged.
Qed.

Lemma latency_logs_final_loop_variable_witness :
  let E := Example.env Example.never (Some 7%Z, Some "reims") [] in
  get_host_network_equipments E "stremi-2.reims.grid5000.fr"
  = "gw-reims" :: []
  /\ In (latency_line E "stremi-2.reims.grid5000.fr" "reims"
           (ping_cmd 10 "stremi-3.reims.grid5000.fr"))
        (trace (latency E ["stremi-2.reims.grid5000.fr";
                           "stremi-3.reims.grid5000.fr"] 10))
  /\ last (latency_pinged "stremi-2.reims.grid5000.fr"
             ["stremi-2.reims.grid5000.fr"; "stremi-3.reims.grid5000.fr";
              "gw-reims"; "reims"]) "" = "reims".
Proof.
  intros E.
  assert (Heq : get_host_network_equipments E "stremi-2.reims.grid5000.fr"
                = "gw-reims" :: []) by reflexivity.
  split; [exact Heq|].
  destruct (latency_logs_final_loop_variable E 10
              "stremi-2.reims.grid5000.fr" "gw-reims"
              ["stremi-3.reims.grid5000.fr"] [] Heq)
    as [_ [_ [Hline Hlast]]].
  split.
  - apply (Hline "stremi-2.reims.grid5000.fr" "stremi-3.reims.grid5000.fr").
    + now left.
    + vm_compute. now left.
  - apply (Hlast "stremi-2.reims.grid5000.fr"); [now left|discriminate].
Defined.

(** ** C2: the order of the host sort *)

Section HostOrder.

Lemma strongly_sorted_in {A} (R R' : A -> A -> Prop) (l : list A) :
  (forall x y, In x l -> In y l -> R x y -> R' x y) ->
  StronglySorted R l -> StronglySorted R' l.
Proof.
  intros Himp Hs. induction Hs as [|x l Hl IH Hx]; constructor.
  - apply IH. intros a b Ha Hb. apply Himp; now right.
  - rewrite Forall_forall in *. intros y Hy.
    apply Himp; [now left|now right|now apply Hx].
Qed.

Lemma host_le_name_number (h1 h2 name1 name2 : string) (n1 n2 : Z) :
  Spec.name_number h1 name1 n1 -> Spec.name_number h2 name2 n2 ->
  Spec.host_le h1 h2 -> Spec.name_number_le h1 h2.
Proof.
  intros H1 H2 [k1 [k2 [Hk1 [Hk2 Hle]]]].
  rewrite (host_key_name_number _ _ _ H1) in Hk1.
  rewrite (host_key_name_number _ _ _ H2) in Hk2.
  injection Hk1 as <-. injection Hk2 as <-.
  exists name1, n1, name2, n2. auto.
Qed.

Lemma job_hosts_returned (E : Env) (job_id : option Z) (site : option string)
  (hs : list string) :
  outcome (job_hosts E job_id site) = Returned hs ->
  exists path, sort_hosts (assigned_nodes E path) = inr hs.
Proof.
  unfold job_hosts. destruct site as [s|]; [|discriminate].
  destruct (sort_hosts _) as [e|hs'] eqn:Hs; [discriminate|].
  simpl. intros H. injection H as <-. eauto.
Qed.

Lemma get_hosts_returned (E : Env) (job_name cluster walltime : string)
  (hs : list string) :
  outcome (get_hosts E job_name cluster walltime) = Returned hs ->
  exists path, sort_hosts (assigned_nodes E path) = inr hs.
Proof.
  destruct (Py.falsy (fst (get_job_by_name E job_name))) eqn:Hfound.
  - rewrite get_hosts_missing by exact Hfound. intros H.
    apply outcome_bind_inv in H as [made [_ H]].
    apply outcome_bind_inv in H as [[] [_ H]].
    now apply job_hosts_returned in H.
  - rewrite get_hosts_found by exact Hfound. apply job_hosts_returned.
Qed.

Lemma setup_hosts_returned (E : Env) (hosts : list string)
  (force_deploy no_deploy : bool) (hs : list string) :
  outcome (setup_hosts E hosts force_deploy no_deploy) = Returned hs ->
  sort_hosts (fst (deployment E hosts force_deploy no_deploy)) = inr hs.
Proof.
  destruct (deployment E hosts force_deploy no_deploy)
    as [deployed undeployed] eqn:Hdep.
  rewrite (setup_hosts_eq E _ _ _ _ _ Hdep). cbv zeta. cbn [fst].
  destruct (sort_hosts deployed) as [e|hs']; [discriminate|].
  destruct (negb (all_ok E conf_ssh_cmd hs')); [discriminate|].
  destruct (negb (all_ok E install_cmd hs')); [discriminate|].
  simpl. congruence.
Qed.

End HostOrder.

(** C2.  A list of hosts of the form name-N.rest is sorted without
    error into a permutation of itself in ascending order of the pairs
    (name, integer N); the two hosts of the specification come out with
    node-2 before node-10.  Whatever [get_hosts] and [setup_hosts]
    return is the result of that same sort, applied to the assigned
    nodes and to the deployed hosts. *)
Theorem host_sort_is_numeric_on_suffix :
  (forall hosts,
     (forall h, In h hosts -> exists name n, Spec.name_number h name n) ->
     exists sorted,
       sort_hosts hosts = inr sorted
       /\ Permutation hosts sorted
       /\ StronglySorted Spec.name_number_le sorted)
  /\ sort_hosts ["node-10.cluster.site"; "node-2.cluster.site"]
     = inr ["node-2.cluster.site"; "node-10.cluster.site"]
  /\ (forall E job_name cluster walltime hs,
        outcome (get_hosts E job_name cluster walltime) = Returned hs ->
        exists path, sort_hosts (assigned_nodes E path) = inr hs)
  /\ (forall E hosts force_deploy no_deploy hs,
        outcome (setup_hosts E hosts force_deploy no_deploy) = Returned hs ->
        sort_hosts (fst (deployment E hosts force_deploy no_deploy))
        = inr hs).
Proof.
  split.
  { intros hosts Hshape.
    destruct (sort_hosts_total hosts) as [sorted Hs].
    { intros h Hh. destruct (Hshape h Hh) as [name [n Hn]].
      exists (name, n). now apply host_key_name_number. }
    exists sorted. destruct (sort_hosts_ok hosts sorted Hs) as [Hperm Hsorted].
    split; [exact Hs|]. split; [exact Hperm|].
    apply (strongly_sorted_in Spec.host_le); [|exact Hsorted].
    intros x y Hx Hy Hle.
    destruct (Hshape x) as [nx [kx Hnx]];
      [now apply (Permutation_in _ (Permutation_sym Hperm))|].
    destruct (Hshape y) as [ny [ky Hny]];
      [now apply (Permutation_in _ (Permutation_sym Hperm))|].
    eapply host_le_name_number; eauto. }
  split; [reflexivity|].
  split; [exact get_hosts_returned|exact setup_hosts_returned].
Qed.

Lemma host_sort_is_numeric_on_suffix_witness :
  (forall h, In h ["node-10.cluster.site"; "node-2.cluster.site"] ->
             exists name n, Spec.name_number h name n)
  /\ exists sorted,
       sort_hosts ["node-10.cluster.site"; "node-2.cluster.site"]
       = inr sorted
       /\ Permutation ["node-10.cluster.site"; "node-2.cluster.site"] sorted
       /\ StronglySorted Spec.name_number_le sorted.
Proof.
  assert (Hshape : forall h,
             In h ["node-10.cluster.site"; "node-2.cluster.site"] ->
             exists name n, Spec.name_number h name n).
  { intros h [<-|[<-|[]]].
    - exists "node", 10%Z, "10", ".cluster.site".
      repeat split; try reflexivity; [discriminate|]. right. now eexists.
    - exists "node", 2%Z, "2", ".cluster.site".
      repeat split; try reflexivity; [discriminate|]. right. now eexists. }
  split; [exact Hshape|].
  exact (proj1 host_sort_is_numeric_on_suffix _ Hshape).
Defined.

(** ** C10: hosts without a key *)

Section MalformedHosts.

Lemma lstrip_chars (Q : ascii -> bool) (s : string) :
  (forall c, Py.isspace c = true -> Q c = true) ->
  Spec.all_chars Q (Py.lstrip s) = Spec.all_chars Q s.
Proof.
  intros HQ. induction s as [|c s IH]; simpl; [reflexivity|].
  destruct (Py.isspace c) eqn:Hc; [|reflexivity].
  now rewrite IH, (HQ c Hc).
Qed.

Lemma rstrip_chars (Q : ascii -> bool) (s : string) :
  (forall c, Py.isspace c = true -> Q c = true) ->
  Spec.all_chars Q (Py.rstrip s) = Spec.all_chars Q s.
Proof.
  intros HQ. induction s as [|c s IH]; simpl; [reflexivity|].
  destruct (Py.rstrip s) as [|a r] eqn:Hr.
  - rewrite <- IH. simpl. rewrite andb_true_r.
    destruct (Py.isspace c) eqn:Hc; simpl.
    + now rewrite (HQ c Hc).
    + now rewrite andb_true_r.
  - now rewrite <- IH.
Qed.

Lemma digits_reject (s : string) (acc : Z) :
  Spec.all_chars int_char s = false -> Py.digits_value acc s = None.
Proof.
  intros H. destruct (Py.digits_value acc s) as [n|] eqn:Hn; [|reflexivity].
  apply digits_all in Hn.
  rewrite (all_chars_impl Py.isdigit int_char s) in H; [discriminate| |exact Hn].
  intros c Hc. unfold int_char. now rewrite Hc.
Qed.

Lemma unsigned_reject (s : string) :
  Spec.all_chars int_char s = false -> Py.unsigned_value s = None.
Proof.
  intros H. destruct s; [reflexivity|]. now apply digits_reject.
Qed.

(** [int] rejects a text with a character that is neither a digit, a
    sign nor white space. *)
Lemma int_rejects (s : string) :
  Spec.all_chars int_char s = false -> Py.int s = inl (Py.ValueError s).
Proof.
  intros H. unfold Py.int.
  assert (Hspace : forall c, Py.isspace c = true -> int_char c = true).
  { intros c Hc. unfold int_char. rewrite Hc. now rewrite orb_true_r. }
  assert (Hbody : Spec.all_chars int_char (Py.strip s) = false).
  { unfold Py.strip. now rewrite rstrip_chars, lstrip_chars. }
  destruct (Py.strip s) as [|c body]; [discriminate|].
  assert (Hparsed :
            match String c body with
            | String "-" ds => option_map Z.opp (Py.unsigned_value ds)
            | String "+" ds => Py.unsigned_value ds
            | _ => Py.unsigned_value (String c body)
            end = None).
  { destruct (Ascii.eqb_spec c "-") as [->|Hm].
    - simpl in Hbody. now rewrite unsigned_reject.
    - destruct (Ascii.eqb_spec c "+") as [->|Hp].
      + simpl in Hbody. now rewrite unsigned_reject.
      + rewrite <- (unsigned_reject (String c body) Hbody).
        destruct c as [[] [] [] [] [] [] [] []]; try reflexivity; congruence. }
  now rewrite Hparsed.
Qed.

Lemma host_key_missing (h : string) :
  ~ Spec.hyphen_integer h -> exists e, host_key h = inl e.
Proof.
  intros H. destruct (host_key h) as [e|k] eqn:Hk; [eauto|].
  exfalso. apply H, host_key_defined. eauto.
Qed.

Variable E : Env.

Lemma default_job_outcome (job_name cluster walltime : string) :
  (exists t made,
      _default_job E job_name cluster walltime = (t, Returned made))
  \/ (exists t e,
         _default_job E job_name cluster walltime = (t, Uncaught e)).
Proof.
  destruct (first_slot E cluster walltime) as [[start stop] res] eqn:Hslot.
  destruct (Py.getitem res cluster) as [e|nodes] eqn:Hres.
  - right. rewrite (default_job_no_nodes E _ _ _ _ _ _ _ Hslot Hres). eauto.
  - rewrite (default_job_eq E job_name _ _ _ _ _ _ Hslot Hres). cbv zeta.
    destruct (Py.index _ 0) as [e|made]; simpl; eauto.
Qed.

Lemma job_hosts_raises (job_id : option Z) (site : option string)
  (hosts : list string) (h : string) :
  (forall path, assigned_nodes E path = hosts) ->
  In h hosts -> ~ Spec.hyphen_integer h ->
  exists e, outcome (job_hosts E job_id site) = Uncaught e.
Proof.
  intros Hnodes Hin Hbad. unfold job_hosts.
  destruct site as [s|]; [|simpl; eauto].
  rewrite Hnodes.
  destruct (host_key_missing h Hbad) as [e He].
  destruct (sort_hosts_raises hosts h e Hin He) as [e' ->]. simpl. eauto.
Qed.

Lemma get_hosts_raises (job_name cluster walltime : string)
  (hosts : list string) (h : string) :
  (forall path, assigned_nodes E path = hosts) ->
  In h hosts -> ~ Spec.hyphen_integer h ->
  exists e, outcome (get_hosts E job_name cluster walltime) = Uncaught e.
Proof.
  intros Hnodes Hin Hbad.
  destruct (Py.falsy (fst (get_job_by_name E job_name))) eqn:Hfound.
  - rewrite get_hosts_missing by exact Hfound.
    destruct (default_job_outcome job_name cluster walltime)
      as [[t [made Hjob]]|[t [e Hjob]]].
    + rewrite (outcome_bind _ _ _ _ Hjob).
      unfold logger. rewrite bind_emit.
      exact (job_hosts_raises _ _ hosts h Hnodes Hin Hbad).
    + exists e. apply outcome_bind_uncaught. now rewrite Hjob.
  - rewrite get_hosts_found by exact Hfound.
    eapply job_hosts_raises; eauto.
Qed.

Lemma setup_hosts_raises (requested : list string)
  (force_deploy no_deploy : bool) (h : string) :
  In h (fst (deployment E requested force_deploy no_deploy)) ->
  ~ Spec.hyphen_integer h ->
  exists e, outcome (setup_hosts E requested force_deploy no_deploy)
            = Uncaught e.
Proof.
  destruct (deployment E requested force_deploy no_deploy)
    as [deployed undeployed] eqn:Hdep.
  cbn [fst]. intros Hin Hbad.
  rewrite (setup_hosts_eq E _ _ _ _ _ Hdep). cbv zeta.
  destruct (host_key_missing h Hbad) as [e He].
  destruct (sort_hosts_raises deployed h e Hin He) as [e' ->]. simpl. eauto.
Qed.

End MalformedHosts.

(** C10.  A host has a sort key exactly when its first dot-separated
    component has a hyphen and the text between that hyphen and the
    next one (or the end) is read by [int]; without a hyphen the key
    raises [IndexError], with a suffix that has a character other than
    digits, signs and white space it raises [ValueError].  A list that
    contains a host without a key is not sorted: the sort raises, and
    so do [get_hosts] and [setup_hosts] when the assigned nodes or the
    deployed hosts contain it. *)
Theorem host_sort_raises_on_malformed_host :
  (forall h, (exists k, host_key h = inr k) <-> Spec.hyphen_integer h)
  /\ (forall h,
        Spec.after_first "-" (Spec.first_component h) = None ->
        host_key h = inl Py.IndexError)
  /\ (forall h suffix,
        Spec.after_first "-" (Spec.first_component h) = Some suffix ->
        Spec.all_chars int_char (Spec.truncate_at "-" suffix) = false ->
        host_key h = inl (Py.ValueError (Spec.truncate_at "-" suffix)))
  /\ (forall hosts h,
        In h hosts -> ~ Spec.hyphen_integer h ->
        (exists e, sort_hosts hosts = inl e)
        /\ (forall E job_name cluster walltime,
              (forall path, assigned_nodes E path = hosts) ->
              exists e,
                outcome (get_hosts E job_name cluster walltime) = Uncaught e)
        /\ (forall E requested force_deploy no_deploy,
              fst (deployment E requested force_deploy no_deploy) = hosts ->
              exists e,
                outcome (setup_hosts E requested force_deploy no_deploy)
                = Uncaught e)).
Proof.
  split; [exact host_key_defined|].
  split; [intros h H; now rewrite host_key_eq, H|].
  split.
  { intros h suffix H Hbad. rewrite host_key_eq, H.
    now rewrite (int_rejects _ Hbad). }
  intros hosts h Hin Hbad. split; [|split].
  - destruct (host_key_missing h Hbad) as [e He].
    eapply sort_hosts_raises; eauto.
  - intros E job_name cluster walltime Hnodes.
    eapply get_hosts_raises; eauto.
  - intros E requested fd nd Hdep.
    apply (setup_hosts_raises E requested fd nd h); [now rewrite Hdep|exact Hbad].
Qed.

Lemma host_sort_raises_on_malformed_host_witness :
  In "gw.reims.grid5000.fr" ["stremi-2.reims.grid5000.fr"; "gw.reims.grid5000.fr"]
  /\ ~ Spec.hyphen_integer "gw.reims.grid5000.fr"
  /\ exists e,
       sort_hosts ["stremi-2.reims.grid5000.fr"; "gw.reims.grid5000.fr"]
       = inl e.
Proof.
  assert (Hin : In "gw.reims.grid5000.fr"
                  ["stremi-2.reims.grid5000.fr"; "gw.reims.grid5000.fr"])
    by (right; now left).
  assert (Hbad : ~ Spec.hyphen_integer "gw.reims.grid5000.fr")
    by (intros [suffix [n [H _]]]; discriminate).
  split; [exact Hin|]. split; [exact Hbad|].
  exact (proj1 (proj2 (proj2 (proj2 host_sort_raises_on_malformed_host))
                  _ _ Hin Hbad)).
Defined.

(** ** C6: partial deployment *)

Section PartialDeploy.

Variable E : Env.

Lemma deploy_events_warning (hosts undeployed : list string)
  (force_deploy no_deploy : bool) :
  undeployed <> [] ->
  In (Log WARNING "%s have not been deployed" [AHostsList undeployed])
     (deploy_events hosts undeployed force_deploy no_deploy).
Proof.
  intros Hne. unfold deploy_events.
  destruct undeployed as [|u us]; [congruence|].
  cbn. right. right. now left.
Qed.

Lemma setup_hosts_trace_prefix (hosts : list string)
  (force_deploy no_deploy : bool) (deployed undeployed : list string)
  (e : Event) :
  deployment E hosts force_deploy no_deploy = (deployed, undeployed) ->
  In e (deploy_events hosts undeployed force_deploy no_deploy) ->
  In e (trace (setup_hosts E hosts force_deploy no_deploy)).
Proof.
  intros Hdep Hin. rewrite (setup_hosts_eq E _ _ _ _ _ Hdep). cbv zeta.
  destruct (sort_hosts deployed) as [x|hs]; [exact Hin|].
  destruct (negb (all_ok E conf_ssh_cmd hs));
    [unfold trace; cbn [fst]; apply in_or_app; now left|].
  destruct (negb (all_ok E install_cmd hs));
    unfold trace; cbn [fst]; apply in_or_app; now left.
Qed.

End PartialDeploy.

(** C6.  [deployed] and [undeployed] being the two sets [deploy]
    returns: whatever [setup_hosts] returns is the sort of the deployed
    hosts, a permutation of them in ascending key order and of the same
    length; it does return it when the sort, the SSH configuration and
    the installation succeed; and when some host was not deployed, a
    warning naming the undeployed hosts is logged (whatever happens
    later), so that execution goes on with the reduced set. *)
Theorem setup_hosts_returns_deployed_sorted
  (E : Env) (hosts : list string) (force_deploy no_deploy : bool)
  (deployed undeployed : list string) :
  deployment E hosts force_deploy no_deploy = (deployed, undeployed) ->
  (forall hs,
     outcome (setup_hosts E hosts force_deploy no_deploy) = Returned hs ->
     sort_hosts deployed = inr hs
     /\ Permutation deployed hs
     /\ StronglySorted Spec.host_le hs
     /\ List.length hs = List.length deployed)
  /\ (forall hs,
        sort_hosts deployed = inr hs ->
        all_ok E conf_ssh_cmd hs = true ->
        all_ok E install_cmd hs = true ->
        outcome (setup_hosts E hosts force_deploy no_deploy) = Returned hs)
  /\ (undeployed <> [] ->
      In (Log WARNING "%s have not been deployed" [AHostsList undeployed])
         (trace (setup_hosts E hosts force_deploy no_deploy))).
Proof.
  intros Hdep. split; [|split].
  - intros hs Hret.
    pose proof (setup_hosts_returned E _ _ _ _ Hret) as Hs.
    rewrite Hdep in Hs. cbn [fst] in Hs.
    destruct (sort_hosts_ok deployed hs Hs) as [Hperm Hsorted].
    repeat split; auto.
    symmetry. now apply Permutation_length.
  - intros hs Hs Hssh Hinst.
    rewrite (setup_hosts_eq E _ _ _ _ _ Hdep). cbv zeta.
    now rewrite Hs, Hssh, Hinst.
  - intros Hne. eapply setup_hosts_trace_prefix; [exact Hdep|].
    now apply deploy_events_warning.
Qed.

Lemma setup_hosts_returns_deployed_sorted_witness :
  let E := Example.env Example.never (Some 7%Z, Some "reims")
             ["stremi-3.reims.grid5000.fr"] in
  let kept := ["stremi-2.reims.grid5000.fr"; "stremi-10.reims.grid5000.fr"] in
  deployment E Example.nodes false false
  = (["stremi-10.reims.grid5000.fr"; "stremi-2.reims.grid5000.fr"],
     ["stremi-3.reims.grid5000.fr"])
  /\ outcome (setup_hosts E Example.nodes false false) = Returned kept
  /\ List.length kept = 2%nat
  /\ In (Log WARNING "%s have not been deployed"
           [AHostsList ["stremi-3.reims.grid5000.fr"]])
        (trace (setup_hosts E Example.nodes false false)).
Proof.
  intros E kept.
  assert (Hdep : deployment E Example.nodes false false
                 = (["stremi-10.reims.grid5000.fr";
                     "stremi-2.reims.grid5000.fr"],
                    ["stremi-3.reims.grid5000.fr"])) by reflexivity.
  destruct (setup_hosts_returns_deployed_sorted E Example.nodes false false
              _ _ Hdep) as [_ [Hret Hwarn]].
  split; [exact Hdep|]. split; [|split; [reflexivity|]].
  - apply Hret; reflexivity.
  - apply Hwarn. discriminate.
Defined.

(** ** C7: reuse of an existing reservation *)

Section Reservation.

Variable E : Env.

Lemma job_hosts_no_submission (job_id : option Z) (site : option string) :
  forallb (fun e => negb (is_submission e)) (trace (job_hosts E job_id site))
  = true.
Proof.
  unfold job_hosts. destruct site as [s|]; [|reflexivity].
  destruct (sort_hosts _); reflexivity.
Qed.

Lemma no_submission_in (t : list Event)
  (specs : list (OarSubmission * string)) :
  forallb (fun e => negb (is_submission e)) t = true ->
  ~ In (OarSub specs) t.
Proof.
  rewrite forallb_forall. intros H Hin. now apply H in Hin.
Qed.

Lemma get_hosts_submission (job_name cluster walltime : string)
  (specs : list (OarSubmission * string)) :
  In (OarSub specs) (trace (get_hosts E job_name cluster walltime)) ->
  Py.falsy (fst (get_job_by_name E job_name)) = true
  /\ exists start_date nodes,
       specs = reservation E job_name cluster walltime start_date nodes.
Proof.
  destruct (Py.falsy (fst (get_job_by_name E job_name))) eqn:Hfound.
  - intros Hin. split; [reflexivity|].
    rewrite get_hosts_missing in Hin by exact Hfound.
    destruct (first_slot E cluster walltime) as [[start stop] res] eqn:Hslot.
    destruct (Py.getitem res cluster) as [e|nodes] eqn:Hres.
    + rewrite (default_job_no_nodes E _ _ _ _ _ _ _ Hslot Hres) in Hin.
      destruct Hin as [H|[]]. discriminate.
    + rewrite (default_job_eq E job_name _ _ _ _ _ _ Hslot Hres) in Hin.
      cbv zeta in Hin.
      destruct (Py.index _ 0) as [e|made]; simpl in Hin.
      * destruct Hin as [H|[H|[]]]; [discriminate|].
        injection H as <-. eauto.
      * destruct (job_hosts E (fst made) (snd made)) as [t o] eqn:Hjob.
        simpl in Hin.
        destruct Hin as [H|[H|[H|Hin]]]; try discriminate.
        -- injection H as <-. eauto.
        -- exfalso.
           apply (no_submission_in t specs); [|exact Hin].
           pose proof (job_hosts_no_submission (fst made) (snd made)) as Hno.
           now rewrite Hjob in Hno.
  - rewrite get_hosts_found by exact Hfound. intros Hin.
    exfalso. eapply no_submission_in; [|exact Hin].
    apply job_hosts_no_submission.
Qed.

End Reservation.

(** C7.  When the query by name returns a job id (scheduler ids are
    positive), [get_hosts] makes no submission: it waits for that job
    on that site and reads its nodes.  A submission appears in the trace
    only when the query returned no usable id, and it is then the
    deploy-type reservation of [_default_job] under the given name;
    that reservation is indeed submitted when the query returns no id
    and the first slot lists the cluster. *)
Theorem get_hosts_reuses_existing_job
  (E : Env) (job_name cluster walltime : string) :
  (forall job_id site,
     get_job_by_name E job_name = (Some job_id, site) ->
     (0 < job_id)%Z ->
     get_hosts E job_name cluster walltime = job_hosts E (Some job_id) site
     /\ forallb (fun e => negb (is_submission e))
          (trace (get_hosts E job_name cluster walltime)) = true
     /\ In (WaitOarJobStart (Some job_id) site)
          (trace (get_hosts E job_name cluster walltime)))
  /\ (forall specs,
        In (OarSub specs) (trace (get_hosts E job_name cluster walltime)) ->
        Py.falsy (fst (get_job_by_name E job_name)) = true
        /\ exists start_date nodes,
             specs = reservation E job_name cluster walltime start_date nodes
             /\ map (fun s => (oar_job_type (fst s), oar_name (fst s))) specs
                = [("deploy", job_name)])
  /\ (forall start_date end_date res nodes,
        fst (get_job_by_name E job_name) = None ->
        first_slot E cluster walltime = (start_date, end_date, res) ->
        Py.getitem res cluster = inr nodes ->
        In (OarSub (reservation E job_name cluster walltime start_date nodes))
           (trace (get_hosts E job_name cluster walltime))).
Proof.
  split; [|split].
  - intros job_id site Hfound Hpos.
    assert (Hf : Py.falsy (fst (get_job_by_name E job_name)) = false).
    { rewrite Hfound. simpl. apply Z.eqb_neq. lia. }
    rewrite (get_hosts_found E _ _ _ Hf), Hfound. cbn [fst snd].
    split; [reflexivity|]. split; [apply job_hosts_no_submission|].
    unfold job_hosts. destruct site as [s|]; [|simpl; auto].
    destruct (sort_hosts _); simpl; auto.
  - intros specs Hin.
    destruct (get_hosts_submission E _ _ _ _ Hin) as [Hf [start [nodes ->]]].
    split; [exact Hf|]. exists start, nodes. split; reflexivity.
  - intros start stop res nodes Hnone Hslot Hres.
    assert (Hf : Py.falsy (fst (get_job_by_name E job_name)) = true)
      by now rewrite Hnone.
    rewrite (get_hosts_missing E _ _ _ Hf).
    apply trace_bind_prefix.
    rewrite (default_job_eq E job_name _ _ _ _ _ _ Hslot Hres).
    right. now left.
Qed.

Lemma get_hosts_reuses_existing_job_witness :
  let E := Example.env Example.never (Some 7%Z, Some "reims") [] in
  get_job_by_name E "check_node_perf" = (Some 7%Z, Some "reims")
  /\ (0 < 7)%Z
  /\ get_hosts E "check_node_perf" "stremi" "3:00:00"
     = job_hosts E (Some 7%Z) (Some "reims")
  /\ forallb (fun e => negb (is_submission e))
       (trace (get_hosts E "check_node_perf" "stremi" "3:00:00")) = true.
Proof.
  intros E.
  assert (Hfound : get_job_by_name E "check_node_perf"
                   = (Some 7%Z, Some "reims")) by reflexivity.
  assert (Hpos : (0 < 7)%Z) by lia.
  destruct (proj1 (get_hosts_reuses_existing_job E "check_node_perf"
                     "stremi" "3:00:00") _ _ Hfound Hpos) as [Heq [Hno _]].
  split; [exact Hfound|]. split; [exact Hpos|]. split; [exact Heq|exact Hno].
Defined.

(** ** C4: how the program ends *)

Section Ending.

Variable E : Env.

Lemma main_eq (args : Args) :
  main E args
  = let rest :=
      acquired <- get_hosts E (job args) (cluster args) (walltime args) ;;
      hosts <- setup_hosts E acquired (forcedeploy args) (nodeploy args) ;;
      run_tests E hosts in
    ((startup E args ++ trace rest)%list, outcome rest).
Proof.
  unfold main, startup. cbv zeta.
  match goal with
  | |- context [bind (emit (CopyOutputs _ _)) (fun _ => ?r)] =>
      destruct r as [t o]
  end.
  destruct (verbose args), (quiet args), (negb (path_exists E (outdir args)));
    reflexivity.
Qed.

Lemma run_tests_returns (hosts : list string) (tc tm tf tl : list Event) :
  cpu E hosts 100000 = (tc, Returned true) ->
  memory E hosts = (tm, Returned true) ->
  fio E hosts = (tf, Returned true) ->
  latency E hosts 10 = (tl, Returned tt) ->
  outcome (run_tests E hosts) = Returned tt
  /\ In last_done (trace (run_tests E hosts)).
Proof.
  intros Hc Hm Hf Hl. unfold run_tests, tests. cbn [for_each].
  change (getattr_main E "cpu")
    with (@inr Py.Exn _ (fun hosts => cpu E hosts 100000 ;; ret tt)).
  change (getattr_main E "memory")
    with (@inr Py.Exn _ (fun hosts => memory E hosts ;; ret tt)).
  change (getattr_main E "fio")
    with (@inr Py.Exn _ (fun hosts => fio E hosts ;; ret tt)).
  change (getattr_main E "latency")
    with (@inr Py.Exn _ (fun hosts => latency E hosts 10)).
  change (getattr_main E "bandwidth") with (@inr Py.Exn _ (bandwidth E)).
  rewrite !bind_lift_ok, Hc, Hm, Hf, Hl.
  unfold trace, outcome, last_done. cbn.
  split; [reflexivity|].
  repeat match goal with
         | |- _ \/ False => left; reflexivity
         | |- _ \/ _ => right
         | |- In _ (_ ++ _) => apply in_or_app; right
         | |- In _ (_ :: _) => cbn [In]
         end.
Qed.

End Ending.

(** C4 (as amended).  Once the hosts are acquired and the deployed ones
    sorted: when the SSH configuration is not ok, [main] logs the error
    and ends there through [exit()], that is with [SystemExit] without a
    code and exit status 0; likewise when the installation of sysbench
    is not ok; and when both are ok, the host list is not empty, its
    first host has a network equipment and the prepare and cleanup
    phases of fio are ok, [main] reaches the end of the benchmark loop
    and returns, with exit status 0. *)
Theorem setup_failure_exits_with_status_zero
  (E : Env) (args : Args) (t : list Event)
  (acquired deployed undeployed hs : list string) :
  get_hosts E (job args) (cluster args) (walltime args)
  = (t, Returned acquired) ->
  deployment E acquired (forcedeploy args) (nodeploy args)
  = (deployed, undeployed) ->
  sort_hosts deployed = inr hs ->
  let before :=
    (startup E args ++ t
     ++ deploy_events acquired undeployed (forcedeploy args) (nodeploy args))%list
  in
  (all_ok E conf_ssh_cmd hs = false ->
   main E args
   = ((before ++ [run_on taktuk_conf conf_ssh_cmd hs;
                  Log ERROR "Unable to configure SSH" []])%list,
      SystemExit None)
   /\ exit_status (outcome (main E args)) = 0%Z)
  /\ (all_ok E conf_ssh_cmd hs = true ->
      all_ok E install_cmd hs = false ->
      main E args
      = ((before ++ [run_on taktuk_conf conf_ssh_cmd hs;
                     Log INFO "Installing sysbench" [];
                     run_on [] install_cmd hs;
                     Log ERROR "Unable to install sysbench" []])%list,
         SystemExit None)
      /\ exit_status (outcome (main E args)) = 0%Z)
  /\ (all_ok E conf_ssh_cmd hs = true ->
      all_ok E install_cmd hs = true ->
      forall h0 rest equipment more,
        hs = h0 :: rest ->
        get_host_network_equipments E h0 = equipment :: more ->
        all_ok E (fio_phase (smt_size (get_host_attributes E h0)) "prepare" "")
          hs = true ->
        all_ok E (fio_phase (smt_size (get_host_attributes E h0)) "cleanup" "")
          hs = true ->
        outcome (main E args) = Returned tt
        /\ exit_status (outcome (main E args)) = 0%Z
        /\ In last_done (trace (main E args))).
Proof.
  intros Hget Hdep Hsort before.
  pose proof (setup_hosts_eq E _ _ _ _ _ Hdep) as Hsetup.
  cbv zeta in Hsetup. rewrite Hsort in Hsetup.
  rewrite main_eq. cbv zeta. rewrite Hget, bind_returned.
  unfold trace, outcome. cbn [fst snd].
  split; [|split].
  - intros Hssh. rewrite Hssh in Hsetup. cbn [negb] in Hsetup.
    rewrite Hsetup. cbn [bind fst snd exit_status].
    split; [|reflexivity].
    unfold before. now rewrite <- !app_assoc.
  - intros Hssh Hinst. rewrite Hssh, Hinst in Hsetup. cbn [negb] in Hsetup.
    rewrite Hsetup. cbn [bind fst snd exit_status].
    split; [|reflexivity].
    unfold before. now rewrite <- !app_assoc.
  - intros Hssh Hinst h0 rest equipment more -> Hequip Hprep Hclean.
    rewrite Hssh, Hinst in Hsetup. cbn [negb] in Hsetup.
    rewrite Hsetup, bind_returned. cbn [fst snd].
    pose proof (fio_prepared E h0 rest Hprep) as Hfio.
    cbv zeta in Hfio. rewrite Hclean in Hfio.
    destruct (run_tests_returns E (h0 :: rest) _ _ _ _
                (cpu_eq E h0 rest 100000) (memory_eq E h0 rest) Hfio
                (latency_eq E 10 h0 equipment rest more Hequip))
      as [Hout Hin].
    unfold outcome in Hout. rewrite Hout.
    split; [reflexivity|]. split; [reflexivity|].
    do 3 (apply in_or_app; right). exact Hin.
Qed.

Lemma setup_failure_exits_with_status_zero_witness :
  let E := Example.env Example.install_fails (Some 7%Z, Some "reims") [] in
  let hs := ["stremi-2.reims.grid5000.fr"; "stremi-3.reims.grid5000.fr";
             "stremi-10.reims.grid5000.fr"] in
  get_hosts E "check_node_perf" "stremi" "3:00:00"
  = (trace (get_hosts E "check_node_perf" "stremi" "3:00:00"), Returned hs)
  /\ deployment E hs false false = (hs, [])
  /\ sort_hosts hs = inr hs
  /\ all_ok E conf_ssh_cmd hs = true
  /\ all_ok E install_cmd hs = false
  /\ outcome (main E Example.args) = SystemExit None
  /\ exit_status (outcome (main E Example.args)) = 0%Z.
Proof.
  intros E hs.
  assert (Hget : get_hosts E (job Example.args) (cluster Example.args)
                   (walltime Example.args)
                 = (trace (get_hosts E "check_node_perf" "stremi" "3:00:00"),
                    Returned hs)) by (vm_compute; reflexivity).
  assert (Hdep : deployment E hs (forcedeploy Example.args)
                   (nodeploy Example.args) = (hs, []))
    by (vm_compute; reflexivity).
  assert (Hsort : sort_hosts hs = inr hs) by (vm_compute; reflexivity).
  assert (Hssh : all_ok E conf_ssh_cmd hs = true) by (vm_compute; reflexivity).
  assert (Hinst : all_ok E install_cmd hs = false)
    by (vm_compute; reflexivity).
  destruct (proj1 (proj2 (setup_failure_exits_with_status_zero E Example.args
                            _ _ _ _ _ Hget Hdep Hsort)) Hssh Hinst)
    as [Hmain Hstatus].
  refine (conj Hget (conj Hdep (conj Hsort (conj Hssh (conj Hinst
            (conj _ Hstatus)))))).
  now rewrite Hmain.
Defined.

(** C4 (as stated) fails: with an SSH configuration that is not ok the
    program ends through [exit()] and its exit status is 0, not a
    non-zero one; and with no SSH, install or fio failure at all, a
    deployment that leaves no host ends the program with an uncaught
    [IndexError] instead of reaching the end of the loop. *)
Lemma ssh_failure_exit_status_is_zero :
  let E := Example.env Example.ssh_fails (Some 7%Z, Some "reims") [] in
  let E' := Example.env Example.never (Some 7%Z, Some "reims") Example.nodes in
  all_ok E conf_ssh_cmd
    ["stremi-2.reims.grid5000.fr"; "stremi-3.reims.grid5000.fr";
     "stremi-10.reims.grid5000.fr"] = false
  /\ outcome (main E Example.args) = SystemExit None
  /\ ~ exit_status (outcome (main E Example.args)) <> 0%Z
  /\ outcome (main E' Example.args) = Uncaught Py.IndexError
  /\ exit_status (outcome (main E' Example.args)) = 1%Z.
Proof.
  intros E E'.
  split; [vm_compute; reflexivity|].
  split; [vm_compute; reflexivity|].
  split; [intros H; apply H; vm_compute; reflexivity|].
  split; vm_compute; reflexivity.
Qed.

(** ** C9: the benchmarks need a host *)

(** C9.  [cpu], [memory], [fio] and [latency] start by reading
    [hosts[0]]: on an empty host list each of them raises [IndexError]
    before doing anything else, and so does the benchmark loop, which
    stops in its first benchmark; [bandwidth], which does no work,
    returns.  So when the deployment leaves no host, [main] ends with
    an uncaught [IndexError]. *)
Theorem benchmarks_need_a_host (E : Env) :
  (forall max_prime, cpu E [] max_prime = ([], Uncaught Py.IndexError))
  /\ memory E [] = ([], Uncaught Py.IndexError)
  /\ fio E [] = ([], Uncaught Py.IndexError)
  /\ (forall n_ping, latency E [] n_ping = ([], Uncaught Py.IndexError))
  /\ bandwidth E [] = ([], Returned tt)
  /\ run_tests E []
     = ([Log INFO "STARTING %s BENCHMARK" [AStyled "user3" "cpu"]],
        Uncaught Py.IndexError)
  /\ (forall args t acquired undeployed,
        get_hosts E (job args) (cluster args) (walltime args)
        = (t, Returned acquired) ->
        deployment E acquired (forcedeploy args) (nodeploy args)
        = ([], undeployed) ->
        outcome (main E args) = Uncaught Py.IndexError).
Proof.
  do 6 (split; [reflexivity|]).
  intros args t acquired undeployed Hget Hdep.
  rewrite main_eq. cbv zeta. unfold outcome at 1. cbn [snd].
  rewrite (outcome_bind _ _ _ _ Hget).
  pose proof (setup_hosts_eq E _ _ _ _ _ Hdep) as Hsetup.
  cbv zeta in Hsetup. cbn in Hsetup.
  now rewrite (outcome_bind _ _ _ _ Hsetup).
Qed.

Lemma benchmarks_need_a_host_witness :
  let E := Example.env Example.never (Some 7%Z, Some "reims") Example.nodes in
  let hs := ["stremi-2.reims.grid5000.fr"; "stremi-3.reims.grid5000.fr";
             "stremi-10.reims.grid5000.fr"] in
  get_hosts E "check_node_perf" "stremi" "3:00:00"
  = (trace (get_hosts E "check_node_perf" "stremi" "3:00:00"), Returned hs)
  /\ deployment E hs false false = ([], Example.nodes)
  /\ outcome (main E Example.args) = Uncaught Py.IndexError.
Proof.
  intros E hs.
  assert (Hget : get_hosts E (job Example.args) (cluster Example.args)
                   (walltime Example.args)
                 = (trace (get_hosts E "check_node_perf" "stremi" "3:00:00"),
                    Returned hs)) by (vm_compute; reflexivity).
  assert (Hdep : deployment E hs (forcedeploy Example.args)
                   (nodeploy Example.args) = ([], Example.nodes))
    by (vm_compute; reflexivity).
  exact (conj Hget (conj Hdep
           (proj2 (proj2 (proj2 (proj2 (proj2 (proj2
              (benchmarks_need_a_host E))))))
              Example.args _ _ _ Hget Hdep))).
Defined.



(** * Further properties of the script *)

(** ** The result reporter *)

Section Reporter.

Variable E : Env.

Lemma repeat_char_length (c : ascii) (n : nat) :
  String.length (Py.repeat_char c n) = n.
Proof. induction n; simpl; congruence. Qed.

Lemma append_length (a b : string) :
  String.length (a ++ b) = (String.length a + String.length b)%nat.
Proof. induction a; simpl; congruence. Qed.

Lemma ljust_length (s : string) (width : nat) :
  String.length (Py.ljust s width) = Nat.max width (String.length s).
Proof.
  unfold Py.ljust. rewrite append_length, repeat_char_length. lia.
Qed.

Lemma ljust_wide (s : string) (width : nat) :
  (width <= String.length s)%nat -> Py.ljust s width = s.
Proof.
  intros H. unfold Py.ljust.
  replace (width - String.length s)%nat with 0%nat by lia.
  apply append_empty_r.
Qed.

Lemma finished_lines (name cmd : string) (hosts : list string) :
  map (result_line E name)
    (processes (finished E (map (fun h => (h, cmd)) hosts)))
  = map (bench_line E name cmd) hosts.
Proof.
  unfold finished. cbn [processes]. rewrite !map_map. reflexivity.
Qed.

End Reporter.

(** X1.  [_print_bench_result] never fails and runs nothing: it logs
    exactly one INFO line per process, in the order of the processes,
    made of the label, the short name of the host and the output
    stripped of surrounding white space.  The name is padded with
    spaces to 15 characters and is never cut: the column is as wide as
    the longer of 15 and the name. *)
Theorem print_bench_result_one_line_per_process
  (E : Env) (act : Action) (name : string) :
  outcome (_print_bench_result E act name) = Returned tt
  /\ trace (_print_bench_result E act name)
     = map (result_line E name) (processes act)
  /\ List.length (trace (_print_bench_result E act name))
     = List.length (processes act)
  /\ commands_issued (trace (_print_bench_result E act name)) = []
  /\ (forall p,
        In p (processes act) ->
        let shown := Py.ljust (get_host_shortname E (address p)) 15 in
        starts_with (get_host_shortname E (address p)) shown
        /\ String.length shown
           = Nat.max 15 (String.length (get_host_shortname E (address p)))
        /\ In (Log INFO "%s %s %s"
                 [AStr name; AStyled "host" shown; AStr (Py.strip (stdout p))])
              (trace (_print_bench_result E act name))).
Proof.
  rewrite print_bench_result_eq. unfold trace, outcome. cbn [fst snd].
  split; [reflexivity|]. split; [reflexivity|].
  split; [apply length_map|].
  split; [apply commands_issued_results|].
  intros p Hp. cbv zeta. split; [|split].
  - now eexists.
  - apply ljust_length.
  - apply (in_map (result_line E name)) in Hp. exact Hp.
Qed.

Lemma print_bench_result_one_line_per_process_witness :
  let E := Example.env Example.never (Some 7%Z, Some "reims") [] in
  let p := {| address := "stremi-2.reims.grid5000.fr";
              stdout := " 1.234 ";
              ok := false |} in
  In p [p]
  /\ In (Log INFO "%s %s %s"
           [AStr "CPU"; AStyled "host" "stremi-2       "; AStr "1.234"])
        (trace (_print_bench_result E {| processes := [p] |} "CPU")).
Proof.
  intros E p.
  assert (Hp : In p (processes {| processes := [p] |})) by now left.
  split; [exact Hp|].
  exact (proj2 (proj2 (proj2 (proj2 (proj2 (proj2
           (print_bench_result_one_line_per_process E
              {| processes := [p] |} "CPU")))) p Hp))).
Defined.

(** ** The benchmarks without error handling *)

(** X2.  On a non-empty host list [cpu] returns [True] whatever the
    remote commands answer (their status is never read).  It sends one
    and the same command to every host, built with the core count of
    the first host only, and then logs one line per host in host
    order. *)
Theorem cpu_one_command_for_all_hosts
  (E : Env) (h0 : string) (rest : list string) (max_prime : Z) :
  let hosts := h0 :: rest in
  let cmd := cpu_cmd (smt_size (get_host_attributes E h0)) max_prime in
  outcome (cpu E hosts max_prime) = Returned true
  /\ commands_issued (trace (cpu E hosts max_prime))
     = map (fun _ => cmd) hosts
  /\ trace (cpu E hosts max_prime)
     = Log INFO ("Launching CPU benchmark with " ++ Sh.nl ++ "%s")
         [AStyled "command" cmd]
       :: run_on [] cmd hosts
       :: map (bench_line E "CPU" cmd) hosts.
Proof.
  intros hosts cmd.
  pose proof (cpu_eq E h0 rest max_prime) as Heq. cbv zeta in Heq.
  fold hosts cmd in Heq. rewrite Heq.
  unfold trace, outcome. cbn [fst snd]. rewrite finished_lines.
  split; [reflexivity|]. split; [|reflexivity].
  change (Log INFO ("Launching CPU benchmark with " ++ Sh.nl ++ "%s")
            [AStyled "command" cmd]
          :: run_on [] cmd hosts :: map (bench_line E "CPU" cmd) hosts)
    with ([Log INFO ("Launching CPU benchmark with " ++ Sh.nl ++ "%s")
             [AStyled "command" cmd]]
          ++ [run_on [] cmd hosts]
          ++ map (bench_line E "CPU" cmd) hosts)%list.
  rewrite !commands_issued_app, run_on_commands.
  rewrite <- finished_lines, commands_issued_results.
  cbn [commands_issued flat_map app]. now rewrite app_nil_r.
Qed.

(** X3.  On a non-empty host list [memory] returns [True] whatever the
    remote commands answer.  It sends one and the same command to every
    host, sized with the RAM of the first host only, and then logs one
    line per host in host order. *)
Theorem memory_one_command_for_all_hosts
  (E : Env) (h0 : string) (rest : list string) :
  let hosts := h0 :: rest in
  let cmd := memory_cmd (ram_size (get_host_attributes E h0)) in
  outcome (memory E hosts) = Returned true
  /\ commands_issued (trace (memory E hosts)) = map (fun _ => cmd) hosts
  /\ trace (memory E hosts)
     = Log INFO ("Launching MEM benchmark with " ++ Sh.nl ++ "%s")
         [AStyled "command" cmd]
       :: run_on [] cmd hosts
       :: map (bench_line E "MEM" cmd) hosts.
Proof.
  intros hosts cmd.
  pose proof (memory_eq E h0 rest) as Heq. cbv zeta in Heq.
  fold hosts cmd in Heq. rewrite Heq.
  unfold trace, outcome. cbn [fst snd]. rewrite finished_lines.
  split; [reflexivity|]. split; [|reflexivity].
  change (Log INFO ("Launching MEM benchmark with " ++ Sh.nl ++ "%s")
            [AStyled "command" cmd]
          :: run_on [] cmd hosts :: map (bench_line E "MEM" cmd) hosts)
    with ([Log INFO ("Launching MEM benchmark with " ++ Sh.nl ++ "%s")
             [AStyled "command" cmd]]
          ++ [run_on [] cmd hosts]
          ++ map (bench_line E "MEM" cmd) hosts)%list.
  rewrite !commands_issued_app, run_on_commands.
  rewrite <- finished_lines, commands_issued_results.
  cbn [commands_issued flat_map app]. now rewrite app_nil_r.
Qed.

(** ** The three phases of fio *)



(** ** The pings of the latency benchmark *)

Section Pings.

Lemma append_cancel_l (a x y : string) : a ++ x = a ++ y -> x = y.
Proof. induction a as [|c a IH]; simpl; [auto|]. intros H. injection H. auto. Qed.

Lemma append_cancel_r (t x y : string) : x ++ t = y ++ t -> x = y.
Proof.
  revert y. induction x as [|c x IH]; intros y H.
  - destruct y as [|d y]; [reflexivity|].
    apply (f_equal String.length) in H. simpl in H.
    rewrite append_length in H. lia.
  - destruct y as [|d y].
    + apply (f_equal String.length) in H. simpl in H.
      rewrite append_length in H. lia.
    + simpl in H. injection H as -> H. f_equal. now apply IH.
Qed.

Lemma ping_cmd_inj (n_ping : Z) (d1 d2 : string) :
  ping_cmd n_ping d1 = ping_cmd n_ping d2 -> d1 = d2.
Proof.
  unfold ping_cmd. intros H.
  apply append_cancel_l, append_cancel_l, append_cancel_l in H.
  now apply append_cancel_r in H.
Qed.

Lemma pinged_others (c : string) (l : list string) :
  NoDup l -> In c l ->
  S (List.length (latency_pinged c l)) = List.length l.
Proof.
  unfold latency_pinged.
  induction 1 as [|x l Hx Hl IH]; simpl; [contradiction|].
  intros [->|Hin].
  - rewrite String.eqb_refl. cbn [negb]. f_equal.
    clear IH Hl. induction l as [|y l IH]; [reflexivity|].
    simpl. destruct (String.eqb_spec y c) as [->|].
    + exfalso. apply Hx. now left.
    + simpl. f_equal. apply IH. intros H. apply Hx. now right.
  - destruct (String.eqb_spec x c) as [->|]; [contradiction|].
    simpl. f_equal. now apply IH.
Qed.

Lemma pinged_absent (c : string) (l : list string) :
  ~ In c l -> latency_pinged c l = l.
Proof.
  unfold latency_pinged. induction l as [|x l IH]; simpl; [reflexivity|].
  intros Hc. destruct (String.eqb_spec x c) as [->|].
  - exfalso. apply Hc. now left.
  - simpl. f_equal. apply IH. intros H. apply Hc. now right.
Qed.

Lemma latency_run_event (E : Env) (n_ping : Z) (dests : list string)
  (label c : string) (options : list string)
  (procs : list (string * string)) :
  In (Run options procs) (latency_events E n_ping dests label c) ->
  procs = map (fun cmd => (c, cmd))
            (map (ping_cmd n_ping) (latency_pinged c dests)).
Proof.
  unfold latency_events. cbv zeta. intros [H|H].
  - now injection H.
  - apply in_map_iff in H as [cmd [H _]]. discriminate.
Qed.

Lemma commands_on_flat_map {A} (c : string) (f : A -> list Event)
  (l : list A) :
  commands_on c (flat_map f l) = flat_map (fun x => commands_on c (f x)) l.
Proof.
  unfold commands_on. induction l as [|x l IH]; [reflexivity|].
  cbn [flat_map]. now rewrite flat_map_app, IH.
Qed.

Lemma commands_on_lines (E : Env) (c c0 label : string) (cmds : list string) :
  commands_on c (map (latency_line E c0 label) cmds) = [].
Proof. induction cmds as [|x l IH]; [reflexivity|exact IH]. Qed.

(** The commands one turn of the loop sends to [c]: its pings when the
    turn is the one of [c], nothing otherwise. *)
Lemma commands_on_turn (E : Env) (n_ping : Z) (dests : list string)
  (label c c0 : string) :
  commands_on c (latency_events E n_ping dests label c0)
  = if String.eqb c0 c
    then map (ping_cmd n_ping) (latency_pinged c0 dests)
    else [].
Proof.
  unfold latency_events. cbv zeta.
  unfold commands_on. cbn [flat_map].
  fold (commands_on c
          (map (latency_line E c0 label)
             (map (ping_cmd n_ping) (latency_pinged c0 dests)))).
  rewrite commands_on_lines, app_nil_r.
  induction (map (ping_cmd n_ping) (latency_pinged c0 dests)) as [|x l IH].
  - now destruct (String.eqb c0 c).
  - cbn [map filter fst]. destruct (String.eqb c0 c); [|exact IH].
    cbn [map snd]. now rewrite IH.
Qed.

Lemma flat_map_single {A} (c : string) (X : string -> list A)
  (l : list string) :
  NoDup l -> In c l ->
  flat_map (fun c0 => if String.eqb c0 c then X c0 else []) l = X c.
Proof.
  induction 1 as [|x l Hx Hl IH]; [contradiction|].
  cbn [flat_map]. intros [->|Hin].
  - rewrite String.eqb_refl.
    assert (Hnone : flat_map (fun c0 => if String.eqb c0 c then X c0 else []) l
                    = []).
    { clear IH Hl. induction l as [|y l IH]; [reflexivity|].
      cbn [flat_map]. destruct (String.eqb_spec y c) as [->|].
      - exfalso. apply Hx. now left.
      - apply IH. intros H. apply Hx. now right. }
    now rewrite Hnone, app_nil_r.
  - destruct (String.eqb_spec x c) as [->|]; [contradiction|].
    now apply IH.
Qed.

End Pings.

(** X5.  With a non-empty host list whose first host has a network
    equipment, every command [latency] sends runs on one of the hosts
    and pings a destination of the list (the hosts, the equipment, the
    site) other than the host it runs on: no host pings itself.  When
    the hosts are distinct and neither the equipment nor the site is one
    of them, the commands [latency] sends to a host are exactly one
    more than there are hosts, and among them is the ping of every
    destination but the host itself: the other hosts, the equipment and
    the site. *)
Theorem latency_never_pings_the_source
  (E : Env) (n_ping : Z) (h0 equipment : string) (rest more : list string) :
  let hosts := h0 :: rest in
  let site := get_host_site E h0 in
  let dests := (hosts ++ [equipment; site])%list in
  get_host_network_equipments E h0 = equipment :: more ->
  (forall options procs c cmd,
     In (Run options procs) (trace (latency E hosts n_ping)) ->
     In (c, cmd) procs ->
     In c hosts
     /\ cmd <> ping_cmd n_ping c
     /\ exists d, In d dests /\ d <> c /\ cmd = ping_cmd n_ping d)
  /\ (NoDup hosts -> ~ In equipment hosts -> ~ In site hosts ->
      forall c, In c hosts ->
        List.length (commands_on c (trace (latency E hosts n_ping)))
        = S (List.length hosts)
        /\ forall d, In d dests -> d <> c ->
             In (ping_cmd n_ping d)
                (commands_on c (trace (latency E hosts n_ping)))).
Proof.
  intros hosts site dests Heq.
  pose proof (latency_eq E n_ping h0 equipment rest more Heq) as Hlat.
  cbv zeta in Hlat. fold hosts site dests in Hlat.
  split.
  - intros options procs c cmd Hrun Hproc.
    rewrite Hlat in Hrun. unfold trace in Hrun. cbn [fst] in Hrun.
    apply in_flat_map in Hrun as [c0 [Hc0 Hrun]].
    apply latency_run_event in Hrun. subst procs.
    apply in_map_iff in Hproc as [cmd' [Hpair Hcmd]].
    injection Hpair as -> ->.
    apply in_map_iff in Hcmd as [d [<- Hd]].
    unfold latency_pinged in Hd. apply filter_In in Hd as [Hd Hne].
    apply negb_true_iff, String.eqb_neq in Hne.
    split; [exact Hc0|]. split.
    + intros H. apply ping_cmd_inj in H. contradiction.
    + exists d. auto.
  - intros Hnodup Hequip Hsite c Hc.
    rewrite Hlat. unfold trace. cbn [fst].
    rewrite commands_on_flat_map.
    rewrite (flat_map_ext _ _ (commands_on_turn E n_ping dests site c)).
    rewrite (flat_map_single c
               (fun c0 => map (ping_cmd n_ping) (latency_pinged c0 dests))
               hosts Hnodup Hc).
    split.
    + rewrite length_map.
      unfold dests, latency_pinged. rewrite filter_app.
      fold (latency_pinged c hosts). fold (latency_pinged c [equipment; site]).
      rewrite (pinged_absent c [equipment; site]).
      * rewrite length_app. cbn [List.length].
        pose proof (pinged_others c hosts Hnodup Hc) as Hlen.
        lia.
      * intros [->|[->|[]]]; contradiction.
    + intros d Hd Hne. apply in_map. unfold latency_pinged.
      apply filter_In. split; [exact Hd|].
      now apply negb_true_iff, String.eqb_neq.
Qed.

Lemma latency_never_pings_the_source_witness :
  let E := Example.env Example.never (Some 7%Z, Some "reims") [] in
  let hosts := ["stremi-2.reims.grid5000.fr"; "stremi-3.reims.grid5000.fr"] in
  get_host_network_equipments E "stremi-2.reims.grid5000.fr" = ["gw-reims"]
  /\ NoDup hosts
  /\ ~ In "gw-reims" hosts
  /\ ~ In "reims" hosts
  /\ List.length
       (commands_on "stremi-3.reims.grid5000.fr"
          (trace (latency E hosts 10))) = 3%nat.
Proof.
  intros E hosts.
  assert (Heq : get_host_network_equipments E "stremi-2.reims.grid5000.fr"
                = ["gw-reims"]) by reflexivity.
  assert (Hnodup : NoDup hosts).
  { repeat constructor; simpl; intuition discriminate. }
  assert (Hequip : ~ In "gw-reims" hosts)
    by (simpl; intuition discriminate).
  assert (Hsite : ~ In "reims" hosts) by (simpl; intuition discriminate).
  refine (conj Heq (conj Hnodup (conj Hequip (conj Hsite _)))).
  apply (proj2 (latency_never_pings_the_source E 10
                  "stremi-2.reims.grid5000.fr" "gw-reims"
                  ["stremi-3.reims.grid5000.fr"] [] Heq)
           Hnodup Hequip Hsite).
  right. now left.
Defined.

(** X6.  When the API lists no network equipment for the first host,
    [latency] raises [IndexError] while it builds the destination list:
    nothing is pinged and nothing is logged, however many hosts there
    are. *)
Theorem latency_needs_a_network_equipment
  (E : Env) (n_ping : Z) (h0 : string) (rest : list string) :
  get_host_network_equipments E h0 = [] ->
  latency E (h0 :: rest) n_ping = ([], Uncaught Py.IndexError).
Proof.
  intros Hnone. unfold latency.
  change (Py.index (h0 :: rest) 0) with (@inr Py.Exn _ h0).
  rewrite bind_lift_ok, Hnone. reflexivity.
Qed.

Lemma latency_needs_a_network_equipment_witness :
  get_host_network_equipments isolated_env "stremi-2.reims.grid5000.fr" = []
  /\ latency isolated_env
       ["stremi-2.reims.grid5000.fr"; "stremi-3.reims.grid5000.fr"] 10
     = ([], Uncaught Py.IndexError).
Proof.
  assert (Hnone : get_host_network_equipments isolated_env
                    "stremi-2.reims.grid5000.fr" = []) by reflexivity.
  exact (conj Hnone
           (latency_needs_a_network_equipment isolated_env 10 _ _ Hnone)).
Defined.

(** ** The commands of the host preparation *)

Section Preparation.

Lemma deploy_events_commands (hosts undeployed : list string)
  (force_deploy no_deploy : bool) :
  commands_issued (deploy_events hosts undeployed force_deploy no_deploy) = [].
Proof.
  unfold deploy_events.
  now destruct (0 <? List.length undeployed)%nat.
Qed.

Lemma in_constant_map {A} (c x : string) (l : list A) :
  In x (map (fun _ => c) l) -> x = c.
Proof. rewrite in_map_iff. now intros [_ [<- _]]. Qed.

End Preparation.

(** X7.  [setup_hosts] sends at most two commands, the SSH
    configuration and then the installation of sysbench, each to the
    sorted deployed hosts.  The installation is sent only when the
    deployed hosts could be sorted and the SSH configuration was ok on
    all of them.  When the function stops through [exit()] it is with
    no exit code, and with an empty set of deployed hosts it returns
    the empty list without any error. *)
Theorem setup_hosts_installs_only_after_ssh
  (E : Env) (hosts : list string) (force_deploy no_deploy : bool) :
  let run := setup_hosts E hosts force_deploy no_deploy in
  let deployed := fst (deployment E hosts force_deploy no_deploy) in
  (forall c, In c (commands_issued (trace run)) ->
             c = conf_ssh_cmd \/ c = install_cmd)
  /\ (In install_cmd (commands_issued (trace run)) ->
      exists hs, sort_hosts deployed = inr hs
                 /\ all_ok E conf_ssh_cmd hs = true)
  /\ (forall code, outcome run = SystemExit code -> code = None)
  /\ (deployed = [] -> outcome run = Returned []).
Proof.
  intros run deployed. subst run deployed.
  destruct (deployment E hosts force_deploy no_deploy)
    as [deployed undeployed] eqn:Hdep.
  rewrite (setup_hosts_eq E _ _ _ _ _ Hdep). cbv zeta. cbn [fst].
  assert (Hinst : install_cmd <> conf_ssh_cmd) by discriminate.
  destruct (sort_hosts deployed) as [e|hs] eqn:Hsort.
  - unfold trace, outcome. cbn [fst snd]. rewrite deploy_events_commands.
    repeat split; try contradiction; try discriminate.
    intros ->. discriminate.
  - destruct (all_ok E conf_ssh_cmd hs) eqn:Hssh; cbn [negb].
    + destruct (all_ok E install_cmd hs) eqn:Hinstall; cbn [negb];
        unfold trace, outcome; cbn [fst snd];
        rewrite commands_issued_app, deploy_events_commands;
        cbn [commands_issued flat_map run_on app];
        rewrite !map_map, app_nil_r; cbn [snd].
      * repeat split.
        -- intros c Hc. apply in_app_or in Hc as [Hc|Hc];
             apply in_constant_map in Hc; auto.
        -- intros _. eauto.
        -- discriminate.
        -- intros ->. now injection Hsort as <-.
      * repeat split.
        -- intros c Hc. apply in_app_or in Hc as [Hc|Hc];
             apply in_constant_map in Hc; auto.
        -- intros _. eauto.
        -- now intros code [= <-].
        -- intros ->. injection Hsort as <-. discriminate.
    + unfold trace, outcome; cbn [fst snd].
      rewrite commands_issued_app, deploy_events_commands.
      cbn [commands_issued flat_map run_on app].
      rewrite !map_map, app_nil_r. cbn [snd].
      repeat split.
      * intros c Hc. apply in_constant_map in Hc. auto.
      * intros Hc. apply in_constant_map in Hc. contradiction.
      * now intros code [= <-].
      * intros ->. injection Hsort as <-. discriminate.
Qed.

Lemma setup_hosts_installs_only_after_ssh_witness :
  let E := Example.env Example.never (Some 7%Z, Some "reims") Example.nodes in
  fst (deployment E Example.nodes false false) = []
  /\ outcome (setup_hosts E Example.nodes false false) = Returned [].
Proof.
  intros E.
  assert (Hnone : fst (deployment E Example.nodes false false) = [])
    by reflexivity.
  exact (conj Hnone
           (proj2 (proj2 (proj2
              (setup_hosts_installs_only_after_ssh E Example.nodes
                 false false))) Hnone)).
Defined.

(** ** Ties and input order in the host sort *)

Section SortOrder.

Lemma key_eqb_eq (a b : string * Z) : key_eqb a b = true <-> a = b.
Proof.
  unfold key_eqb. rewrite andb_true_iff, String.eqb_eq, Z.eqb_eq.
  destruct a, b; simpl. split; [intros [-> ->]; reflexivity|].
  intros H. injection H. auto.
Qed.

Lemma key_lt_irrefl (a : string * Z) : key_lt a a = false.
Proof.
  apply key_lt_false_iff. right. split; [reflexivity|lia].
Qed.

Lemma pair_le_antisym (a b : string * Z) :
  Spec.pair_le a b -> Spec.pair_le b a -> a = b.
Proof.
  unfold Spec.pair_le. destruct a as [s1 n1], b as [s2 n2]; simpl.
  intros [H1|[H1 H1']] [H2|[H2 H2']].
  - exfalso. apply (string_lt_irrefl s1). eapply string_lt_trans; eauto.
  - subst. now apply string_lt_irrefl in H1.
  - subst. now apply string_lt_irrefl in H2.
  - subst. f_equal. lia.
Qed.

(** Two sorted lists with the same elements are equal when the order
    is antisymmetric on them. *)
Lemma sorted_unique {A} (R : A -> A -> Prop) (l1 l2 : list A) :
  (forall x y, In x l1 -> In y l1 -> R x y -> R y x -> x = y) ->
  StronglySorted R l1 -> StronglySorted R l2 -> Permutation l1 l2 ->
  l1 = l2.
Proof.
  intros Hanti Hs1. revert l2 Hanti.
  induction Hs1 as [|x l1 Hl1 IH Hx]; intros l2 Hanti Hs2 Hperm.
  - apply Permutation_nil in Hperm. now subst.
  - destruct l2 as [|y l2].
    { apply Permutation_sym, Permutation_nil in Hperm. discriminate. }
    inversion Hs2 as [|? ? Hl2 Hy]; subst.
    assert (Hxy : x = y).
    { assert (Hxin : In x (y :: l2))
        by (apply (Permutation_in _ Hperm); now left).
      assert (Hyin : In y (x :: l1))
        by (apply (Permutation_in _ (Permutation_sym Hperm)); now left).
      destruct Hxin as [->|Hxin]; [reflexivity|].
      destruct Hyin as [->|Hyin]; [reflexivity|].
      rewrite Forall_forall in Hx, Hy.
      apply Hanti; [now left|now right|now apply Hx|now apply Hy]. }
    subst y. f_equal. apply IH.
    + intros a b Ha Hb. apply Hanti; now right.
    + exact Hl2.
    + now apply Permutation_cons_inv in Hperm.
Qed.

Lemma sort_hosts_keys (hosts sorted : list string) (h : string) :
  sort_hosts hosts = inr sorted -> In h hosts ->
  exists k, host_key h = inr k.
Proof.
  unfold sort_hosts. intros H Hin.
  destruct (Py.rmap host_key hosts) as [e|keys] eqn:Hkeys; [discriminate|].
  apply rmap_ok in Hkeys. clear H.
  induction Hkeys as [|x k l ks Hk _ IH]; [contradiction|].
  destruct Hin as [<-|Hin]; eauto.
Qed.

Lemma host_le_antisym (h1 h2 : string) :
  (host_key h1 = host_key h2 -> h1 = h2) ->
  Spec.host_le h1 h2 -> Spec.host_le h2 h1 -> h1 = h2.
Proof.
  intros Hinj [k1 [k2 [Hk1 [Hk2 Hle]]]] [k2' [k1' [Hk2' [Hk1' Hge]]]].
  rewrite Hk1 in Hk1'. rewrite Hk2 in Hk2'.
  injection Hk1' as <-. injection Hk2' as <-.
  apply Hinj. rewrite Hk1, Hk2. f_equal. now apply pair_le_antisym.
Qed.

Lemma insert_keyed_first {A} (x : (string * Z) * A)
  (l : list ((string * Z) * A)) :
  Forall (keyed_le x) l -> insert_keyed x l = x :: l.
Proof.
  destruct l as [|y l]; [reflexivity|].
  intros H. inversion H as [|? ? Hxy _]; subst. simpl.
  apply key_lt_false_iff in Hxy. now rewrite Hxy.
Qed.

Lemma sort_keyed_sorted_id {A} (l : list ((string * Z) * A)) :
  StronglySorted keyed_le l -> sort_keyed l = l.
Proof.
  induction 1 as [|x l Hl IH Hx]; [reflexivity|].
  simpl. rewrite IH. now apply insert_keyed_first.
Qed.

Lemma keyed_of_hosts (hosts : list string) (keys : list (string * Z)) :
  Forall2 (fun h k => host_key h = inr k) hosts keys ->
  StronglySorted Spec.host_le hosts ->
  StronglySorted keyed_le (combine keys hosts).
Proof.
  induction 1 as [|h k hosts keys Hk Hrest IH]; simpl; intros Hs;
    [constructor|].
  inversion Hs as [|? ? Hs' Hh]; subst.
  constructor; [auto|].
  rewrite Forall_forall in *. intros [k' h'] Hin.
  pose proof (in_combine_r _ _ _ _ Hin) as Hh'.
  destruct (Hh h' Hh') as [k1 [k2 [Hk1 [Hk2 Hle]]]].
  rewrite Hk in Hk1. injection Hk1 as <-.
  unfold keyed_le. cbn [fst].
  assert (Hk'' : host_key h' = inr k').
  { clear -Hrest Hin. induction Hrest as [|a b l l' Hab _ IH'];
      [contradiction|].
    destruct Hin as [Heq|Hin']; [injection Heq as <- <-; exact Hab|auto]. }
  rewrite Hk2 in Hk''. now injection Hk'' as <-.
Qed.

Lemma sort_hosts_sorted_id (hosts : list string) :
  (forall h, In h hosts -> exists k, host_key h = inr k) ->
  StronglySorted Spec.host_le hosts -> sort_hosts hosts = inr hosts.
Proof.
  intros Hkeys Hs. unfold sort_hosts.
  destruct (rmap_total host_key hosts Hkeys) as [keys Hr]. rewrite Hr.
  cbn [Py.rbind Py.ok]. pose proof (rmap_ok _ _ _ Hr) as Hf.
  rewrite sort_keyed_sorted_id by now apply keyed_of_hosts.
  now rewrite (proj1 (combine_keys hosts keys Hf)).
Qed.

End SortOrder.

(** X8.  Sorting is idempotent: a list the sort returned is returned
    unchanged by the sort.  And when distinct hosts of a list have
    distinct keys, the result of the sort does not depend on the order
    of the input: every permutation of the list sorts to the same
    list.  Hence, when every acquired host is deployed, keys are
    distinct and the two setup commands are ok, [setup_hosts] returns
    exactly the list [get_hosts] acquired, in whatever order [deploy]
    enumerates its set. *)
Theorem sort_hosts_ignores_input_order :
  (forall hosts sorted,
     sort_hosts hosts = inr sorted -> sort_hosts sorted = inr sorted)
  /\ (forall hosts shuffled sorted,
        Permutation hosts shuffled ->
        (forall h1 h2, In h1 hosts -> In h2 hosts ->
                       host_key h1 = host_key h2 -> h1 = h2) ->
        sort_hosts hosts = inr sorted ->
        sort_hosts shuffled = inr sorted)
  /\ (forall E nodes acquired force_deploy no_deploy deployed undeployed,
        sort_hosts nodes = inr acquired ->
        deployment E acquired force_deploy no_deploy
        = (deployed, undeployed) ->
        Permutation acquired deployed ->
        (forall h1 h2, In h1 acquired -> In h2 acquired ->
                       host_key h1 = host_key h2 -> h1 = h2) ->
        all_ok E conf_ssh_cmd acquired = true ->
        all_ok E install_cmd acquired = true ->
        outcome (setup_hosts E acquired force_deploy no_deploy)
        = Returned acquired).
Proof.
  assert (Hidem : forall hosts sorted,
             sort_hosts hosts = inr sorted -> sort_hosts sorted = inr sorted).
  { intros hosts sorted Hs.
    destruct (sort_hosts_ok hosts sorted Hs) as [Hperm Hsorted].
    apply sort_hosts_sorted_id; [|exact Hsorted].
    intros h Hh. apply (sort_hosts_keys hosts sorted h Hs).
    now apply (Permutation_in _ (Permutation_sym Hperm)). }
  assert (Hshuffle : forall hosts shuffled sorted,
             Permutation hosts shuffled ->
             (forall h1 h2, In h1 hosts -> In h2 hosts ->
                            host_key h1 = host_key h2 -> h1 = h2) ->
             sort_hosts hosts = inr sorted ->
             sort_hosts shuffled = inr sorted).
  { intros hosts shuffled sorted Hperm Hinj Hs.
    destruct (sort_hosts_ok hosts sorted Hs) as [Hp1 Hs1].
    destruct (sort_hosts_total shuffled) as [sorted' Hs'].
    { intros h Hh. apply (sort_hosts_keys hosts sorted h Hs).
      now apply (Permutation_in _ (Permutation_sym Hperm)). }
    destruct (sort_hosts_ok shuffled sorted' Hs') as [Hp2 Hs2].
    rewrite Hs'. f_equal. symmetry.
    apply (sorted_unique Spec.host_le); auto.
    - intros x y Hx Hy. apply host_le_antisym.
      apply Hinj; now apply (Permutation_in _ (Permutation_sym Hp1)).
    - now rewrite <- Hp1, Hperm. }
  split; [exact Hidem|]. split; [exact Hshuffle|].
  intros E nodes acquired fd nd deployed undeployed Hs Hdep Hperm Hinj
    Hssh Hinst.
  rewrite (setup_hosts_eq E _ _ _ _ _ Hdep). cbv zeta.
  rewrite (Hshuffle acquired deployed acquired Hperm Hinj (Hidem _ _ Hs)).
  now rewrite Hssh, Hinst.
Qed.

Lemma sort_hosts_ignores_input_order_witness :
  let hosts := ["stremi-10.reims.grid5000.fr"; "stremi-2.reims.grid5000.fr"] in
  let shuffled := ["stremi-2.reims.grid5000.fr"; "stremi-10.reims.grid5000.fr"] in
  Permutation hosts shuffled
  /\ (forall h1 h2, In h1 hosts -> In h2 hosts ->
                    host_key h1 = host_key h2 -> h1 = h2)
  /\ sort_hosts hosts = inr shuffled
  /\ sort_hosts shuffled = inr shuffled.
Proof.
  intros hosts shuffled.
  assert (Hperm : Permutation hosts shuffled) by apply perm_swap.
  assert (Hinj : forall h1 h2, In h1 hosts -> In h2 hosts ->
                               host_key h1 = host_key h2 -> h1 = h2).
  { intros h1 h2 [<-|[<-|[]]] [<-|[<-|[]]] H;
      try reflexivity; vm_compute in H; discriminate. }
  assert (Hs : sort_hosts hosts = inr shuffled) by reflexivity.
  exact (conj Hperm (conj Hinj (conj Hs
           (proj1 (proj2 sort_hosts_ignores_input_order)
              hosts shuffled shuffled Hperm Hinj Hs)))).
Defined.

Section Stability.

Lemma key_lt_differ (a b : string * Z) : key_lt a b = true -> a <> b.
Proof. intros H ->. now rewrite key_lt_irrefl in H. Qed.

Lemma insert_keyed_filter {A} (k : string * Z) (x : (string * Z) * A)
  (l : list ((string * Z) * A)) :
  filter (fun p => key_eqb (fst p) k) (insert_keyed x l)
  = filter (fun p => key_eqb (fst p) k) (x :: l).
Proof.
  induction l as [|y l IH]; [reflexivity|].
  cbn [insert_keyed].
  destruct (key_lt (fst y) (fst x)) eqn:Hlt; [|reflexivity].
  cbn [filter] in *. rewrite IH.
  destruct (key_eqb (fst x) k) eqn:Hx; [|reflexivity].
  destruct (key_eqb (fst y) k) eqn:Hy; [|reflexivity].
  apply key_eqb_eq in Hx, Hy. apply key_lt_differ in Hlt. congruence.
Qed.

Lemma sort_keyed_filter {A} (k : string * Z) (l : list ((string * Z) * A)) :
  filter (fun p => key_eqb (fst p) k) (sort_keyed l)
  = filter (fun p => key_eqb (fst p) k) l.
Proof.
  induction l as [|x l IH]; [reflexivity|].
  cbn [sort_keyed]. rewrite insert_keyed_filter. cbn [filter].
  now rewrite IH.
Qed.

Lemma filter_has_key (k : string * Z) (l : list ((string * Z) * string)) :
  Forall (fun p => host_key (snd p) = inr (fst p)) l ->
  filter (has_key k) (map snd l)
  = map snd (filter (fun p => key_eqb (fst p) k) l).
Proof.
  induction 1 as [|p l Hp _ IH]; [reflexivity|].
  cbn [map filter]. unfold has_key at 1. rewrite Hp, IH.
  now destruct (key_eqb (fst p) k).
Qed.

End Stability.

(** X9.  The sort is stable and looks at nothing but the key: the hosts
    that share a key, for instance hosts that differ only after the
    first dot, come out in the order they had in the input, whatever
    the key. *)
Theorem sort_hosts_keeps_ties_in_input_order
  (hosts sorted : list string) (k : string * Z) :
  sort_hosts hosts = inr sorted ->
  filter (has_key k) sorted = filter (has_key k) hosts.
Proof.
  unfold sort_hosts. intros H.
  destruct (Py.rmap host_key hosts) as [e|keys] eqn:Hkeys; [discriminate|].
  simpl in H. injection H as <-.
  destruct (combine_keys hosts keys (rmap_ok _ _ _ Hkeys)) as [Hmap Hinv].
  rewrite filter_has_key
    by (apply (Permutation_Forall (sort_keyed_perm _)), Hinv).
  rewrite sort_keyed_filter, <- filter_has_key by exact Hinv.
  now rewrite Hmap.
Qed.

Lemma sort_hosts_keeps_ties_in_input_order_witness :
  let hosts := ["node-2.b"; "node-1.z"; "node-2.a"; "node-1.y"] in
  sort_hosts hosts = inr ["node-1.z"; "node-1.y"; "node-2.b"; "node-2.a"]
  /\ filter (has_key ("node", 2%Z))
       ["node-1.z"; "node-1.y"; "node-2.b"; "node-2.a"]
     = filter (has_key ("node", 2%Z)) hosts.
Proof.
  intros hosts.
  assert (Hs : sort_hosts hosts
               = inr ["node-1.z"; "node-1.y"; "node-2.b"; "node-2.a"])
    by reflexivity.
  exact (conj Hs
           (sort_hosts_keeps_ties_in_input_order hosts _ ("node", 2%Z) Hs)).
Defined.

(** ** The reservation *)

Section Submission.

Lemma getitem_missing {A} (d : list (string * A)) (k : string) (e : Py.Exn) :
  Py.getitem d k = inl e -> e = Py.KeyError k.
Proof.
  induction d as [|[k' v] d IH]; simpl.
  - now intros [= <-].
  - destruct (String.eqb k' k); [discriminate|exact IH].
Qed.

End Submission.

(** X10.  [_default_job] asks the first slot for the cluster.  When the
    resources of that slot do not list the cluster, it raises
    [KeyError] before anything is submitted.  Otherwise it submits one
    deploy-type reservation, for the number of nodes the slot lists,
    and uses the first answer of [oarsub] only: it returns that answer,
    and raises [IndexError], after the submission, when there is
    none. *)
Theorem default_job_submits_the_first_slot
  (E : Env) (job_name cluster walltime : string)
  (start_date end_date : Z) (res : list (string * Z)) :
  first_slot E cluster walltime = (start_date, end_date, res) ->
  (forall e,
     Py.getitem res cluster = inl e ->
     _default_job E job_name cluster walltime
     = ([Log INFO "No job running, making a reservation" []],
        Uncaught (Py.KeyError cluster)))
  /\ (forall nodes,
        Py.getitem res cluster = inr nodes ->
        let specs :=
          reservation E job_name cluster walltime start_date nodes in
        trace (_default_job E job_name cluster walltime)
        = [Log INFO "No job running, making a reservation" []; OarSub specs]
        /\ (oarsub E specs = [] ->
            outcome (_default_job E job_name cluster walltime)
            = Uncaught Py.IndexError)
        /\ (forall made others,
              oarsub E specs = made :: others ->
              outcome (_default_job E job_name cluster walltime)
              = Returned made)).
Proof.
  intros Hslot. split.
  - intros e He.
    rewrite (default_job_no_nodes E _ _ _ _ _ _ _ Hslot He).
    now rewrite (getitem_missing _ _ _ He).
  - intros nodes Hnodes specs.
    pose proof (default_job_eq E job_name _ _ _ _ _ _ Hslot Hnodes) as Heq.
    cbv zeta in Heq. fold specs in Heq. rewrite Heq.
    unfold trace, outcome. cbn [fst snd].
    split; [reflexivity|]. split.
    + now intros ->.
    + now intros made others ->.
Qed.

Lemma default_job_submits_the_first_slot_witness :
  let E := Example.env Example.never (None, None) [] in
  first_slot E "stremi" "3:00:00" = (1000%Z, 11800%Z, [("stremi", 3%Z)])
  /\ Py.getitem [("stremi", 3%Z)] "stremi" = inr 3%Z
  /\ Py.getitem [("stremi", 3%Z)] "parapide" = inl (Py.KeyError "parapide")
  /\ outcome (_default_job E "check_node_perf" "stremi" "3:00:00")
     = Returned (Some 42%Z, Some "reims").
Proof.
  intros E.
  assert (Hslot : first_slot E "stremi" "3:00:00"
                  = (1000%Z, 11800%Z, [("stremi", 3%Z)])) by reflexivity.
  assert (Hnodes : Py.getitem [("stremi", 3%Z)] "stremi" = inr 3%Z)
    by reflexivity.
  refine (conj Hslot (conj Hnodes (conj eq_refl _))).
  exact (proj2 (proj2 (proj2 (default_job_submits_the_first_slot E
                                "check_node_perf" "stremi" "3:00:00"
                                _ _ _ Hslot) 3%Z Hnodes))
           (Some 42%Z, Some "reims") [] eq_refl).
Defined.

(** X11.  [get_hosts] does not check what the submission answered.
    When no job is found and [oarsub] answers with no job id for a
    site, it still logs "Reservation done" with the id [None], waits
    for the job [None] on that site and reads the nodes of the path
    "/sites/<site>/jobs/None".  And a job id 0 returned by the query
    counts as no job: a reservation is submitted. *)
Theorem get_hosts_does_not_check_the_submission
  (E : Env) (job_name cluster walltime : string)
  (start_date end_date nodes : Z) (res : list (string * Z)) :
  first_slot E cluster walltime = (start_date, end_date, res) ->
  Py.getitem res cluster = inr nodes ->
  let specs := reservation E job_name cluster walltime start_date nodes in
  (forall site others,
     Py.falsy (fst (get_job_by_name E job_name)) = true ->
     oarsub E specs = (None, Some site) :: others ->
     get_hosts E job_name cluster walltime
     = (([Log INFO "No job running, making a reservation" [];
          OarSub specs;
          Log INFO "Reservation done %s:%s" [AStr site; AStr "None"];
          Log INFO "Waiting for job start" [];
          WaitOarJobStart None (Some site)]
         ++ match sort_hosts
                    (assigned_nodes E ("/sites/" ++ site ++ "/jobs/None")) with
            | inl _ => []
            | inr hs => [Log INFO "Hosts: %s" [AHostsList hs]]
            end)%list,
        match sort_hosts
                (assigned_nodes E ("/sites/" ++ site ++ "/jobs/None")) with
        | inl e => Uncaught e
        | inr hs => Returned hs
        end))
  /\ (forall site,
        get_job_by_name E job_name = (Some 0%Z, site) ->
        In (OarSub specs) (trace (get_hosts E job_name cluster walltime))).
Proof.
  intros Hslot Hnodes specs.
  pose proof (default_job_eq E job_name _ _ _ _ _ _ Hslot Hnodes) as Heq.
  cbv zeta in Heq. fold specs in Heq.
  split.
  - intros site others Hmiss Hsub.
    rewrite (get_hosts_missing E _ _ _ Hmiss), Heq, Hsub.
    change (snd (lift (Py.index ((None, Some site) :: others) 0)))
      with (@Returned (option Z * option string) (None, Some site)).
    rewrite bind_returned. unfold logger. rewrite bind_emit.
    unfold job_hosts. cbn [fst snd Py.str_opt id].
    now destruct (sort_hosts _).
  - intros site Hzero.
    assert (Hmiss : Py.falsy (fst (get_job_by_name E job_name)) = true)
      by now rewrite Hzero.
    rewrite (get_hosts_missing E _ _ _ Hmiss).
    apply trace_bind_prefix. rewrite Heq. right. now left.
Qed.

Lemma get_hosts_does_not_check_the_submission_witness :
  let E := Example.env Example.never (Some 0%Z, Some "reims") [] in
  first_slot E "stremi" "3:00:00" = (1000%Z, 11800%Z, [("stremi", 3%Z)])
  /\ Py.getitem [("stremi", 3%Z)] "stremi" = inr 3%Z
  /\ get_job_by_name E "check_node_perf" = (Some 0%Z, Some "reims")
  /\ In (OarSub (reservation E "check_node_perf" "stremi" "3:00:00" 1000 3))
        (trace (get_hosts E "check_node_perf" "stremi" "3:00:00")).
Proof.
  intros E.
  assert (Hslot : first_slot E "stremi" "3:00:00"
                  = (1000%Z, 11800%Z, [("stremi", 3%Z)])) by reflexivity.
  assert (Hnodes : Py.getitem [("stremi", 3%Z)] "stremi" = inr 3%Z)
    by reflexivity.
  assert (Hzero : get_job_by_name E "check_node_perf"
                  = (Some 0%Z, Some "reims")) by reflexivity.
  refine (conj Hslot (conj Hnodes (conj Hzero _))).
  exact (proj2 (get_hosts_does_not_check_the_submission E
                  "check_node_perf" "stremi" "3:00:00" _ _ _ _ Hslot Hnodes)
           (Some "reims") Hzero).
Defined.

(** ** The benchmark loop after a failure *)

(** X12.  The benchmarks run in the order cpu, memory, fio and the loop
    stops at the first one that does not return: when the prepare
    phase of fio is not ok, the trace of the loop is that of cpu and of
    memory, each between its STARTING and DONE lines, followed by the
    start of fio and its prepare command, and nothing else: latency
    and bandwidth are never started, and the exit status is 1. *)
Theorem run_tests_stops_at_a_failed_fio
  (E : Env) (h0 : string) (rest : list string) :
  let hosts := h0 :: rest in
  let n_core := smt_size (get_host_attributes E h0) in
  all_ok E (fio_phase n_core "prepare" "") hosts = false ->
  run_tests E hosts
  = ((Log INFO "STARTING %s BENCHMARK" [AStyled "user3" "cpu"]
      :: trace (cpu E hosts 100000))
     ++ (Log INFO "%s BENCHMARK DONE" [AStyled "user3" "cpu"]
         :: Log INFO "STARTING %s BENCHMARK" [AStyled "user3" "memory"]
         :: trace (memory E hosts))
     ++ [Log INFO "%s BENCHMARK DONE" [AStyled "user3" "memory"];
         Log INFO "STARTING %s BENCHMARK" [AStyled "user3" "fio"];
         Log INFO "Preparing FIO benchmark" [];
         run_on [] (fio_phase n_core "prepare" "") hosts],
     Uncaught (Py.AttributeError "stout"))%list
  /\ exit_status (outcome (run_tests E hosts)) = 1%Z.
Proof.
  intros hosts n_core Hbad.
  pose proof (cpu_eq E h0 rest 100000) as Hc. cbv zeta in Hc.
  pose proof (memory_eq E h0 rest) as Hm. cbv zeta in Hm.
  pose proof (fio_prepare_failure E h0 rest Hbad) as Hf. cbv zeta in Hf.
  fold hosts in Hc, Hm, Hf. fold n_core in Hf.
  assert (Heq : run_tests E hosts
                = ((Log INFO "STARTING %s BENCHMARK" [AStyled "user3" "cpu"]
                    :: trace (cpu E hosts 100000))
                   ++ (Log INFO "%s BENCHMARK DONE" [AStyled "user3" "cpu"]
                       :: Log INFO "STARTING %s BENCHMARK"
                            [AStyled "user3" "memory"]
                       :: trace (memory E hosts))
                   ++ [Log INFO "%s BENCHMARK DONE" [AStyled "user3" "memory"];
                       Log INFO "STARTING %s BENCHMARK" [AStyled "user3" "fio"];
                       Log INFO "Preparing FIO benchmark" [];
                       run_on [] (fio_phase n_core "prepare" "") hosts],
                   Uncaught (Py.AttributeError "stout"))%list).
  { unfold run_tests, tests. cbn [for_each].
    change (getattr_main E "cpu")
      with (@inr Py.Exn _ (fun hosts => cpu E hosts 100000 ;; ret tt)).
    change (getattr_main E "memory")
      with (@inr Py.Exn _ (fun hosts => memory E hosts ;; ret tt)).
    change (getattr_main E "fio")
      with (@inr Py.Exn _ (fun hosts => fio E hosts ;; ret tt)).
    rewrite !bind_lift_ok, Hc, Hm, Hf.
    unfold trace, logger. cbn [fst].
    rewrite !bind_emit. cbn [bind ret emit fst snd app].
    rewrite !app_nil_r. f_equal.
    rewrite <- !app_assoc. reflexivity. }
  split; [exact Heq|]. now rewrite Heq.
Qed.

Lemma run_tests_stops_at_a_failed_fio_witness :
  let E := Example.env Example.prepare_fails (Some 7%Z, Some "reims") [] in
  let hosts := ["stremi-2.reims.grid5000.fr"; "stremi-3.reims.grid5000.fr"] in
  all_ok E (fio_phase 8 "prepare" "") hosts = false
  /\ exit_status (outcome (run_tests E hosts)) = 1%Z.
Proof.
  intros E hosts.
  assert (Hbad : all_ok E (fio_phase 8 "prepare" "") hosts = false)
    by (vm_compute; reflexivity).
  exact (conj Hbad
           (proj2 (run_tests_stops_at_a_failed_fio E
                     "stremi-2.reims.grid5000.fr"
                     ["stremi-3.reims.grid5000.fr"] Hbad))).
Defined.

(** ** Exit statuses *)

Section ExitStatus.

Lemma never_exits_bind {A B} (m : M A) (k : A -> M B) :
  never_exits m -> (forall a, never_exits (k a)) -> never_exits (bind m k).
Proof.
  intros Hm Hk code. destruct m as [t [a|c|e]]; simpl.
  - specialize (Hk a code). destruct (k a). exact Hk.
  - exfalso. now apply (Hm c).
  - discriminate.
Qed.

Lemma exits_without_code_bind {A B} (m : M A) (k : A -> M B) :
  exits_without_code m -> (forall a, exits_without_code (k a)) ->
  exits_without_code (bind m k).
Proof.
  intros Hm Hk code. destruct m as [t [a|c|e]]; simpl.
  - specialize (Hk a code). destruct (k a). exact Hk.
  - intros [= <-]. now apply Hm.
  - discriminate.
Qed.

Lemma never_exits_without_code {A} (m : M A) :
  never_exits m -> exits_without_code m.
Proof. intros H code Hc. now apply H in Hc. Qed.

Lemma never_exits_ret {A} (a : A) : never_exits (ret a).
Proof. intros code. discriminate. Qed.

Lemma never_exits_emit (e : Event) : never_exits (emit e).
Proof. intros code. discriminate. Qed.

Lemma never_exits_lift {A} (r : Py.Result A) : never_exits (lift r).
Proof. intros code. destruct r; discriminate. Qed.

Lemma never_exits_for_each {A} (l : list A) (body : A -> M unit) :
  (forall x, never_exits (body x)) -> never_exits (for_each l body).
Proof.
  intros H. induction l as [|x l IH]; simpl.
  - apply never_exits_ret.
  - apply never_exits_bind; auto.
Qed.

Lemma never_exits_for_fold {A S} (l : list A) (body : S -> A -> M S) (s : S) :
  (forall s x, never_exits (body s x)) -> never_exits (for_fold l body s).
Proof.
  intros H. revert s. induction l as [|x l IH]; intros s; simpl.
  - apply never_exits_ret.
  - apply never_exits_bind; auto.
Qed.

Lemma never_exits_taktuk (E : Env) (options : list string)
  (procs : list (string * string)) :
  never_exits (taktuk E options procs).
Proof. intros code. discriminate. Qed.

End ExitStatus.

Ltac never_exits_step :=
  first
    [ apply never_exits_ret
    | apply never_exits_emit
    | apply never_exits_lift
    | apply never_exits_taktuk
    | apply never_exits_for_each; intro
    | apply never_exits_for_fold; intros
    | apply never_exits_bind; [|intro]
    | match goal with
      | |- never_exits (if ?b then _ else _) => destruct b
      | |- never_exits (let (_, _) := ?p in _) => destruct p
      | |- never_exits (match ?p with (_, _) => _ end) => destruct p
      end ].

Section ExitStatusOfTheScript.

Variable E : Env.

Lemma never_exits_print (act : Action) (name : string) :
  never_exits (_print_bench_result E act name).
Proof. unfold _print_bench_result, logger. repeat never_exits_step. Qed.

Lemma never_exits_cpu (hosts : list string) (max_prime : Z) :
  never_exits (cpu E hosts max_prime).
Proof.
  unfold cpu, logger, TaktukRemote.
  repeat (never_exits_step || apply never_exits_print).
Qed.

Lemma never_exits_memory (hosts : list string) :
  never_exits (memory E hosts).
Proof.
  unfold memory, logger, TaktukRemote.
  repeat (never_exits_step || apply never_exits_print).
Qed.

Lemma never_exits_latency (hosts : list string) (n_ping : Z) :
  never_exits (latency E hosts n_ping).
Proof.
  unfold latency, latency_commands, logger, TaktukRemote_indexed.
  repeat never_exits_step.
Qed.

(** The two guarded [exit()] calls of [fio] are never reached. *)
Lemma never_exits_fio_guard (act : Action) (fmt : string) :
  never_exits
    (if negb (action_ok act) then
       report <- lift (fio_failure_report (processes act)) ;;
       logger ERROR fmt [AStr report] ;;
       exit
     else ret tt).
Proof.
  destruct (action_ok act) eqn:Hok; cbn [negb]; [apply never_exits_ret|].
  destruct act as [[|p ps]]; [discriminate|].
  cbn [processes]. rewrite fio_failure_report_raises.
  intros code. discriminate.
Qed.

Lemma never_exits_fio (hosts : list string) : never_exits (fio E hosts).
Proof.
  unfold fio, TaktukRemote.
  repeat first
    [ apply never_exits_fio_guard
    | apply never_exits_print
    | unfold logger at 1; apply never_exits_emit
    | never_exits_step ].
Qed.

Lemma never_exits_run_tests (hosts : list string) :
  never_exits (run_tests E hosts).
Proof.
  unfold run_tests. apply never_exits_for_each. intros test.
  unfold logger. apply never_exits_bind; [apply never_exits_emit|intros _].
  assert (Hdone : forall (m : M unit),
             never_exits m ->
             never_exits
               (m ;; emit (Log INFO "%s BENCHMARK DONE" [AStyled "user3" test]))).
  { intros m Hm. apply never_exits_bind; [exact Hm|intros _].
    apply never_exits_emit. }
  assert (Hret : forall (m : M bool), never_exits m ->
                                      never_exits (m ;; ret tt)).
  { intros m Hm. apply never_exits_bind; [exact Hm|intros _].
    apply never_exits_ret. }
  unfold getattr_main.
  destruct (String.eqb test "cpu").
  { unfold Py.ok. rewrite bind_lift_ok.
    apply Hdone, Hret, never_exits_cpu. }
  destruct (String.eqb test "memory").
  { unfold Py.ok. rewrite bind_lift_ok.
    apply Hdone, Hret, never_exits_memory. }
  destruct (String.eqb test "fio").
  { unfold Py.ok. rewrite bind_lift_ok.
    apply Hdone, Hret, never_exits_fio. }
  destruct (String.eqb test "latency").
  { unfold Py.ok. rewrite bind_lift_ok.
    apply Hdone, never_exits_latency. }
  destruct (String.eqb test "bandwidth").
  { unfold Py.ok. rewrite bind_lift_ok.
    apply Hdone. unfold bandwidth. apply never_exits_ret. }
  intros code. discriminate.
Qed.

Lemma never_exits_default_job (job_name cluster walltime : string) :
  never_exits (_default_job E job_name cluster walltime).
Proof.
  unfold _default_job, logger.
  apply never_exits_bind; [apply never_exits_emit|intros _].
  cbv zeta.
  destruct (find_first_slot E _ _) as [[start stop] res].
  repeat never_exits_step.
Qed.

Lemma never_exits_get_hosts (job_name cluster walltime : string) :
  never_exits (get_hosts E job_name cluster walltime).
Proof.
  unfold get_hosts, logger. cbv zeta.
  repeat (apply never_exits_default_job || never_exits_step).
Qed.

Lemma exits_without_code_setup_hosts (hosts : list string)
  (force_deploy no_deploy : bool) :
  exits_without_code (setup_hosts E hosts force_deploy no_deploy).
Proof.
  destruct (deployment E hosts force_deploy no_deploy)
    as [deployed undeployed] eqn:Hdep.
  rewrite (setup_hosts_eq E _ _ _ _ _ Hdep). cbv zeta.
  intros code.
  destruct (sort_hosts deployed) as [e|hs]; [discriminate|].
  destruct (negb (all_ok E conf_ssh_cmd hs)); [now intros [= <-]|].
  destruct (negb (all_ok E install_cmd hs)); [now intros [= <-]|].
  discriminate.
Qed.

Lemma exits_without_code_main (args : Args) :
  exits_without_code (main E args).
Proof.
  rewrite main_eq. cbv zeta. intros code. unfold outcome at 1. cbn [snd].
  revert code.
  apply exits_without_code_bind.
  - apply never_exits_without_code, never_exits_get_hosts.
  - intros acquired. apply exits_without_code_bind.
    + apply exits_without_code_setup_hosts.
    + intros hosts. apply never_exits_without_code, never_exits_run_tests.
Qed.

End ExitStatusOfTheScript.

(** X13.  Once the command line is parsed (line 32), whatever the
    parsed arguments and whatever the environment answers, the rest of
    [main] (lines 34 to 50) ends with exit status 0 or 1, and with 1
    exactly when an exception is left uncaught: every [exit()] of the
    script is without a code.  The parsing itself, which belongs to the
    argument parser, is not covered.  No benchmark ever ends the
    program through [exit()]; in [fio] the two calls are unreachable,
    since the message logged before them cannot be built when a phase
    is not ok. *)
Theorem main_exit_status_is_0_or_1 (E : Env) (args : Args) :
  (forall code, outcome (main E args) = SystemExit code -> code = None)
  /\ (exit_status (outcome (main E args)) = 0%Z
      \/ exit_status (outcome (main E args)) = 1%Z)
  /\ (exit_status (outcome (main E args)) = 1%Z
      <-> exists e, outcome (main E args) = Uncaught e)
  /\ (forall hosts code, outcome (fio E hosts) <> SystemExit code)
  /\ (forall hosts code, outcome (run_tests E hosts) <> SystemExit code).
Proof.
  pose proof (exits_without_code_main E args) as Hmain.
  split; [exact Hmain|].
  split; [|split; [|split]].
  - destruct (outcome (main E args)) as [a|code|e] eqn:Ho; simpl; auto.
    rewrite (Hmain code Ho). auto.
  - destruct (outcome (main E args)) as [a|code|e] eqn:Ho; simpl.
    + split; [discriminate|]. intros [e H]. discriminate.
    + rewrite (Hmain code Ho). split; [discriminate|].
      intros [e H]. discriminate.
    + split; eauto.
  - intros hosts. apply never_exits_fio.
  - intros hosts. apply never_exits_run_tests.
Qed.

(** ** The shape of the extracted results *)

Section Tokens.





End Tokens.



(** ** The deployment request *)

(** X15.  [setup_hosts] calls [deploy] exactly once, before any remote
    command, for the hosts it was given and the image
    "wheezy-x64-prod": with one try, or none when [no_deploy] is set,
    and with the check of already deployed hosts unless [force_deploy]
    is set.  This holds however the function ends. *)
Theorem setup_hosts_deploys_once
  (E : Env) (hosts : list string) (force_deploy no_deploy : bool) :
  let request :=
    Deploy {| dep_hosts := hosts; env_name := "wheezy-x64-prod" |}
           (if no_deploy then 0 else 1)%Z (negb force_deploy) in
  (exists after,
      trace (setup_hosts E hosts force_deploy no_deploy)
      = Log INFO "Deploying hosts" [] :: request :: after
      /\ forall d n c, ~ In (Deploy d n c) after)
  /\ (forall d n c,
        In (Deploy d n c) (trace (setup_hosts E hosts force_deploy no_deploy)) ->
        Deploy d n c = request).
Proof.
  intros request.
  assert (Hfirst : exists after,
             trace (setup_hosts E hosts force_deploy no_deploy)
             = Log INFO "Deploying hosts" [] :: request :: after
             /\ forall d n c, ~ In (Deploy d n c) after).
  { destruct (deployment E hosts force_deploy no_deploy)
      as [deployed undeployed] eqn:Hdep.
    rewrite (setup_hosts_eq E _ _ _ _ _ Hdep). cbv zeta.
    unfold deploy_events, request.
    destruct no_deploy; cbn [negb];
      destruct (0 <? List.length undeployed)%nat;
      destruct (sort_hosts deployed) as [e|hs];
      try destruct (negb (all_ok E conf_ssh_cmd hs));
      try destruct (negb (all_ok E install_cmd hs));
      unfold trace; cbn [fst app];
      (eexists; split; [reflexivity|]);
      intros d n c H; cbn [In] in H;
      repeat (destruct H as [H|H]; [discriminate|]); exact H. }
  split; [exact Hfirst|].
  destruct Hfirst as [after [Heq Hnone]]. rewrite Heq.
  intros d n c [H|[H|H]]; [discriminate|now symmetry|].
  now apply Hnone in H.
Qed.
